(** * SEO Bot: analysis pipeline and edit lifecycle

  A shallow embedding of the route handlers of the Node.js application:
  - [Analyze]: the analysis form route with its local fallback analyzer
    ([performBasicAnalysis], [generateBasicIssues]) and the stored-analysis
    view;
  - [Api]: the quick-analyze JSON endpoint;
  - [Seo]: the edit routes (save, apply, apply-ai, cancel) over the
    [seo_edits], [websites] and [connected_accounts] tables.

  Conventions of the embedding.
  - A JavaScript string is a [string]: a sequence of code units below 256.
  - A JavaScript number that the code only uses as a small integer (scores,
    lengths, counts) is a [Z]; a number that is genuinely fractional (the
    load time in seconds, the weighted sum of the scores) is an IEEE 754
    binary64 [float], with the operations of the source on it.
  - The parsed document (cheerio) is a record of what the selectors of the
    source return; the network calls (page fetch, ML service, platform
    push) are answered by an outcome given to the handler.
  - Database statements are functions on a record of tables. An INSERT
    into [seo_edits] or [seo_analyses] is checked against the column types
    and the foreign key on [website_id] of the schema, and the handler
    takes its catch path when the row is rejected; the message of the
    database error is given to the handler, like the answers of the
    network. The fields of a registration are taken to fit the columns of
    [users].
  - A route parameter and an id of the request body is a numeral in the
    range of [INTEGER], the other fields of a request body are strings, and
    the user of the session is a row of [users] (no route deletes one). *)

From Stdlib Require Import ZArith Ascii String PrimFloat FloatOps SpecFloat Uint63 Sorted.
From stdpp Require Import gmap strings list pretty.

(* The decimal constants of the source (0.15, 0.20) stand for the nearest
 binary64 values, as they do in JavaScript. *)
Set Warnings "-inexact-float".

Open Scope Z_scope.

(** ** JavaScript primitives used by the handlers *)

Module JS.

(** Code units that [String.prototype.trim] and the regular expression
    class [\s] treat as white space (those below 256). *)
Definition is_space (c : ascii) : bool :=
  let n := nat_of_ascii c in
  (Nat.eqb n 9 || Nat.eqb n 10 || Nat.eqb n 11 || Nat.eqb n 12
   || Nat.eqb n 13 || Nat.eqb n 32 || Nat.eqb n 160)%bool.

Fixpoint trimStart (s : string) : string :=
  match s with
  | String c s' => if is_space c then trimStart s' else s
  | EmptyString => EmptyString
  end.

Fixpoint trimEnd (s : string) : string :=
  match s with
  | String c s' =>
      match trimEnd s' with
      | EmptyString => if is_space c then EmptyString else String c EmptyString
      | t => String c t
      end
  | EmptyString => EmptyString
  end.

Definition trim (s : string) : string := trimEnd (trimStart s).

(** The empty string, and a word between double quotes. *)
Definition empty : string := EmptyString.

Definition quoted (s : string) : string :=
  String (ascii_of_nat 34) (s ++ String (ascii_of_nat 34) EmptyString).

(** [s.length] *)
Definition length (s : string) : Z := Z.of_nat (String.length s).

(** Truthiness of a string: every string but the empty one. *)
Definition truthy (s : string) : bool :=
  match s with EmptyString => false | _ => true end.

(** [s.startsWith(p)] *)
Definition startsWith (s p : string) : bool := String.prefix p s.

(** [s.includes(sub)] *)
Fixpoint includes (s sub : string) : bool :=
  match s with
  | EmptyString => String.prefix sub EmptyString
  | String _ s' => (String.prefix sub s || includes s' sub)%bool
  end.

(** [o || d] for a value that is a string or undefined. *)
Definition or_str (o : option string) (d : string) : string :=
  match o with
  | Some s => if truthy s then s else d
  | None => d
  end.

(** [s.replace(/\s+/g, ' ')]: every maximal run of white space becomes one
    space. [in_run] tells whether the previous code unit was white space. *)
Fixpoint collapse_spaces (in_run : bool) (s : string) : string :=
  match s with
  | EmptyString => EmptyString
  | String c s' =>
      if is_space c
      then (if in_run then collapse_spaces true s'
            else String " "%char (collapse_spaces true s'))
      else String c (collapse_spaces false s')
  end.

(** [s.split(' ')] *)
Fixpoint split_space (s : string) : list string :=
  match s with
  | EmptyString => [EmptyString]
  | String c s' =>
      if Ascii.eqb c " "%char then EmptyString :: split_space s'
      else match split_space s' with
           | w :: ws => String c w :: ws
           | [] => [String c EmptyString]
           end
  end.

(** A template literal prints a null or undefined value by its name. *)
Definition show (o : option string) : string :=
  match o with Some s => s | None => "null"%string end.

(** The number of a small integer. *)
Definition number (z : Z) : float := PrimFloat.of_uint63 (Uint63.of_Z z).

(** [Math.round]: the integer closest to [x], a tie going towards
    +infinity. The result is computed exactly from the mantissa and the
    exponent of [x]. For NaN and the infinities JavaScript returns the
    argument itself, which is no integer; the model returns 0 there, and
    [is_finite] is what tells the two cases apart. *)
Definition Math_round (x : float) : Z :=
  match Prim2SF x with
  | S754_finite s m e =>
      let n := if s then Z.neg m else Z.pos m in
      match e with
      | Z.neg p => (2 * n + 2 ^ Z.pos p) / 2 ^ (Z.pos p + 1)
      | _ => n * 2 ^ e
      end
  | _ => 0
  end.

Definition is_finite (x : float) : bool :=
  match Prim2SF x with
  | S754_zero _ | S754_finite _ _ _ => true
  | _ => false
  end.

(** [s.toLowerCase()] on the letters A to Z. *)
Definition lower (c : ascii) : ascii :=
  let n := nat_of_ascii c in
  if (Nat.leb 65 n && Nat.leb n 90)%bool then ascii_of_nat (n + 32) else c.

Fixpoint toLowerCase (s : string) : string :=
  match s with
  | EmptyString => EmptyString
  | String c s' => String (lower c) (toLowerCase s')
  end.

(** [Math.min] on integers. *)
Definition Math_min (a b : Z) : Z := Z.min a b.

(** Truthiness of a number: every number but 0, -0 and NaN. *)
Definition truthy_number (x : float) : bool :=
  negb (PrimFloat.is_zero x || PrimFloat.is_nan x).

(** [x || y || 0] on numbers. *)
Definition or_number (x y : float) : float :=
  if truthy_number x then x else if truthy_number y then y else 0%float.

End JS.

(** ** The tables the handlers read and write *)

Module Schema.

(** [seo_edits.status]: the three literals the handlers write. *)
Inductive Status := pending | applied | cancelled.

Inductive Severity := critical | warning | info.
Inductive Category :=
  cat_title | cat_meta | cat_content | cat_technical | cat_performance
| cat_social.

Record Issue := {
  type : Severity;
  category : Category;
  message : string
}.

Record Account := {
  provider : string;
  access_token : option string;
  account_url : option string
}.

Record Website := {
  w_user_id : nat;
  w_url : string;
  connected_account_id : option nat;
  last_analyzed : option Z
}.

Record Edit := {
  website_id : nat;
  user_id : nat;
  page_url : string;
  field_type : string;
  old_value : string;
  new_value : string;
  status : Status;
  applied_at : option Z;
  created_at : Z
}.

Record AnalysisRow := {
  r_website_id : option nat;
  r_user_id : nat;
  r_url : string;
  overall_score : Z;
  title_score : Z;
  meta_score : Z;
  content_score : Z;
  technical_score : Z;
  performance_score : Z;
  r_title : string;
  r_meta_description : string;
  r_h1_tags : list string;
  r_h2_tags : list string;
  r_images_without_alt : Z;
  r_total_images : Z;
  r_word_count : Z;
  r_internal_links : Z;
  r_external_links : Z;
  has_sitemap : bool;
  has_robots : bool;
  r_is_mobile_friendly : bool;
  page_load_time : float;
  r_issues : list Issue;
  r_suggestions : list string;
  analyzed_at : Z
}.

(** The database: one finite map per table, keyed by the serial [id], and
    the next value of the two sequences the handlers draw from. *)
Record Db := {
  websites : gmap nat Website;
  connected_accounts : gmap nat Account;
  seo_edits : gmap nat Edit;
  seo_analyses : gmap nat AnalysisRow;
  next_edit_id : nat;
  next_analysis_id : nat
}.

Definition with_status (e : Edit) (s : Status) (at_ : option Z) : Edit :=
  {| website_id := website_id e; user_id := user_id e; page_url := page_url e;
     field_type := field_type e; old_value := old_value e;
     new_value := new_value e; status := s; applied_at := at_;
     created_at := created_at e |}.

Definition with_seo_edits (db : Db) (t : gmap nat Edit) (next : nat) : Db :=
  {| websites := websites db; connected_accounts := connected_accounts db;
     seo_edits := t; seo_analyses := seo_analyses db;
     next_edit_id := next; next_analysis_id := next_analysis_id db |}.

(** *** What the columns accept *)

(** The code unit 0, which the database refuses in every text value. *)
Definition nul : string := String Ascii.zero EmptyString.

(** A [TEXT] value. *)
Definition text_ok (s : string) : bool := negb (JS.includes s nul).

(** A string of spaces only. *)
Fixpoint blank (s : string) : bool :=
  match s with
  | EmptyString => true
  | String c s' => Ascii.eqb c " "%char && blank s'
  end.

(** What a [VARCHAR(n)] column stores of a value that is assigned to it:
    the value itself when it has at most [n] characters, its first [n]
    characters when the others are all spaces, and nothing (the statement
    fails) otherwise. *)
Definition varchar (n : nat) (s : string) : option string :=
  if text_ok s && blank (substring n (String.length s) s)
  then Some (substring 0 n s)
  else None.

(** A value a [VARCHAR(n)] column stores as it is. *)
Definition varchar_ok (n : nat) (s : string) : bool :=
  Nat.leb (String.length s) n && text_ok s.

(** An [INTEGER] value, of 32 bits. *)
Definition integer_ok (z : Z) : bool :=
  (-2147483648 <=? z) && (z <=? 2147483647).

(** The row of [seo_edits] that is stored for an edit: [page_url
    VARCHAR(500)], [field_type VARCHAR(50)], [old_value TEXT], [new_value
    TEXT]. *)
Definition stored_edit (e : Edit) : option Edit :=
  match varchar 500 (page_url e), varchar 50 (field_type e) with
  | Some p, Some f =>
      if text_ok (old_value e) && text_ok (new_value e)
      then Some {| website_id := website_id e; user_id := user_id e;
                   page_url := p; field_type := f;
                   old_value := old_value e; new_value := new_value e;
                   status := status e; applied_at := applied_at e;
                   created_at := created_at e |}
      else None
  | _, _ => None
  end.

(** The values of a row of [seo_analyses] that go to an [INTEGER] column:
    the six scores and the five counts. *)
Definition integers_of (r : AnalysisRow) : list Z :=
  [overall_score r; title_score r; meta_score r; content_score r;
   technical_score r; performance_score r; r_images_without_alt r;
   r_total_images r; r_word_count r; r_internal_links r; r_external_links r].

(** The strings of a row that go to a [TEXT] column (title, description) or
    into a [JSONB] one (headings, messages of the issues, suggestions); a
    [JSONB] value holds no code unit 0 either. *)
Definition texts_of (r : AnalysisRow) : list string :=
  r_title r :: r_meta_description r
  :: r_h1_tags r ++ r_h2_tags r ++ List.map message (r_issues r)
     ++ r_suggestions r.

(** The columns of [seo_analyses] but the URL. *)
Definition values_ok (r : AnalysisRow) : bool :=
  forallb integer_ok (integers_of r) && forallb text_ok (texts_of r).

Definition with_url (r : AnalysisRow) (u : string) : AnalysisRow :=
  {| r_website_id := r_website_id r; r_user_id := r_user_id r; r_url := u;
     overall_score := overall_score r; title_score := title_score r;
     meta_score := meta_score r; content_score := content_score r;
     technical_score := technical_score r;
     performance_score := performance_score r;
     r_title := r_title r; r_meta_description := r_meta_description r;
     r_h1_tags := r_h1_tags r; r_h2_tags := r_h2_tags r;
     r_images_without_alt := r_images_without_alt r;
     r_total_images := r_total_images r; r_word_count := r_word_count r;
     r_internal_links := r_internal_links r;
     r_external_links := r_external_links r;
     has_sitemap := has_sitemap r; has_robots := has_robots r;
     r_is_mobile_friendly := r_is_mobile_friendly r;
     page_load_time := page_load_time r; r_issues := r_issues r;
     r_suggestions := r_suggestions r; analyzed_at := analyzed_at r |}.

(** The row of [seo_analyses] that is stored for an analysis, [url] being a
    [VARCHAR(500)]. *)
Definition stored_row (r : AnalysisRow) : option AnalysisRow :=
  match varchar 500 (r_url r) with
  | Some u => if values_ok r then Some (with_url r u) else None
  | None => None
  end.

(** [website_id INTEGER REFERENCES websites(id)]: null, or the id of a
    stored website. *)
Definition website_exists (db : Db) (id : option nat) : bool :=
  match id with
  | Some w => match websites db !! w with Some _ => true | None => false end
  | None => true
  end.

(** [INSERT INTO seo_edits ... RETURNING *]: the database and the id of the
    new row, or nothing when the row is rejected. The website of the row has
    just been selected by the handler. *)
Definition insert_edit (db : Db) (e : Edit) : option (Db * nat) :=
  match stored_edit e with
  | Some e' =>
      let id := next_edit_id db in
      Some (with_seo_edits db (<[id := e']> (seo_edits db)) (S id), id)
  | None => None
  end.

(** [UPDATE seo_edits SET status = 'applied', applied_at = CURRENT_TIMESTAMP
    WHERE id = $1] *)
Definition mark_applied (db : Db) (id : nat) (now : Z) : Db :=
  with_seo_edits db
    (alter (fun e => with_status e applied (Some now)) id (seo_edits db))
    (next_edit_id db).

Definition with_seo_analyses (db : Db) (t : gmap nat AnalysisRow) (next : nat)
  : Db :=
  {| websites := websites db; connected_accounts := connected_accounts db;
     seo_edits := seo_edits db; seo_analyses := t;
     next_edit_id := next_edit_id db; next_analysis_id := next |}.

(** [INSERT INTO seo_analyses ... RETURNING *]: the database afterwards and
    the new row as it is stored, if it is. A row with a value that a column
    does not accept is rejected before the statement runs. A row that
    refers to a website that is not stored is rejected by the foreign key
    once it has been written: it is taken back, the value it drew from the
    sequence is not. *)
Definition insert_analysis (db : Db) (r : AnalysisRow)
  : Db * option AnalysisRow :=
  match stored_row r with
  | Some r' =>
      let id := next_analysis_id db in
      if website_exists db (r_website_id r)
      then (with_seo_analyses db (<[id := r']> (seo_analyses db)) (S id),
            Some r')
      else (with_seo_analyses db (seo_analyses db) (S id), None)
  | None => (db, None)
  end.

(** [UPDATE websites SET last_analyzed = CURRENT_TIMESTAMP WHERE id = $1] *)
Definition touch_website (db : Db) (id : nat) (now : Z) : Db :=
  {| websites :=
       alter (fun w => {| w_user_id := w_user_id w; w_url := w_url w;
                          connected_account_id := connected_account_id w;
                          last_analyzed := Some now |}) id (websites db);
     connected_accounts := connected_accounts db;
     seo_edits := seo_edits db; seo_analyses := seo_analyses db;
     next_edit_id := next_edit_id db;
     next_analysis_id := next_analysis_id db |}.

(** [SELECT * FROM websites WHERE id = $1 AND user_id = $2] *)
Definition website_of (db : Db) (id userId : nat) : option Website :=
  match websites db !! id with
  | Some w => if Nat.eqb (w_user_id w) userId then Some w else None
  | None => None
  end.

(** The account a website row is left-joined with. *)
Definition account_of (db : Db) (w : Website) : option Account :=
  match connected_account_id w with
  | Some a => connected_accounts db !! a
  | None => None
  end.

Inductive Flash := flash_error (m : string) | flash_success (m : string).

End Schema.

(** ** The analysis routes and the local fallback analyzer *)

Module Analyze.

Import Schema.

(** What the selectors of [performBasicAnalysis] return on a document. *)
Record Page := {
  title_text : string;                 (* $('title').text() *)
  description_content : option string; (* meta[name="description"] content *)
  h1_texts : list string;              (* text of every h1 *)
  h2_texts : list string;              (* text of every h2 *)
  img_alts : list (option string);     (* alt attribute of every img *)
  anchor_hrefs : list string;          (* href of every a[href] *)
  body_text : string;                  (* $('body').text() *)
  viewport_content : option string     (* meta[name="viewport"] content *)
}.

Record Scores := {
  title : Z;
  meta : Z;
  content : Z;
  technical : Z;
  performance : Z;
  social : Z
}.

Record Features := {
  f_title : string;
  title_length : Z;
  meta_description : string;
  meta_description_length : Z;
  h1_tags : list string;
  h2_tags : list string;
  h1_count : Z;
  word_count : Z;
  total_images : Z;
  images_without_alt : Z;
  internal_links : Z;
  external_links : Z;
  is_mobile_friendly : bool;
  f_load_time : float
}.

Record AnalysisData := {
  url : string;
  load_time : float;
  overall_score : Z;
  scores : Scores;
  scores_overall : option Z;   (* scores.overall, which only the ML service may give *)
  features : Features;
  issues : list Issue;
  suggestions : list string;
  grade : string
}.

(** An image misses its alt text when the attribute is absent, empty, or
    blank after trimming. *)
Definition missing_alt (alt : option string) : bool :=
  match alt with
  | None => true
  | Some a => (negb (JS.truthy a) || String.eqb (JS.trim a) JS.empty)%bool
  end.

(** The test of the link loop: [href && href.startsWith('http')]. *)
Definition is_external (href : string) : bool :=
  (JS.truthy href && JS.startsWith href "http")%bool.

(** The link loop: one pass that bumps one of the two counters per anchor;
    the result is [(internalLinks, externalLinks)]. *)
Definition count_links (hrefs : list string) : Z * Z :=
  fold_left
    (fun '(internalLinks, externalLinks) href =>
       if is_external href
       then (internalLinks, externalLinks + 1)
       else (internalLinks + 1, externalLinks))
    hrefs (0, 0).

Definition count_words (bodyText : string) : Z :=
  let t := JS.trim (JS.collapse_spaces false bodyText) in
  Z.of_nat (List.length (List.filter (fun w => 0 <? JS.length w) (JS.split_space t))).

Definition titleScore (title : string) : Z :=
  if JS.truthy title
  then (if (30 <=? JS.length title) && (JS.length title <=? 60) then 100 else 60)
  else 0.

Definition metaScore (metaDescription : string) : Z :=
  if JS.truthy metaDescription
  then (if (120 <=? JS.length metaDescription) && (JS.length metaDescription <=? 160)
        then 100 else 60)
  else 0.

Definition contentScore (h1Tags : list string) (wordCount : Z) : Z :=
  let h1 := Z.of_nat (List.length h1Tags) in
  (if h1 =? 1 then 70 else if 0 <? h1 then 50 else 20)
  + (if 300 <=? wordCount then 30 else 10).

Definition technicalScore (isMobileFriendly : bool) : Z :=
  if isMobileFriendly then 80 else 40.

Definition performanceScore (loadTime : float) : Z :=
  if (loadTime <? 2)%float then 100
  else if (loadTime <? 4)%float then 70 else 40.

(** The argument of [Math.round] in [performBasicAnalysis]: five products
    added from left to right in binary64. *)
Definition weighted_sum (t m c te p : Z) : float :=
  (JS.number t * 0.15 + JS.number m * 0.15 + JS.number c * 0.25
   + JS.number te * 0.25 + JS.number p * 0.20)%float.

Definition overallScore (t m c te p : Z) : Z :=
  JS.Math_round (weighted_sum t m c te p).

(** The grade ladder at the end of [performBasicAnalysis]. *)
Definition grade_of (overallScore : Z) : string :=
  if 80 <=? overallScore then "A"
  else if 60 <=? overallScore then "B"
  else if 40 <=? overallScore then "C"
  else "D".

(** The grade expression of the stored-analysis view, [GET /:id]. *)
Definition view_grade (overall_score : Z) : string :=
  if 80 <=? overall_score then "A"
  else if 60 <=? overall_score then "B"
  else "C".

Definition generateBasicIssues (title metaDesc : string) (h1Tags : list string)
    (wordCount : Z) (mobileFriendly : bool) (loadTime : float) : list Issue :=
  let h1 := Z.of_nat (List.length h1Tags) in
  (if negb (JS.truthy title)
   then [ {| type := critical; category := cat_title; message := "Missing page title" |} ]
   else if JS.length title <? 30
   then [ {| type := warning; category := cat_title; message := "Title too short" |} ]
   else if 60 <? JS.length title
   then [ {| type := warning; category := cat_title; message := "Title too long" |} ]
   else [])
  ++ (if negb (JS.truthy metaDesc)
      then [ {| type := critical; category := cat_meta; message := "Missing meta description" |} ]
      else [])
  ++ (if h1 =? 0
      then [ {| type := critical; category := cat_content; message := "Missing H1 heading" |} ]
      else if 1 <? h1
      then [ {| type := warning; category := cat_content; message := "Multiple H1 tags" |} ]
      else [])
  ++ (if wordCount <? 300
      then [ {| type := warning; category := cat_content; message := "Thin content" |} ]
      else [])
  ++ (if negb mobileFriendly
      then [ {| type := critical; category := cat_technical; message := "Not mobile-friendly" |} ]
      else [])
  ++ (if (3 <? loadTime)%float
      then [ {| type := warning; category := cat_performance; message := "Slow load time" |} ]
      else []).

(** [performBasicAnalysis] after the page has been fetched: [page] is the
    parsed response and [loadTime] the measured time in seconds. *)
Definition analyse_page (url : string) (page : Page) (loadTime : float) : AnalysisData :=
  let title := JS.or_str (Some (JS.trim (title_text page))) JS.empty in
  let metaDescription := JS.or_str (description_content page) JS.empty in
  let h1Tags := List.map JS.trim (h1_texts page) in
  let h2Tags := List.map JS.trim (h2_texts page) in
  let imagesWithoutAlt :=
    Z.of_nat (List.length (List.filter missing_alt (img_alts page))) in
  let '(internalLinks, externalLinks) := count_links (anchor_hrefs page) in
  let wordCount := count_words (body_text page) in
  let viewportMeta := JS.or_str (viewport_content page) JS.empty in
  let isMobileFriendly := JS.includes viewportMeta "width=device-width" in
  let ts := titleScore title in
  let ms := metaScore metaDescription in
  let cs := contentScore h1Tags wordCount in
  let tes := technicalScore isMobileFriendly in
  let ps := performanceScore loadTime in
  let overall := overallScore ts ms cs tes ps in
  {| url := url;
     load_time := loadTime;
     overall_score := overall;
     scores := {| title := ts; meta := ms; content := cs; technical := tes;
                  performance := ps; social := 0 |};
     scores_overall := None;
     features := {| f_title := title;
                    title_length := JS.length title;
                    meta_description := metaDescription;
                    meta_description_length := JS.length metaDescription;
                    h1_tags := h1Tags;
                    h2_tags := take 5 h2Tags;
                    h1_count := Z.of_nat (List.length h1Tags);
                    word_count := wordCount;
                    total_images := Z.of_nat (List.length (img_alts page));
                    images_without_alt := imagesWithoutAlt;
                    internal_links := internalLinks;
                    external_links := externalLinks;
                    is_mobile_friendly := isMobileFriendly;
                    f_load_time := loadTime |};
     issues := generateBasicIssues title metaDescription h1Tags wordCount
                 isMobileFriendly loadTime;
     suggestions := [];
     grade := grade_of overall |}.

(** *** The network, as the handlers see it *)

(** [axios.get(url, ...)]: the parsed response together with the time the
    request took, in seconds, or the message of the error it threw (network
    failure, timeout, status outside 2xx). *)
Inductive Fetch :=
| fetch_ok (page : Page) (loadTime : float)
| fetch_error (message : string).

(** [axios.post(ML_SERVICE_URL + '/analyze', {url})]: the analysis the ML
    service answers with, or a failure of the call. The handler reads the
    answer with the field names [performBasicAnalysis] produces, and
    [scores.overall] besides; the answer is an object that has these
    fields, its scores and counts being integers. *)
Inductive MlAnalyze :=
| ml_ok (data : AnalysisData)
| ml_error.

(** [performBasicAnalysis(url)]: the fetch may throw, and nothing after it
    does. *)
Definition performBasicAnalysis (get : string -> Fetch) (url : string)
  : string + AnalysisData :=
  match get url with
  | fetch_ok page loadTime => inr (analyse_page url page loadTime)
  | fetch_error m => inl m
  end.

(** The URL normalisation shared by the analysis routes. *)
Definition normalize (url : string) : string :=
  if negb (JS.startsWith url "http://") && negb (JS.startsWith url "https://")
  then ("https://" ++ url)%string
  else url.

Record ResultView := {
  v_analysis : AnalysisRow;
  v_scores : Scores;
  v_grade : string;
  v_issues : list Issue;
  v_useML : bool
}.

Inductive Response :=
| redirect (f : Flash) (location : string)
| render_result (v : ResultView).

(** The row [POST /analyze] inserts for an analysis. A default of the source
    for a single field ([x || 0], [x || ''], [x || []], [x || false]) is the
    identity on a field that is present; the overall score and the load
    time have a second source each. *)
Definition row_of (websiteId : option nat) (userId : nat) (normalizedUrl : string)
    (d : AnalysisData) (now : Z) : AnalysisRow :=
  {| r_website_id := websiteId;
     r_user_id := userId;
     r_url := normalizedUrl;
     Schema.overall_score :=
       (* analysisData.overall_score || analysisData.scores?.overall || 0 *)
       if overall_score d =? 0
       then match scores_overall d with Some o => o | None => 0 end
       else overall_score d;
     title_score := title (scores d);
     meta_score := meta (scores d);
     content_score := content (scores d);
     technical_score := technical (scores d);
     performance_score := performance (scores d);
     r_title := f_title (features d);
     r_meta_description := meta_description (features d);
     r_h1_tags := h1_tags (features d);
     r_h2_tags := h2_tags (features d);
     r_images_without_alt := images_without_alt (features d);
     r_total_images := total_images (features d);
     r_word_count := word_count (features d);
     r_internal_links := internal_links (features d);
     r_external_links := external_links (features d);
     has_sitemap := false;
     has_robots := false;
     r_is_mobile_friendly := is_mobile_friendly (features d);
     page_load_time :=
       (* analysisData.load_time || analysisData.features?.load_time || 0 *)
       JS.or_number (load_time d) (f_load_time (features d));
     r_issues := issues d;
     r_suggestions := suggestions d;
     analyzed_at := now |}.

(** [router.post('/')]: perform an analysis. [url] and [websiteId] are the
    fields of the request body, [ml] and [get] the two network calls, and
    [explain] gives the message of the error the database raises when it
    rejects a row. *)
Definition post_analyze (explain : AnalysisRow -> string)
    (ml : string -> MlAnalyze) (get : string -> Fetch)
    (now : Z) (url : option string) (websiteId : option nat) (userId : nat)
    (db : Db) : Db * Response :=
  match url with
  | None | Some EmptyString =>
      (db, redirect (flash_error "Please provide a URL to analyze") "/analyze")
  | Some url =>
      let normalizedUrl := normalize url in
      let analysisData :=
        match ml normalizedUrl with
        | ml_ok data => inr (data, true)
        | ml_error =>
            match performBasicAnalysis get normalizedUrl with
            | inr data => inr (data, false)
            | inl m => inl m
            end
        end in
      match analysisData with
      | inl m =>
          (db, redirect
                 (flash_error ("An error occurred during analysis: " ++ m))
                 "/analyze")
      | inr (data, useMLService) =>
          let row := row_of websiteId userId normalizedUrl data now in
          match insert_analysis db row with
          | (db1, Some stored) =>
              let db2 := match websiteId with
                         | Some w => touch_website db1 w now
                         | None => db1
                         end in
              (db2, render_result
                      {| v_analysis := stored;
                         v_scores := scores data;
                         v_grade := JS.or_str (Some (grade data)) "N/A";
                         v_issues := issues data;
                         v_useML := useMLService |})
          | (db1, None) =>
              (db1, redirect
                      (flash_error
                         ("An error occurred during analysis: " ++ explain row))
                      "/analyze")
          end
      end
  end.

(** [router.get('/:id')]: view a stored analysis. *)
Definition get_analysis (id userId : nat) (db : Db) : Response :=
  match seo_analyses db !! id with
  | Some analysis =>
      if Nat.eqb (r_user_id analysis) userId
      then render_result
             {| v_analysis := analysis;
                v_scores := {| title := title_score analysis;
                               meta := meta_score analysis;
                               content := content_score analysis;
                               technical := technical_score analysis;
                               performance := performance_score analysis;
                               social := 0 |};
                v_grade := view_grade (Schema.overall_score analysis);
                v_issues := r_issues analysis;
                v_useML := false |}
      else redirect (flash_error "Analysis not found") "/dashboard"
  | None => redirect (flash_error "Analysis not found") "/dashboard"
  end.

(** *** The statements of the specification, in its own words *)

(** The weights of the rule table over the six categories, in percent:
    title 15, meta 15, content 25, technical 20, performance 15, social 10.
    With social at 10, these are the only weights within the ranges of the
    table (technical 20 to 25, performance 15 to 20) that add up to 100; the
    README gives the same table for the ML analyzer. *)
Definition weight (c : Category) : Z :=
  match c with
  | cat_title => 15
  | cat_meta => 15
  | cat_content => 25
  | cat_technical => 20
  | cat_performance => 15
  | cat_social => 10
  end.

(** A table within the ranges of the specification: title, meta and
    content as given, technical from 20 to 25, performance from 15 to 20,
    social 10, the six adding up to 100. *)
Definition within_ranges (w : Category -> Z) : Prop :=
  w cat_title = 15 /\ w cat_meta = 15 /\ w cat_content = 25
  /\ 20 <= w cat_technical <= 25 /\ 15 <= w cat_performance <= 20
  /\ w cat_social = 10
  /\ w cat_title + w cat_meta + w cat_content + w cat_technical
     + w cat_performance + w cat_social = 100.

Definition score_of (s : Scores) (c : Category) : Z :=
  match c with
  | cat_title => title s
  | cat_meta => meta s
  | cat_content => content s
  | cat_technical => technical s
  | cat_performance => performance s
  | cat_social => social s
  end.

Definition categories : list Category :=
  [cat_title; cat_meta; cat_content; cat_technical; cat_performance; cat_social].

(** The sum of category x weight over the six categories, in hundredths,
    for a table of weights in percent. *)
Definition weighted_total (w : Category -> Z) (s : Scores) : Z :=
  fold_right (fun c acc => score_of s c * w c + acc) 0 categories.

(** [n / 100] rounded to the nearest integer, a tie going up. *)
Definition round_hundredths (n : Z) : Z := (2 * n + 100) / 200.

(** The position of a category in the fixed order of the rule chain and of
    a severity in the order critical, warning, info. *)
Definition category_rank (c : Category) : nat :=
  match c with
  | cat_title => 0 | cat_meta => 1 | cat_content => 2 | cat_technical => 3
  | cat_performance => 4 | cat_social => 5
  end%nat.

Definition severity_rank (s : Severity) : nat :=
  match s with critical => 0 | warning => 1 | info => 2 end%nat.

(** [a] may stand before [b]: an earlier category, or the same category and
    a severity that is not lower. *)
Definition issue_le (a b : Issue) : Prop :=
  (category_rank (category a) < category_rank (category b))%nat
  \/ (category (a) = category b
      /\ (severity_rank (type a) <= severity_rank (type b))%nat).

Definition is_missing_meta (i : Issue) : bool :=
  match type i, category i with critical, cat_meta => true | _, _ => false end.

Definition is_short_title (i : Issue) : bool :=
  match type i, category i with
  | warning, cat_title => String.eqb (message i) "Title too short"
  | _, _ => false
  end.

(** The two issues of the example of the specification. *)
Definition short_title_issue : Issue :=
  {| type := warning; category := cat_title; message := "Title too short" |}.

Definition missing_meta_issue : Issue :=
  {| type := critical; category := cat_meta;
     message := "Missing meta description" |}.

(** Every issue satisfying [p] stands before every issue satisfying [q]. *)
Definition ranked_before (p q : Issue -> bool) (l : list Issue) : Prop :=
  forall (i j : nat) (x y : Issue),
    l !! i = Some x -> l !! j = Some y -> p x = true -> q y = true ->
    (i < j)%nat.

(** An href that begins with an absolute scheme: a letter, then letters,
    digits, [+], [-] or [.], then a colon. *)
Definition is_alpha (c : ascii) : bool :=
  let n := nat_of_ascii c in
  ((Nat.leb 65 n && Nat.leb n 90) || (Nat.leb 97 n && Nat.leb n 122))%bool.

Definition is_scheme_char (c : ascii) : bool :=
  let n := nat_of_ascii c in
  (is_alpha c || (Nat.leb 48 n && Nat.leb n 57)
   || Nat.eqb n 43 || Nat.eqb n 45 || Nat.eqb n 46)%bool.

Fixpoint scheme_tail (s : string) : bool :=
  match s with
  | EmptyString => false
  | String c s' =>
      if Ascii.eqb c ":"%char then true
      else if is_scheme_char c then scheme_tail s' else false
  end.

Definition begins_with_absolute_scheme (href : string) : bool :=
  match href with
  | EmptyString => false
  | String c s' => (is_alpha c && scheme_tail s')%bool
  end.

(** A link counts as external exactly when its href begins with an absolute
    scheme. *)
Definition scheme_rule (href : string) : Prop :=
  is_external href = true <-> begins_with_absolute_scheme href = true.

(** The hrefs the code counts as external, and the others. *)
Definition http_prefixed (href : string) : bool := String.prefix "http" href.

Definition count_if {A : Type} (p : A -> bool) (l : list A) : Z :=
  Z.of_nat (List.length (List.filter p l)).

(** The list holds one critical missing-meta issue, and it stands before
    every short-title warning. *)
Definition meta_first (l : list Issue) : Prop :=
  count_if is_missing_meta l = 1
  /\ ranked_before is_missing_meta is_short_title l.

(** The text a response shows the user. *)
Definition text_of (r : Response) : string :=
  match r with
  | redirect (flash_error m) _ | redirect (flash_success m) _ => m
  | render_result _ => JS.empty
  end.

(** The caller is told that the URL could not be fetched. *)
Definition told_could_not_fetch (text : string) : bool :=
  JS.includes (JS.toLowerCase text) "could not fetch url".

End Analyze.

(** ** The quick-analyze API *)

Module Api.

Import Schema.

Record Result := {
  url : string;
  score : Z;
  title : string;
  metaDescription : string;
  h1Count : Z;
  loadTime : float
}.

Inductive Response :=
| json_error (status : Z) (error : string)
| json_result (r : Result).

(** The quick score: a base of 50 and four independent bonuses. *)
Definition quick_score (title metaDescription : string) (h1Count : Z)
    (loadTime : float) : Z :=
  let score := 50 in
  let score :=
    if JS.truthy title && (30 <=? JS.length title) && (JS.length title <=? 60)
    then score + 15 else score in
  let score :=
    if JS.truthy metaDescription && (120 <=? JS.length metaDescription)
       && (JS.length metaDescription <=? 160)
    then score + 15 else score in
  let score := if h1Count =? 1 then score + 10 else score in
  let score := if (loadTime <? 2)%float then score + 10 else score in
  score.

(** [router.post('/analyze')] *)
Definition post_analyze (get : string -> Analyze.Fetch) (url : option string)
  : Response :=
  match url with
  | None | Some EmptyString => json_error 400 "URL is required"
  | Some url =>
      let normalizedUrl := Analyze.normalize url in
      match get normalizedUrl with
      | Analyze.fetch_error _ => json_error 400 "Could not fetch URL"
      | Analyze.fetch_ok page loadTime =>
          let title := JS.trim (Analyze.title_text page) in
          let metaDescription :=
            JS.or_str (Analyze.description_content page) JS.empty in
          let h1Count := Z.of_nat (List.length (Analyze.h1_texts page)) in
          json_result
            {| url := normalizedUrl;
               score := JS.Math_min
                          (quick_score title metaDescription h1Count loadTime)
                          100;
               title := title;
               metaDescription := metaDescription;
               h1Count := h1Count;
               loadTime := loadTime |}
      end
  end.

End Api.

(** ** The edit lifecycle *)

Module Seo.

Import Schema.

(** The body of [POST ML_SERVICE_URL/push]. *)
Record PushRequest := {
  platform : option string;
  p_access_token : option string;
  site_url : option string;
  store_url : option string;
  repo : option string;
  p_content : list (string * string);
  target_page_url : string
}.

(** What the push call does: it answers with an object, possibly with a
    note in [push_data], or it throws (network error, timeout, status
    outside 2xx). *)
Inductive PushOutcome :=
| push_ok (note : option string)
| push_error (message : string).

Inductive Response :=
| redirect (f : Flash) (location : string)
| json (success : bool) (text : string).

(** What a handler leaves behind: the database, the response, and the push
    requests it sent, in order. *)
Record Outcome := {
  db_after : Db;
  response : Response;
  pushes : list PushRequest
}.

Definition edit_page (websiteId : nat) : string :=
  ("/seo/edit/" ++ pretty websiteId)%string.

(** [!edit.connected_account_id]: null, or the number 0. *)
Definition no_account (id : option nat) : bool :=
  match id with
  | None | Some O => true
  | Some _ => false
  end.

(** [router.post('/edit/:websiteId')]: save an edit. *)
Definition save_edit (now : Z) (websiteId userId : nat)
    (field_type old_value new_value : string) (page_url : option string)
    (db : Db) : Outcome :=
  match website_of db websiteId userId with
  | None =>
      {| db_after := db;
         response := redirect (flash_error "Website not found") "/websites";
         pushes := [] |}
  | Some w =>
      let e := {| website_id := websiteId; user_id := userId;
                  page_url := JS.or_str page_url (w_url w);
                  field_type := field_type; old_value := old_value;
                  new_value := new_value; status := pending;
                  applied_at := None; created_at := now |} in
      match insert_edit db e with
      | Some (db1, _) =>
          {| db_after := db1;
             response :=
               redirect
                 (flash_success
                    ("SEO change saved! Click " ++ JS.quoted "Apply"
                     ++ " to push to your site."))
                 (edit_page websiteId);
             pushes := [] |}
      | None =>
          {| db_after := db;
             response :=
               redirect (flash_error "Error saving SEO change")
                 (edit_page websiteId);
             pushes := [] |}
      end
  end.

(** The row [POST /apply/:editId] selects: the edit of that id and user,
    joined with its website and left-joined with the website's account. *)
Definition joined_edit (db : Db) (editId userId : nat)
  : option (Edit * Website * option Account) :=
  match seo_edits db !! editId with
  | Some e =>
      if Nat.eqb (user_id e) userId
      then match websites db !! website_id e with
           | Some w => Some (e, w, account_of db w)
           | None => None
           end
      else None
  | None => None
  end.

(** The object [content] of [POST /apply/:editId]: the new value under the
    name of the field. An assignment to the name [__proto__] goes to the
    setter of the prototype, which ignores a string, and leaves the object
    without a property of its own. *)
Definition content_of (edit : Edit) : list (string * string) :=
  if String.eqb (field_type edit) "title"
  then [("title"%string, new_value edit)]
  else if String.eqb (field_type edit) "meta_description"
  then [("meta_description"%string, new_value edit)]
  else if String.eqb (field_type edit) "__proto__" then []
  else [(field_type edit, new_value edit)].

(** [router.post('/apply/:editId')]: apply an edit to the platform. *)
Definition apply_edit (push : PushRequest -> PushOutcome) (now : Z)
    (editId userId : nat) (db : Db) : Outcome :=
  match joined_edit db editId userId with
  | None =>
      {| db_after := db;
         response := redirect (flash_error "Edit not found") "/websites";
         pushes := [] |}
  | Some (edit, w, acct) =>
      if no_account (connected_account_id w)
      then {| db_after := db;
              response :=
                redirect
                  (flash_error
                     "No platform connected. Connect a platform first to push changes.")
                  (edit_page (website_id edit));
              pushes := [] |}
      else
        let request :=
          {| platform := provider <$> acct;
             p_access_token := acct ≫= access_token;
             site_url := acct ≫= account_url;
             store_url := acct ≫= account_url;
             repo := acct ≫= account_url;
             p_content := content_of edit;
             target_page_url := JS.or_str (Some (page_url edit)) (w_url w) |} in
        match push request with
        | push_ok note =>
            {| db_after := mark_applied db editId now;
               response :=
                 redirect
                   (flash_success
                      ("SEO change applied to " ++ JS.show (provider <$> acct)
                       ++ "! " ++ JS.or_str note JS.empty))
                   (edit_page (website_id edit));
               pushes := [request] |}
        | push_error _ =>
            (* Still mark as applied (demo mode) *)
            {| db_after := mark_applied db editId now;
               response :=
                 redirect
                   (flash_success
                      ("SEO change marked as applied (Demo mode - actual API integration required for "
                       ++ JS.show (provider <$> acct) ++ ")"))
                   (edit_page (website_id edit));
               pushes := [request] |}
        end
  end.

Definition saved_reply : Response :=
  json true "AI suggestion saved. Connect a platform to push to your site.".

(** The edit [POST /apply-ai/:websiteId] saves first. *)
Definition suggested_edit (now : Z) (websiteId userId : nat)
    (suggestion_type suggestion_content : string) (website : Website) : Edit :=
  {| website_id := websiteId; user_id := userId;
     page_url := w_url website; field_type := suggestion_type;
     old_value := JS.empty; new_value := suggestion_content;
     status := pending; applied_at := None; created_at := now |}.

(** [router.post('/apply-ai/:websiteId')]: apply an AI suggestion directly.
    [explain] gives the message of the error the database raises when it
    rejects the edit. *)
Definition apply_ai (explain : Edit -> string)
    (push : PushRequest -> PushOutcome) (now : Z)
    (websiteId userId : nat) (suggestion_type suggestion_content : string)
    (db : Db) : Outcome :=
  match website_of db websiteId userId with
  | None =>
      {| db_after := db; response := json false "Website not found";
         pushes := [] |}
  | Some website =>
      let acct := account_of db website in
      let e := suggested_edit now websiteId userId suggestion_type
                 suggestion_content website in
      match insert_edit db e with
      | None =>
          {| db_after := db; response := json false (explain e);
             pushes := [] |}
      | Some (db1, id) =>
          match acct with
          | Some a =>
              if JS.truthy (provider a)
              then
                let content :=
                  if String.eqb suggestion_type "title"
                  then [("title"%string, suggestion_content)]
                  else if String.eqb suggestion_type "meta_description"
                  then [("meta_description"%string, suggestion_content)]
                  else [] in
                let request :=
                  {| platform := Some (provider a);
                     p_access_token := access_token a;
                     site_url := account_url a;
                     store_url := None;
                     repo := None;
                     p_content := content;
                     target_page_url := w_url website |} in
                match push request with
                | push_ok _ =>
                    {| db_after := mark_applied db1 id now;
                       response :=
                         json true
                           ("AI suggestion applied to " ++ provider a ++ "!");
                       pushes := [request] |}
                | push_error _ =>
                    {| db_after := db1; response := saved_reply;
                       pushes := [request] |}
                end
              else {| db_after := db1; response := saved_reply; pushes := [] |}
          | None => {| db_after := db1; response := saved_reply; pushes := [] |}
          end
      end
  end.

Definition not_processed (db : Db) : Outcome :=
  {| db_after := db;
     response :=
       redirect (flash_error "Edit not found or already processed") "/websites";
     pushes := [] |}.

(** [router.post('/cancel/:editId')]: cancel a pending edit, with the single
    statement [UPDATE seo_edits SET status = 'cancelled' WHERE id = $1 AND
    user_id = $2 AND status = 'pending' RETURNING website_id]. *)
Definition cancel_edit (editId userId : nat) (db : Db) : Outcome :=
  match seo_edits db !! editId with
  | Some e =>
      match status e with
      | pending =>
          if Nat.eqb (user_id e) userId
          then {| db_after :=
                    with_seo_edits db
                      (<[editId := with_status e cancelled (applied_at e)]>
                         (seo_edits db))
                      (next_edit_id db);
                  response :=
                    redirect (flash_success "Edit cancelled")
                      (edit_page (website_id e));
                  pushes := [] |}
          else not_processed db
      | _ => not_processed db
      end
  | None => not_processed db
  end.

(** *** Sequences of lifecycle operations *)

Inductive Op :=
| createEdit (websiteId userId : nat) (field_type old_value new_value : string)
| applyEdit (editId userId : nat)
| cancelEdit (editId userId : nat).

Definition perform (push : PushRequest -> PushOutcome) (now : Z) (op : Op)
    (db : Db) : Outcome :=
  match op with
  | createEdit w u f o n => save_edit now w u f o n None db
  | applyEdit e u => apply_edit push now e u db
  | cancelEdit e u => cancel_edit e u db
  end.

(** The databases a sequence of operations goes through, the clock ticking
    once per operation. *)
Fixpoint history (push : PushRequest -> PushOutcome) (now : Z) (ops : list Op)
    (db : Db) : list Db :=
  match ops with
  | [] => []
  | op :: ops' =>
      let db' := db_after (perform push now op db) in
      db' :: history push (now + 1) ops' db'
  end.

Definition status_of (db : Db) (id : nat) : option Status :=
  status <$> seo_edits db !! id.

Definition applied_at_of (db : Db) (id : nat) : option Z :=
  seo_edits db !! id ≫= applied_at.

(** *** The statements of the specification, in its own words *)

(** What one operation may do to the status of one record: leave it as it
    is, create the record as pending, or move it from pending to applied or
    to cancelled. *)
Definition allowed (before after : option Status) : Prop :=
  before = after
  \/ (before = None /\ after = Some pending)
  \/ (before = Some pending /\ (after = Some applied \/ after = Some cancelled)).

(** The text a response shows the user, and whether it reports a success. *)
Definition text_of (r : Response) : string :=
  match r with
  | redirect (flash_error m) _ | redirect (flash_success m) _ => m
  | json _ m => m
  end.

Definition is_success (r : Response) : bool :=
  match r with
  | redirect (flash_success _) _ | json true _ => true
  | _ => false
  end.

(** The message of an apply whose push failed. *)
Definition demo_text (prov : string) : string :=
  ("SEO change marked as applied (Demo mode - actual API integration required for "
   ++ prov ++ ")")%string.

(** The simulated apply: the record is applied, with its time of
    application, and a success message names demo mode and the provider. *)
Definition simulated_apply (o : Outcome) (editId : nat) (prov : string) : Prop :=
  status_of (db_after o) editId = Some applied
  /\ is_Some (applied_at_of (db_after o) editId)
  /\ is_success (response o) = true
  /\ JS.includes (text_of (response o)) "Demo mode" = true
  /\ JS.includes (text_of (response o)) prov = true.

End Seo.

(** ** Concrete pages, databases and networks used by the examples *)

Module Samples.

Import Schema.

(** A document with nothing in it. *)
Definition blank_page : Analyze.Page :=
  {| Analyze.title_text := JS.empty;
     Analyze.description_content := None;
     Analyze.h1_texts := [];
     Analyze.h2_texts := [];
     Analyze.img_alts := [];
     Analyze.anchor_hrefs := [];
     Analyze.body_text := JS.empty;
     Analyze.viewport_content := None |}.

(** A landing page titled "Home", without a meta description. *)
Definition home_page : Analyze.Page :=
  {| Analyze.title_text := "  Home ";
     Analyze.description_content := None;
     Analyze.h1_texts := ["Welcome"];
     Analyze.h2_texts := ["About"; "Contact"];
     Analyze.img_alts := [Some "logo"%string; None; Some " "%string];
     Analyze.anchor_hrefs :=
       ["https://example.org/"; "/about"; "mailto:team@example.com";
        "httpd.html"];
     Analyze.body_text := "Welcome  to our
 home page";
     Analyze.viewport_content := Some "width=device-width, initial-scale=1"%string |}.

Definition slow_site (_ : string) : Analyze.Fetch :=
  Analyze.fetch_ok blank_page 5.

Definition fast_site (_ : string) : Analyze.Fetch :=
  Analyze.fetch_ok home_page 1.2.

Definition unreachable_site (_ : string) : Analyze.Fetch :=
  Analyze.fetch_error "timeout of 15000ms exceeded".

Definition ml_down (_ : string) : Analyze.MlAnalyze := Analyze.ml_error.

Definition wordpress : Account :=
  {| provider := "wordpress"; access_token := Some "demo-token"%string;
     account_url := Some "https://blog.example.com"%string |}.

Definition blog : Website :=
  {| w_user_id := 7; w_url := "https://blog.example.com";
     connected_account_id := Some 1%nat; last_analyzed := None |}.

Definition shop : Website :=
  {| w_user_id := 7; w_url := "https://shop.example.com";
     connected_account_id := None; last_analyzed := None |}.

(** User 7 owns website 1, connected to account 1, and website 2, which has
    no connected account. No edit and no analysis is stored yet. *)
Definition db0 : Db :=
  {| websites := <[1%nat := blog]> (<[2%nat := shop]> ∅);
     connected_accounts := <[1%nat := wordpress]> ∅;
     seo_edits := ∅;
     seo_analyses := ∅;
     next_edit_id := 1;
     next_analysis_id := 1 |}.

(** The two edits user 7 saves, one per website, and the database after
    each of the two requests. *)
Definition edit1 : Edit :=
  {| website_id := 1; user_id := 7; page_url := "https://blog.example.com";
     field_type := "title"; old_value := "Old"; new_value := "New";
     status := pending; applied_at := None; created_at := 10 |}.

Definition edit2 : Edit :=
  {| website_id := 2; user_id := 7; page_url := "https://shop.example.com";
     field_type := "title"; old_value := "Old shop"; new_value := "New shop";
     status := pending; applied_at := None; created_at := 11 |}.

Definition db1 : Db :=
  Seo.db_after (Seo.save_edit 10 1 7 "title" "Old" "New" None db0).

Definition db2 : Db :=
  Seo.db_after (Seo.save_edit 11 2 7 "title" "Old shop" "New shop" None db1).

(** Save an edit, cancel it, then apply it. *)
Definition cancel_then_apply : list Seo.Op :=
  [Seo.createEdit 1 7 "title" "Old" "New"; Seo.cancelEdit 1 7;
   Seo.applyEdit 1 7].

Definition push_fails (_ : Seo.PushRequest) : Seo.PushOutcome :=
  Seo.push_error "connect ECONNREFUSED 127.0.0.1:5000".

Definition push_succeeds (_ : Seo.PushRequest) : Seo.PushOutcome :=
  Seo.push_ok (Some "Updated post 12"%string).

(** What PostgreSQL says of a rejected edit and of a rejected analysis. *)
Definition edit_error (e : Edit) : string :=
  if text_ok (page_url e) && text_ok (field_type e) && text_ok (old_value e)
     && text_ok (new_value e)
  then (if Nat.leb (String.length (page_url e)) 500
        then "value too long for type character varying(50)"
        else "value too long for type character varying(500)")
  else ("invalid byte sequence for encoding " ++ JS.quoted "UTF8"
        ++ ": 0x00")%string.

Definition row_error (r : AnalysisRow) : string :=
  if Nat.leb (String.length (r_url r)) 500
  then ("insert or update on table " ++ JS.quoted "seo_analyses"
        ++ " violates foreign key constraint "
        ++ JS.quoted "seo_analyses_website_id_fkey")%string
  else "value too long for type character varying(500)".

End Samples.

(** ** Measures and tables used to state further properties *)

Module Measures.

Import Schema.

(** The number of maximal runs of code units that are not white space.
    [in_word] tells whether the previous code unit belonged to a run. *)
Fixpoint runs (in_word : bool) (s : string) : nat :=
  match s with
  | EmptyString => O
  | String c s' =>
      if JS.is_space c then runs false s'
      else ((if in_word then 0 else 1) + runs true s')%nat
  end.

(** Every white-space code unit of the string is the space itself. *)
Fixpoint only_blanks (s : string) : bool :=
  match s with
  | EmptyString => true
  | String c s' =>
      (if JS.is_space c then Ascii.eqb c " "%char else true) && only_blanks s'
  end.

(** The number of non-empty strings of a list. *)
Definition count_nonempty (l : list string) : nat :=
  List.length (List.filter (fun w => 0 <? JS.length w) l).

(** The values each category score of the fallback analyzer can take. *)
Definition title_values : list Z := [0; 60; 100].
Definition meta_values : list Z := [0; 60; 100].
Definition content_values : list Z := [30; 50; 60; 80; 100].
Definition technical_values : list Z := [40; 80].
Definition performance_values : list Z := [40; 70; 100].

Definition score_tuples : list (Z * Z * Z * Z * Z) :=
  list_prod
    (list_prod
       (list_prod (list_prod title_values meta_values) content_values)
       technical_values)
    performance_values.

Definition overall_of (x : Z * Z * Z * Z * Z) : Z :=
  let '(t, m, c, te, p) := x in Analyze.overallScore t m c te p.

Definition tuple_le (x y : Z * Z * Z * Z * Z) : bool :=
  let '(t, m, c, te, p) := x in
  let '(t', m', c', te', p') := y in
  (t <=? t') && (m <=? m') && (c <=? c') && (te <=? te') && (p <=? p').

(** The table with the overall score of each tuple beside it. *)
Definition scored_tuples : list (Z * Z * Z * Z * Z * Z) :=
  List.map (fun x => (x, overall_of x)) score_tuples.

(** Whether a list of issues has one of the category, or one of the
    category and severity. *)
Definition category_eqb (a b : Category) : bool :=
  Nat.eqb (Analyze.category_rank a) (Analyze.category_rank b).

Definition severity_eqb (a b : Severity) : bool :=
  Nat.eqb (Analyze.severity_rank a) (Analyze.severity_rank b).

Definition has_category (c : Category) (l : list Issue) : bool :=
  existsb (fun i => category_eqb (category i) c) l.

Definition count_category (c : Category) (l : list Issue) : nat :=
  List.length (List.filter (fun i => category_eqb (category i) c) l).

Definition has_issue (s : Severity) (c : Category) (l : list Issue) : bool :=
  existsb (fun i => severity_eqb (type i) s && category_eqb (category i) c) l.

(** The issue list as a function of the outcome of the nine tests of
    [generateBasicIssues]. *)
Definition issues_from
    (no_title short long no_meta no_h1 many_h1 thin not_mobile slow : bool)
  : list Issue :=
  (if no_title
   then [ {| type := critical; category := cat_title; message := "Missing page title" |} ]
   else if short
   then [ {| type := warning; category := cat_title; message := "Title too short" |} ]
   else if long
   then [ {| type := warning; category := cat_title; message := "Title too long" |} ]
   else [])
  ++ (if no_meta
      then [ {| type := critical; category := cat_meta; message := "Missing meta description" |} ]
      else [])
  ++ (if no_h1
      then [ {| type := critical; category := cat_content; message := "Missing H1 heading" |} ]
      else if many_h1
      then [ {| type := warning; category := cat_content; message := "Multiple H1 tags" |} ]
      else [])
  ++ (if thin
      then [ {| type := warning; category := cat_content; message := "Thin content" |} ]
      else [])
  ++ (if not_mobile
      then [ {| type := critical; category := cat_technical; message := "Not mobile-friendly" |} ]
      else [])
  ++ (if slow
      then [ {| type := warning; category := cat_performance; message := "Slow load time" |} ]
      else []).

(** The analysis the handler works with: the answer of the ML service, or
    the fallback analysis, or the message of the failed fetch. *)
Definition analysis_for (ml : string -> Analyze.MlAnalyze)
    (get : string -> Analyze.Fetch) (normalizedUrl : string)
  : string + Analyze.AnalysisData * bool :=
  match ml normalizedUrl with
  | Analyze.ml_ok data => inr (data, true)
  | Analyze.ml_error =>
      match Analyze.performBasicAnalysis get normalizedUrl with
      | inr data => inr (data, false)
      | inl m => inl m
      end
  end.

End Measures.

(** ** Further pages and answers used by the examples *)

Module Scenarios.

Import Schema.

Fixpoint words (n : nat) : string :=
  match n with
  | O => EmptyString
  | S n' => ("word " ++ words n')%string
  end.

(** A page that passes every rule of the fallback analyzer: a title of 42
    code units, a description of 130, one H1, 300 words and a viewport
    tag. *)
Definition tidy_page : Analyze.Page :=
  {| Analyze.title_text := "Handmade oak furniture from our workshop";
     Analyze.description_content :=
       Some "Tables, chairs and shelves built to order from solid oak, delivered across the country within four weeks of your order. Ask now"%string;
     Analyze.h1_texts := ["Handmade oak furniture"];
     Analyze.h2_texts := ["Tables"; "Chairs"; "Shelves"; "Delivery"; "Care"; "Contact"];
     Analyze.img_alts := [Some "An oak table"%string];
     Analyze.anchor_hrefs := ["/tables"; "https://example.org/oak"];
     Analyze.body_text := words 300;
     Analyze.viewport_content := Some "width=device-width"%string |}.

(** An answer of the ML service: it has a social score, which no column of
    [seo_analyses] stores. *)
Definition ml_answer : Analyze.AnalysisData :=
  {| Analyze.url := "https://example.com";
     Analyze.load_time := 0.8;
     Analyze.overall_score := 75;
     Analyze.scores :=
       {| Analyze.title := 85; Analyze.meta := 70; Analyze.content := 80;
          Analyze.technical := 75; Analyze.performance := 90;
          Analyze.social := 50 |};
     Analyze.scores_overall := Some 75;
     Analyze.features :=
       {| Analyze.f_title := "Example Domain";
          Analyze.title_length := 14;
          Analyze.meta_description := JS.empty;
          Analyze.meta_description_length := 0;
          Analyze.h1_tags := ["Example Domain"];
          Analyze.h2_tags := [];
          Analyze.h1_count := 1;
          Analyze.word_count := 28;
          Analyze.total_images := 0;
          Analyze.images_without_alt := 0;
          Analyze.internal_links := 0;
          Analyze.external_links := 1;
          Analyze.is_mobile_friendly := true;
          Analyze.f_load_time := 0.8 |};
     Analyze.issues := [Analyze.missing_meta_issue];
     Analyze.suggestions := ["Add a meta description"];
     Analyze.grade := "B" |}.

(** What [POST /analyze] renders for that answer, asked by user 7 for
    website 1 at time 5. *)
Definition ml_view : Analyze.ResultView :=
  {| Analyze.v_analysis :=
       Analyze.row_of (Some 1%nat) 7 "https://example.com" ml_answer 5;
     Analyze.v_scores := Analyze.scores ml_answer;
     Analyze.v_grade := "B";
     Analyze.v_issues := Analyze.issues ml_answer;
     Analyze.v_useML := true |}.

Definition ml_up (_ : string) : Analyze.MlAnalyze := Analyze.ml_ok ml_answer.

Definition tidy_site (_ : string) : Analyze.Fetch :=
  Analyze.fetch_ok tidy_page 1.2.

(** The field type "title" followed by 48 spaces: 53 characters. *)
Definition padded_title : string :=
  "title                                                ".

End Scenarios.

(** ** The website routes *)

Module Websites.

Import Schema.

Inductive Response :=
| redirect (f : Flash) (location : string).

(** [DELETE FROM websites WHERE id = $1 AND user_id = $2]; the analyses and
    the edits that reference the website go with it ([ON DELETE CASCADE] on
    [seo_analyses.website_id] and [seo_edits.website_id]). *)
Definition delete_row (id userId : nat) (db : Db) : Db :=
  match website_of db id userId with
  | Some _ =>
      {| websites := delete id (websites db);
         connected_accounts := connected_accounts db;
         seo_edits :=
           filter (fun kv => website_id (snd kv) <> id) (seo_edits db);
         seo_analyses :=
           filter (fun kv => r_website_id (snd kv) <> Some id)
             (seo_analyses db);
         next_edit_id := next_edit_id db;
         next_analysis_id := next_analysis_id db |}
  | None => db
  end.

(** [router.post('/:id/delete')] *)
Definition delete_website (id userId : nat) (db : Db) : Db * Response :=
  (delete_row id userId db,
   redirect (flash_success "Website deleted successfully") "/websites").

End Websites.

(** ** Requests, one after the other *)

Module Requests.

Import Schema.











End Requests.

(** ** A sequence of requests used by the examples *)

Module Traffic.

Import Schema Requests.





End Traffic.

(** ** Login, registration and the two session guards *)

Module Auth.

Import Schema.

Record User := {
  name : string;
  email : string;
  password : string;          (* the bcrypt hash *)
  avatar_url : option string
}.

(** The [users] table and its sequence. *)
Record Users := {
  rows : gmap nat User;
  next_user_id : nat
}.

(** [req.session.user] *)
Record SessionUser := {
  s_id : nat;
  s_email : string;
  s_name : string;
  s_avatar_url : option string
}.

(** bcryptjs: [hash] draws a salt, [compare] checks a password against a
    stored hash. *)
Record Bcrypt := {
  hash : string -> string -> string;
  compare : string -> string -> bool
}.

Inductive Response :=
| redirect (f : option Flash) (location : string)
| next.


(** [isGuest]: let the request through when no user is logged in. *)
Definition isGuest (session : option SessionUser) : Response :=
  match session with
  | None => next
  | Some _ => redirect None "/dashboard"
  end.

(** [!x] for a field of the request body. *)
Definition missing (x : option string) : bool :=
  match x with
  | Some s => negb (JS.truthy s)
  | None => true
  end.

(** [SELECT * FROM users WHERE email = $1], first row. *)
Definition find_by_email (users : Users) (e : string) : option (nat * User) :=
  List.find (fun kv => String.eqb (email (snd kv)) e)
    (map_to_list (rows users)).

Definition try_again (m location : string) : Response :=
  redirect (Some (flash_error m)) location.

(** [router.post('/login', isGuest, ...)] *)
Definition login (b : Bcrypt) (session : option SessionUser)
    (email password : option string) (users : Users)
  : option SessionUser * Response :=
  match isGuest session with
  | next =>
      match email, password with
      | Some e, Some p =>
          if missing email || missing password
          then (session, try_again "Please provide email and password" "/login")
          else
            match find_by_email users e with
            | None => (session, try_again "Invalid email or password" "/login")
            | Some (id, user) =>
                if compare b p (Auth.password user)
                then (Some {| s_id := id; s_email := Auth.email user;
                              s_name := name user;
                              s_avatar_url := avatar_url user |},
                      redirect
                        (Some (flash_success
                                 ("Welcome back, " ++ name user ++ "!")))
                        "/dashboard")
                else (session,
                      try_again "Invalid email or password" "/login")
            end
      | _, _ => (session, try_again "Please provide email and password" "/login")
      end
  | r => (session, r)
  end.

(** [router.post('/register', isGuest, ...)]; [salt] is what [bcrypt.hash]
    draws. *)
Definition register (b : Bcrypt) (salt : string)
    (session : option SessionUser)
    (name email password confirmPassword : option string) (users : Users)
  : Users * option SessionUser * Response :=
  match isGuest session with
  | next =>
      match name, email, password with
      | Some n, Some e, Some p =>
          if missing name || missing email || missing password
          then (users, session,
                try_again "Please fill in all fields" "/register")
          else if negb (match confirmPassword with
                        | Some c => String.eqb p c
                        | None => false
                        end)
          then (users, session, try_again "Passwords do not match" "/register")
          else if JS.length p <? 6
          then (users, session,
                try_again "Password must be at least 6 characters" "/register")
          else
            match find_by_email users e with
            | Some _ =>
                (users, session,
                 try_again "Email already registered" "/register")
            | None =>
                let id := next_user_id users in
                let user := {| Auth.name := n; Auth.email := e;
                               Auth.password := hash b salt p;
                               avatar_url := None |} in
                ({| rows := <[id := user]> (rows users);
                    next_user_id := S id |},
                 Some {| s_id := id; s_email := e; s_name := n;
                         s_avatar_url := None |},
                 redirect
                   (Some (flash_success
                            "Account created successfully! Welcome to SEO Bot."))
                   "/dashboard")
            end
      | _, _, _ =>
          (users, session, try_again "Please fill in all fields" "/register")
      end
  | r => (users, session, r)
  end.


(** No two users share an email, and no user is stored under an id the
    sequence has not handed out yet. *)
Definition unique_emails (users : Users) : Prop :=
  forall i j u v,
    rows users !! i = Some u -> rows users !! j = Some v ->
    email u = email v -> i = j.

Definition fresh_users (users : Users) : Prop :=
  forall id, (next_user_id users <= id)%nat -> rows users !! id = None.

(** A stand-in for bcrypt: the hash is the salt, a dollar sign and the
    password; a password matches a hash that ends with the dollar sign and
    the password. *)
Fixpoint ends_with (s suffix : string) : bool :=
  String.eqb s suffix
  || match s with
     | EmptyString => false
     | String _ s' => ends_with s' suffix
     end.

Definition toy_bcrypt : Bcrypt :=
  {| hash := fun salt p => (salt ++ "$" ++ p)%string;
     compare := fun p h => ends_with h ("$" ++ p)%string |}.

Definition nobody : Users := {| rows := ∅; next_user_id := 1 |}.

(** The table after Ada has registered. *)
Definition with_ada : Users :=
  fst (fst (register toy_bcrypt "salt1" None (Some "Ada"%string)
              (Some "ada@example.com"%string) (Some "lovelace"%string)
              (Some "lovelace"%string) nobody)).

End Auth.

(** ** What the tables store *)

Module SchemaFacts.

Import Schema.

Lemma substring_fits (s : string) (n : nat) :
  (String.length s <= n)%nat -> substring 0 n s = s.
Proof.
  revert n. induction s as [ | c s IH ]; intros n H.
  - destruct n; reflexivity.
  - destruct n as [ | n ]; cbn [String.length] in H; [ lia | ].
    cbn [substring]. rewrite IH by lia. reflexivity.
Qed.

Lemma substring_beyond (s : string) (n m : nat) :
  (String.length s <= n)%nat -> substring n m s = EmptyString.
Proof.
  revert n. induction s as [ | c s IH ]; intros n H.
  - destruct n, m; reflexivity.
  - destruct n as [ | n ]; cbn [String.length] in H; [ lia | ].
    cbn [substring]. apply IH. lia.
Qed.

Lemma substring_length (s : string) (n : nat) :
  (String.length (substring 0 n s) <= n)%nat.
Proof.
  revert n. induction s as [ | c s IH ]; intros n.
  - destruct n; cbn; lia.
  - destruct n as [ | n ]; cbn [substring String.length]; [ lia | ].
    specialize (IH n). lia.
Qed.

(** A code unit of the part of [s] from position [n] on is a code unit of
    [s], [n] places further. *)
Lemma substring_get (s : string) (n m j : nat) (c : ascii) :
  String.get j (substring n m s) = Some c -> String.get (n + j) s = Some c.
Proof.
  revert n m j. induction s as [ | a s IH ]; intros n m j H.
  - destruct n, m; discriminate H.
  - destruct n as [ | n ].
    + destruct m as [ | m ]; [ discriminate H | ].
      cbn [substring] in H. destruct j as [ | j ]; [ exact H | ].
      cbn [String.get] in *. exact (IH 0%nat m j H).
    + cbn [substring] in H. cbn [Nat.add String.get]. exact (IH n m j H).
Qed.

Lemma substring_rest (s : string) (n m i : nat) :
  (String.length s <= m)%nat -> (n <= i)%nat ->
  String.get (i - n) (substring n m s) = String.get i s.
Proof.
  revert n m i. induction s as [ | a s IH ]; intros n m i Hm Hi.
  - destruct n, m; destruct (i - _)%nat; reflexivity.
  - cbn [String.length] in Hm. destruct n as [ | n ].
    + destruct m as [ | m ]; [ lia | ].
      rewrite Nat.sub_0_r. cbn [substring].
      destruct i as [ | i ]; [ reflexivity | ].
      cbn [String.get]. rewrite <- (IH 0%nat m i) by lia.
      rewrite Nat.sub_0_r. reflexivity.
    + destruct i as [ | i ]; [ lia | ].
      cbn [substring String.get Nat.sub]. apply IH; lia.
Qed.

Lemma get_beyond (s : string) (i : nat) :
  (String.length s <= i)%nat -> String.get i s = None.
Proof.
  revert i. induction s as [ | a s IH ]; intros i H; [ reflexivity | ].
  cbn [String.length] in H. destruct i as [ | i ]; [ lia | ].
  cbn [String.get]. apply IH. lia.
Qed.

Lemma blank_get (s : string) :
  blank s = false
  <-> exists j c, String.get j s = Some c /\ c <> " "%char.
Proof.
  induction s as [ | a s IH ].
  - split; [ discriminate | intros (j & c & H & _); discriminate H ].
  - cbn [blank]. destruct (Ascii.eqb a " "%char) eqn:E.
    + apply Ascii.eqb_eq in E. subst a. cbn [andb]. rewrite IH. split.
      * intros (j & c & H & Hc). exists (S j), c. split; assumption.
      * intros (j & c & H & Hc). destruct j as [ | j ].
        -- injection H as <-. contradiction.
        -- exists j, c. split; assumption.
    + apply Ascii.eqb_neq in E. split; [ | reflexivity ].
      intros _. exists 0%nat, a. split; [ reflexivity | exact E ].
Qed.

Lemma text_ok_includes (s : string) :
  text_ok s = true <-> JS.includes s nul = false.
Proof.
  unfold text_ok. destruct (JS.includes s nul); split; intros H;
    try reflexivity; discriminate H.
Qed.

Lemma varchar_ok_length (n : nat) (s : string) :
  varchar_ok n s = true
  <-> (String.length s <= n)%nat /\ JS.includes s nul = false.
Proof.
  unfold varchar_ok. rewrite andb_true_iff, Nat.leb_le, text_ok_includes.
  reflexivity.
Qed.

(** A value that fits is stored as it is. *)
Lemma varchar_fits (n : nat) (s : string) :
  varchar_ok n s = true -> varchar n s = Some s.
Proof.
  unfold varchar_ok, varchar. intros H.
  apply andb_prop in H as [Hlen Htext]. apply Nat.leb_le in Hlen.
  rewrite Htext, substring_beyond, substring_fits by exact Hlen.
  reflexivity.
Qed.

(** A value is refused exactly when it holds the code unit 0, or a code
    unit that is no space after the first [n]. *)
Lemma varchar_None (n : nat) (s : string) :
  varchar n s = None
  <-> JS.includes s nul = true
      \/ exists i c,
           (n <= i)%nat /\ String.get i s = Some c /\ c <> " "%char.
Proof.
  unfold varchar, text_ok.
  destruct (JS.includes s nul); cbn [negb andb].
  { split; [ left; reflexivity | reflexivity ]. }
  destruct (blank (substring n (String.length s) s)) eqn:Hb.
  - split; [ discriminate | ].
    intros [ H | (i & c & Hi & Hget & Hc) ]; [ discriminate H | ].
    exfalso.
    assert (Hno : blank (substring n (String.length s) s) = false).
    { apply blank_get. exists (i - n)%nat, c. split; [ | exact Hc ].
      rewrite substring_rest by lia. exact Hget. }
    congruence.
  - split; [ | reflexivity ]. intros _. right.
    apply blank_get in Hb as (j & c & Hget & Hc).
    exists (n + j)%nat, c. split; [ lia | ].
    split; [ exact (substring_get s n _ j c Hget) | exact Hc ].
Qed.

(** A value without the code unit 0 whose characters after the first [n]
    are spaces is stored cut to [n] characters. *)
Lemma varchar_kept (n : nat) (s : string) :
  JS.includes s nul = false ->
  (forall i c, (n <= i)%nat -> String.get i s = Some c -> c = " "%char) ->
  varchar n s = Some (substring 0 n s).
Proof.
  intros Hnul Hsp.
  destruct (varchar n s) as [ t | ] eqn:E.
  - unfold varchar in E.
    destruct (text_ok s && blank (substring n (String.length s) s));
      [ symmetry; exact E | discriminate E ].
  - exfalso. apply varchar_None in E as [ E | (i & c & Hi & Hget & Hc) ].
    + congruence.
    + exact (Hc (Hsp i c Hi Hget)).
Qed.

Lemma varchar_Some (n : nat) (s t : string) :
  varchar n s = Some t ->
  t = substring 0 n s /\ (String.length t <= n)%nat.
Proof.
  unfold varchar.
  destruct (text_ok s && blank (substring n (String.length s) s));
    [ | discriminate ].
  intros H. injection H as <-. split; [ reflexivity | apply substring_length ].
Qed.

(** An edit whose values fit is stored as it is. *)
Lemma stored_edit_fits (e : Edit) :
  varchar_ok 500 (page_url e) = true -> varchar_ok 50 (field_type e) = true ->
  text_ok (old_value e) = true -> text_ok (new_value e) = true ->
  stored_edit e = Some e.
Proof.
  intros Hp Hf Ho Hn. unfold stored_edit.
  rewrite (varchar_fits _ _ Hp), (varchar_fits _ _ Hf), Ho, Hn.
  destruct e; reflexivity.
Qed.

(** An edit is refused exactly when its page or its field type is refused,
    or its old or new value holds the code unit 0. *)
Lemma stored_edit_None (e : Edit) :
  stored_edit e = None
  <-> varchar 500 (page_url e) = None \/ varchar 50 (field_type e) = None
      \/ JS.includes (old_value e) nul = true
      \/ JS.includes (new_value e) nul = true.
Proof.
  unfold stored_edit, text_ok.
  destruct (varchar 500 (page_url e)); [ | split; auto ].
  destruct (varchar 50 (field_type e)); [ | split; auto ].
  destruct (JS.includes (old_value e) nul), (JS.includes (new_value e) nul);
    cbn [negb andb]; split; auto; try discriminate;
    intros [ H | [ H | [ H | H ] ] ]; discriminate H.
Qed.



Lemma insert_edit_fits (db : Db) (e : Edit) :
  stored_edit e = Some e ->
  insert_edit db e
  = Some (with_seo_edits db (<[next_edit_id db := e]> (seo_edits db))
            (S (next_edit_id db)),
          next_edit_id db).
Proof. intros H. unfold insert_edit. rewrite H. reflexivity. Qed.

Lemma insert_edit_rejected (db : Db) (e : Edit) :
  stored_edit e = None -> insert_edit db e = None.
Proof. intros H. unfold insert_edit. rewrite H. reflexivity. Qed.

(** An analysis whose values fit is stored as it is. *)
Lemma stored_row_fits (r : AnalysisRow) :
  varchar_ok 500 (r_url r) = true -> values_ok r = true ->
  stored_row r = Some r.
Proof.
  intros Hu Hv. unfold stored_row.
  rewrite (varchar_fits _ _ Hu), Hv. destruct r; reflexivity.
Qed.

Lemma integer_ok_range (z : Z) :
  integer_ok z = true <-> -2147483648 <= z <= 2147483647.
Proof. unfold integer_ok. rewrite andb_true_iff, !Z.leb_le. reflexivity. Qed.

Lemma values_ok_Forall (r : AnalysisRow) :
  values_ok r = true
  <-> Forall (fun z => -2147483648 <= z <= 2147483647) (integers_of r)
      /\ Forall (fun s => JS.includes s nul = false) (texts_of r).
Proof.
  unfold values_ok. rewrite andb_true_iff, !forallb_forall, !List.Forall_forall.
  split; intros [Hi Ht]; split; intros x Hx.
  - apply integer_ok_range, Hi, Hx.
  - apply text_ok_includes, Ht, Hx.
  - apply integer_ok_range, Hi, Hx.
  - apply text_ok_includes, Ht, Hx.
Qed.

(** A row is refused exactly when its URL is, or one of its integers is out
    of range, or one of its texts holds the code unit 0. *)
Lemma stored_row_None (r : AnalysisRow) :
  stored_row r = None
  <-> varchar 500 (r_url r) = None
      \/ ~ Forall (fun z => -2147483648 <= z <= 2147483647) (integers_of r)
      \/ ~ Forall (fun s => JS.includes s nul = false) (texts_of r).
Proof.
  unfold stored_row.
  destruct (varchar 500 (r_url r)) as [ u | ]; [ | split; auto ].
  pose proof (values_ok_Forall r) as Hv.
  destruct (values_ok r).
  - split; [ discriminate | ].
    destruct (proj1 Hv eq_refl) as [Hi Ht].
    intros [ H | [ H | H ] ]; [ discriminate H | | ]; contradiction.
  - split; [ | reflexivity ]. intros _. right.
    destruct (forallb integer_ok (integers_of r)) eqn:Ei.
    + right. intros Ht. assert (false = true); [ | discriminate ].
      apply Hv. split; [ | exact Ht ].
      rewrite forallb_forall in Ei. apply List.Forall_forall.
      intros x Hx. apply integer_ok_range, Ei, Hx.
    + left. intros Hi.
      assert (Hall : forallb integer_ok (integers_of r) = true).
      { apply forallb_forall. rewrite List.Forall_forall in Hi.
        intros x Hx. apply integer_ok_range, Hi, Hx. }
      congruence.
Qed.

(** What the INSERT of an analysis does, case by case. *)
Lemma insert_analysis_cases (db : Db) (r : AnalysisRow) :
  (exists r',
     stored_row r = Some r' /\ website_exists db (r_website_id r) = true
     /\ insert_analysis db r
        = (with_seo_analyses db
             (<[next_analysis_id db := r']> (seo_analyses db))
             (S (next_analysis_id db)),
           Some r'))
  \/ ((stored_row r = None \/ website_exists db (r_website_id r) = false)
      /\ exists next,
           insert_analysis db r
           = (with_seo_analyses db (seo_analyses db) next, None)).
Proof.
  unfold insert_analysis.
  destruct (stored_row r) as [ r' | ].
  - destruct (website_exists db (r_website_id r)).
    + left. exists r'. repeat split.
    + right. split; [ right; reflexivity | ]. eexists. reflexivity.
  - right. split; [ left; reflexivity | ].
    exists (next_analysis_id db). destruct db; reflexivity.
Qed.


(** The stored row differs from the row at most in the URL. *)
Lemma stored_row_Some (r r' : AnalysisRow) :
  stored_row r = Some r' ->
  exists u, varchar 500 (r_url r) = Some u /\ r' = with_url r u.
Proof.
  unfold stored_row. destruct (varchar 500 (r_url r)) as [ u | ];
    [ | discriminate ].
  destruct (values_ok r); [ | discriminate ].
  intros H. injection H as <-. exists u. split; reflexivity.
Qed.

End SchemaFacts.

(** ** Properties of the local fallback analyzer *)

Module AnalyzeFacts.

Import Schema Analyze Samples.

Lemma titleScore_values (t : string) :
  titleScore t = 0 \/ titleScore t = 60 \/ titleScore t = 100.
Proof.
  unfold titleScore.
  destruct (JS.truthy t); [ | now left ].
  destruct ((30 <=? JS.length t) && (JS.length t <=? 60)); auto.
Qed.

Lemma metaScore_values (d : string) :
  metaScore d = 0 \/ metaScore d = 60 \/ metaScore d = 100.
Proof.
  unfold metaScore.
  destruct (JS.truthy d); [ | now left ].
  destruct ((120 <=? JS.length d) && (JS.length d <=? 160)); auto.
Qed.

Lemma contentScore_values (h1Tags : list string) (wordCount : Z) :
  In (contentScore h1Tags wordCount) [30; 50; 60; 80; 100].
Proof.
  unfold contentScore.
  destruct (Z.of_nat (List.length h1Tags) =? 1);
    [ | destruct (0 <? Z.of_nat (List.length h1Tags)) ];
    destruct (300 <=? wordCount); simpl; auto 10.
Qed.

Lemma technicalScore_values (b : bool) :
  technicalScore b = 40 \/ technicalScore b = 80.
Proof. destruct b; auto. Qed.

Lemma performanceScore_values (loadTime : float) :
  performanceScore loadTime = 40 \/ performanceScore loadTime = 70
  \/ performanceScore loadTime = 100.
Proof.
  unfold performanceScore.
  destruct (loadTime <? 2)%float; [ auto | ].
  destruct (loadTime <? 4)%float; auto.
Qed.

(** On every combination of category scores the analyzer can produce, the
    binary64 sum is finite and [Math.round] of it is the exactly rounded
    weighted total. *)
Lemma overallScore_exact (t m c te p : Z) :
  (t = 0 \/ t = 60 \/ t = 100) ->
  (m = 0 \/ m = 60 \/ m = 100) ->
  In c [30; 50; 60; 80; 100] ->
  (te = 40 \/ te = 80) ->
  (p = 40 \/ p = 70 \/ p = 100) ->
  JS.is_finite (weighted_sum t m c te p) = true
  /\ overallScore t m c te p
     = round_hundredths (15 * t + 15 * m + 25 * c + 25 * te + 20 * p).
Proof.
  simpl In.
  intros Ht Hm Hc Hte Hp.
  repeat match goal with
         | H : _ \/ _ |- _ => destruct H
         | H : False |- _ => destruct H
         end; subst; vm_compute; split; reflexivity.
Qed.

(** Rounding to hundredths picks an integer at most one half away. *)
Lemma round_hundredths_nearest (n : Z) :
  Z.abs (100 * round_hundredths n - n) <= 50.
Proof.
  unfold round_hundredths.
  pose proof (Z.div_mod (2 * n + 100) 200 ltac:(lia)) as Hdm.
  pose proof (Z.mod_pos_bound (2 * n + 100) 200 ltac:(lia)) as Hb.
  lia.
Qed.

(** Rounding to hundredths is monotone, and adding four whole points to the
    sum adds four to the result. *)
Lemma round_hundredths_shift (n m : Z) :
  n + 400 <= m -> round_hundredths n + 4 <= round_hundredths m.
Proof.
  intros H. unfold round_hundredths.
  replace ((2 * n + 100) / 200 + 4) with ((2 * n + 100 + 4 * 200) / 200)
    by (rewrite Z.div_add by lia; reflexivity).
  apply Z.div_le_mono; lia.
Qed.

(** Within the ranges of the specification, one table adds up to 100. *)
Lemma within_ranges_weight (w : Category -> Z) :
  within_ranges w -> forall c, w c = weight c.
Proof.
  unfold within_ranges. intros (Ht & Hm & Hc & Hte & Hp & Hs & Hsum) c.
  destruct c; cbn [weight]; lia.
Qed.

(** C4. For every analysis the local fallback analyzer produces, each of the
    six category scores (title, meta, content, technical, performance,
    social) lies in [0,100], the social score being 0; the sum the code
    rounds is a finite number, and the overall score is title x 15% + meta x
    15% + content x 25% + technical x 25% + performance x 20%, rounded to the
    nearest integer with a tie going up (it is at most one half away from
    that sum). The five weights add up to 100% by themselves and the social
    score has no weight: the overall score is at least four points above the
    rounded sum over the six categories with social at 10%, on every page. *)
Theorem basic_analysis_scores (url : string) (page : Page) (loadTime : float) :
  let a := analyse_page url page loadTime in
  let s := scores a in
  let five := 15 * title s + 15 * meta s + 25 * content s + 25 * technical s
              + 20 * performance s in
  Forall (fun c => 0 <= score_of s c <= 100) categories
  /\ social s = 0
  /\ JS.is_finite
       (weighted_sum (title s) (meta s) (content s) (technical s)
          (performance s)) = true
  /\ overall_score a = round_hundredths five
  /\ Z.abs (100 * overall_score a - five) <= 50
  /\ 15 + 15 + 25 + 25 + 20 = 100
  /\ (forall w, within_ranges w ->
        round_hundredths (weighted_total w s) + 4 <= overall_score a).
Proof.
  unfold analyse_page.
  destruct (count_links (anchor_hrefs page)) as [internalLinks externalLinks].
  cbn zeta. cbn [scores overall_score title meta content technical performance social].
  set (t := titleScore _). set (m := metaScore _).
  set (c := contentScore _ _). set (te := technicalScore _).
  set (p := performanceScore _).
  assert (Ht : t = 0 \/ t = 60 \/ t = 100) by apply titleScore_values.
  assert (Hm : m = 0 \/ m = 60 \/ m = 100) by apply metaScore_values.
  assert (Hc : In c [30; 50; 60; 80; 100]) by apply contentScore_values.
  assert (Hte : te = 40 \/ te = 80) by apply technicalScore_values.
  assert (Hp : p = 40 \/ p = 70 \/ p = 100) by apply performanceScore_values.
  destruct (overallScore_exact t m c te p Ht Hm Hc Hte Hp) as [Hfin Hround].
  assert (Hfive : overallScore t m c te p
                  = round_hundredths
                      (15 * t + 15 * m + 25 * c + 25 * te + 20 * p))
    by exact Hround.
  simpl In in Hc. clearbody t m c te p.
  split; [ | split; [ reflexivity | split; [ exact Hfin | ] ] ].
  { unfold categories.
    repeat constructor;
      cbn [score_of title meta content technical performance social]; lia. }
  split; [ exact Hfive | ].
  split; [ rewrite Hfive; apply round_hundredths_nearest | ].
  split; [ reflexivity | ].
  intros w Hw. rewrite Hfive. apply round_hundredths_shift.
  unfold weighted_total, categories.
  cbn [fold_right score_of title meta content technical performance social].
  rewrite !(within_ranges_weight w Hw). cbn [weight]. lia.
Qed.

(** C4, as stated, fails on the page titled "Home" fetched in 1.2 s: its
    scores are 60, 0, 80, 80, 100 and 0, the sum over the six categories
    with social at 10% is 60.00, and the overall score is 69. On a blank
    page that loads in five seconds the two are 22 and 26. *)
Lemma six_weights_disagree :
  let a := analyse_page "https://example.com" home_page 1.2 in
  let b := analyse_page "https://example.com" blank_page 5 in
  within_ranges weight
  /\ scores a = {| title := 60; meta := 0; content := 80; technical := 80;
                   performance := 100; social := 0 |}
  /\ weighted_total weight (scores a) = 6000
  /\ overall_score a = 69
  /\ round_hundredths (weighted_total weight (scores b)) = 22
  /\ overall_score b = 26
  /\ overall_score a <> round_hundredths (weighted_total weight (scores a)).
Proof.
  cbv zeta. unfold within_ranges.
  repeat split; try (vm_compute; reflexivity); try (vm_compute; discriminate).
Qed.

(** The ladder of [performBasicAnalysis] follows the four thresholds. *)
Lemma grade_of_thresholds (o : Z) :
  grade_of o = if 80 <=? o then "A" else if 60 <=? o then "B"
               else if 40 <=? o then "C" else "D".
Proof. reflexivity. Qed.

(** The view agrees with the ladder from 40 upwards, and only there. *)
Lemma view_grade_agrees (o : Z) : view_grade o = grade_of o <-> 40 <= o.
Proof.
  unfold view_grade, grade_of.
  destruct (80 <=? o) eqn:H80; [ split; [ lia | reflexivity ] | ].
  destruct (60 <=? o) eqn:H60; [ split; [ lia | reflexivity ] | ].
  destruct (40 <=? o) eqn:H40; split; try reflexivity; try lia; try discriminate.
Qed.

(** C5. The analysis of a blank page that loads in five seconds is graded D
    when it is produced (overall score 26) and C when the stored row is
    viewed: the ladder of the view has no step at 40. *)
Theorem view_grade_skips_D :
  let r := post_analyze row_error ml_down slow_site 0
             (Some "example.com"%string) None 7 db0 in
  (exists v, snd r = render_result v
             /\ Schema.overall_score (v_analysis v) = 26
             /\ v_grade v = "D"%string)
  /\ (exists v, get_analysis 1 7 (fst r) = render_result v
                /\ Schema.overall_score (v_analysis v) = 26
                /\ v_grade v = "C"%string)
  /\ grade_of 26 = "D"%string /\ view_grade 26 = "C"%string.
Proof.
  cbv zeta. repeat split.
  - eexists. split; [ vm_compute; reflexivity | split; reflexivity ].
  - eexists. split; [ vm_compute; reflexivity | split; reflexivity ].
Qed.

(** *** The issue engine *)

Ltac issue_order :=
  first [ left; cbn; lia | right; split; [ reflexivity | cbn; lia ] ].

Lemma issues_sorted (title metaDesc : string) (h1Tags : list string)
    (wordCount : Z) (mobileFriendly : bool) (loadTime : float) :
  StronglySorted issue_le
    (generateBasicIssues title metaDesc h1Tags wordCount mobileFriendly loadTime).
Proof.
  unfold generateBasicIssues.
  destruct (negb (JS.truthy title));
    [ | destruct (JS.length title <? 30);
        [ | destruct (60 <? JS.length title) ] ];
    destruct (negb (JS.truthy metaDesc));
    (destruct (Z.of_nat (List.length h1Tags) =? 0);
       [ | destruct (1 <? Z.of_nat (List.length h1Tags)) ]);
    destruct (wordCount <? 300);
    destruct mobileFriendly;
    destruct (3 <? loadTime)%float;
    cbn [app negb];
    repeat first [ apply SSorted_nil
                 | apply SSorted_cons
                 | apply List.Forall_nil
                 | apply List.Forall_cons; [ issue_order | ] ].
Qed.

(** C6. The issue list is ordered by category in the fixed order title,
    meta, content, technical, performance, and by severity (critical,
    warning, info) within a category. For a page titled "Home" without a
    meta description the list therefore starts with the short-title warning,
    followed by the one critical missing-meta issue; no later issue is of
    either kind. *)
Theorem issues_by_category_then_severity (title metaDesc : string)
    (h1Tags : list string) (wordCount : Z) (mobileFriendly : bool)
    (loadTime : float) :
  StronglySorted issue_le
    (generateBasicIssues title metaDesc h1Tags wordCount mobileFriendly loadTime)
  /\ exists rest,
       generateBasicIssues "Home" JS.empty h1Tags wordCount mobileFriendly loadTime
       = short_title_issue :: missing_meta_issue :: rest
       /\ Forall (fun i => is_missing_meta i = false /\ is_short_title i = false)
            rest.
Proof.
  split; [ apply issues_sorted | ].
  unfold generateBasicIssues.
  change (negb (JS.truthy "Home")) with false.
  change (JS.length "Home" <? 30) with true.
  change (negb (JS.truthy JS.empty)) with true.
  cbn [app].
  eexists. split; [ reflexivity | ].
  destruct (Z.of_nat (List.length h1Tags) =? 0);
    [ | destruct (1 <? Z.of_nat (List.length h1Tags)) ];
    destruct (wordCount <? 300);
    destruct mobileFriendly;
    destruct (3 <? loadTime)%float;
    cbn [app negb];
    repeat first [ apply List.Forall_nil
                 | apply List.Forall_cons; [ split; reflexivity | ] ].
Qed.

(** C6, as stated, fails on a page titled "Home" without a meta
    description, one H1, 500 words, a viewport tag and a load time of 1.2 s:
    the issues are the short-title warning and then the missing-meta
    critical, so the critical does not stand before the warning. *)
Lemma home_meta_not_first :
  let l := generateBasicIssues "Home" JS.empty ["Welcome"] 500 true 1.2 in
  l = [short_title_issue; missing_meta_issue]
  /\ ~ meta_first l.
Proof.
  cbv zeta. split; [ reflexivity | ].
  intros [_ Hrank].
  specialize (Hrank 1%nat 0%nat missing_meta_issue short_title_issue
                eq_refl eq_refl eq_refl eq_refl).
  lia.
Qed.

(** *** The link counters *)

Lemma is_external_http (href : string) : is_external href = http_prefixed href.
Proof.
  unfold is_external, http_prefixed, JS.startsWith.
  destruct href; reflexivity.
Qed.

Lemma count_links_from (hrefs : list string) (i e : Z) :
  fold_left
    (fun '(internalLinks, externalLinks) href =>
       if is_external href
       then (internalLinks, externalLinks + 1)
       else (internalLinks + 1, externalLinks))
    hrefs (i, e)
  = (i + count_if (fun h => negb (http_prefixed h)) hrefs,
     e + count_if http_prefixed hrefs).
Proof.
  revert i e. induction hrefs as [ | h hrefs IH ]; intros i e.
  - unfold count_if. cbn. f_equal; lia.
  - cbn [fold_left]. rewrite is_external_http.
    unfold count_if in *. cbn [List.filter].
    destruct (http_prefixed h); cbn [negb]; rewrite IH;
      cbn [List.length]; f_equal; lia.
Qed.

Lemma count_if_split {A : Type} (p : A -> bool) (l : list A) :
  count_if (fun x => negb (p x)) l + count_if p l = Z.of_nat (List.length l).
Proof.
  unfold count_if.
  induction l as [ | x l IH ]; [ reflexivity | ].
  cbn [List.filter]. destruct (p x); cbn [negb List.length]; lia.
Qed.

(** C9. The feature extractor counts an anchor as external if and only if
    its href begins with the four code units "http", and as internal
    otherwise; every anchor is counted once. *)
Theorem links_counted_by_http_prefix (hrefs : list string) :
  (forall href, is_external href = http_prefixed href)
  /\ count_links hrefs
     = (count_if (fun h => negb (http_prefixed h)) hrefs,
        count_if http_prefixed hrefs)
  /\ fst (count_links hrefs) + snd (count_links hrefs)
     = Z.of_nat (List.length hrefs).
Proof.
  assert (Hc : count_links hrefs
               = (count_if (fun h => negb (http_prefixed h)) hrefs,
                  count_if http_prefixed hrefs)).
  { unfold count_links. rewrite count_links_from. f_equal; lia. }
  split; [ exact is_external_http | split; [ exact Hc | ] ].
  rewrite Hc. cbn [fst snd]. apply count_if_split.
Qed.

(** C9, as stated, fails both ways: the relative href "httpd.html" has no
    scheme and is counted external; "mailto:team@example.com" begins with a
    scheme and is counted internal. *)
Lemma http_prefix_is_no_scheme :
  (is_external "httpd.html" = true
   /\ begins_with_absolute_scheme "httpd.html" = false)
  /\ (is_external "mailto:team@example.com" = false
      /\ begins_with_absolute_scheme "mailto:team@example.com" = true)
  /\ count_links ["httpd.html"; "mailto:team@example.com"] = (1, 1)
  /\ ~ scheme_rule "httpd.html".
Proof.
  repeat split; try reflexivity.
  intros [H _]. specialize (H eq_refl). discriminate H.
Qed.

End AnalyzeFacts.

(** ** Properties of the quick-analyze API and of a failed fetch *)

Module ApiFacts.

Import Schema Samples.

Lemma quick_score_bounds (title metaDescription : string) (h1Count : Z)
    (loadTime : float) :
  50 <= Api.quick_score title metaDescription h1Count loadTime <= 100.
Proof.
  unfold Api.quick_score.
  destruct (JS.truthy title && (30 <=? JS.length title)
            && (JS.length title <=? 60));
    destruct (JS.truthy metaDescription && (120 <=? JS.length metaDescription)
              && (JS.length metaDescription <=? 160));
    destruct (h1Count =? 1); destruct (loadTime <? 2)%float; cbn zeta; lia.
Qed.

(** A page with nothing in it that loads slowly gets the base score. *)
Example blank_page_scores_50 :
  Api.post_analyze slow_site (Some "example.com"%string)
  = Api.json_result
      {| Api.url := "https://example.com"; Api.score := 50;
         Api.title := JS.empty; Api.metaDescription := JS.empty;
         Api.h1Count := 0; Api.loadTime := 5 |}.
Proof. reflexivity. Qed.

(** C10. For every page the quick-analyze endpoint fetches, the response
    carries a score between 50 and 100 inclusive: the base of 50 plus the
    bonuses, capped at 100. *)
Theorem quick_score_between_50_and_100 (get : string -> Analyze.Fetch)
    (u : string) (page : Analyze.Page) (loadTime : float)
    (Hu : u <> EmptyString)
    (Hget : get (Analyze.normalize u) = Analyze.fetch_ok page loadTime) :
  exists r,
    Api.post_analyze get (Some u) = Api.json_result r
    /\ Api.score r
       = Z.min (Api.quick_score (Api.title r) (Api.metaDescription r)
                  (Api.h1Count r) loadTime) 100
    /\ 50 <= Api.score r <= 100.
Proof.
  unfold Api.post_analyze.
  destruct u as [ | c u ]; [ congruence | ].
  rewrite Hget.
  eexists. split; [ reflexivity | ].
  cbn [Api.score Api.title Api.metaDescription Api.h1Count].
  split; [ reflexivity | ].
  unfold JS.Math_min.
  pose proof (quick_score_bounds
                (JS.trim (Analyze.title_text page))
                (JS.or_str (Analyze.description_content page) JS.empty)
                (Z.of_nat (List.length (Analyze.h1_texts page))) loadTime).
  lia.
Qed.

(** The page titled "Home", fetched in 1.2 s. *)
Lemma quick_score_witness :
  exists r,
    Api.post_analyze fast_site (Some "example.com"%string) = Api.json_result r
    /\ Api.score r
       = Z.min (Api.quick_score (Api.title r) (Api.metaDescription r)
                  (Api.h1Count r) 1.2) 100
    /\ 50 <= Api.score r <= 100.
Proof.
  apply (quick_score_between_50_and_100 fast_site "example.com" home_page 1.2);
    [ discriminate | reflexivity ].
Defined.

(** C8. When the page cannot be fetched, the request ends there. The
    quick-analyze API answers 400 with "Could not fetch URL" and no score.
    The analysis form route, once the ML service has failed too, redirects
    to the form with "An error occurred during analysis: " followed by the
    message of the fetch error, and leaves the database as it was: no score
    is computed or stored. *)
Theorem fetch_failure_is_fatal (explain : AnalysisRow -> string)
    (ml : string -> Analyze.MlAnalyze)
    (get : string -> Analyze.Fetch) (now : Z) (u : string)
    (websiteId : option nat) (userId : nat) (db : Db) (m : string)
    (Hu : u <> EmptyString)
    (Hml : ml (Analyze.normalize u) = Analyze.ml_error)
    (Hget : get (Analyze.normalize u) = Analyze.fetch_error m) :
  Api.post_analyze get (Some u) = Api.json_error 400 "Could not fetch URL"
  /\ Analyze.post_analyze explain ml get now (Some u) websiteId userId db
     = (db,
        Analyze.redirect
          (flash_error ("An error occurred during analysis: " ++ m))
          "/analyze").
Proof.
  unfold Api.post_analyze, Analyze.post_analyze, Analyze.performBasicAnalysis.
  destruct u as [ | c u ]; [ congruence | ].
  rewrite Hml, Hget. split; reflexivity.
Qed.

(** The ML service is down and the fetch times out. *)
Lemma fetch_failure_witness :
  Api.post_analyze unreachable_site (Some "example.com"%string)
  = Api.json_error 400 "Could not fetch URL"
  /\ Analyze.post_analyze row_error ml_down unreachable_site 0
       (Some "example.com"%string) None 7 db0
     = (db0,
        Analyze.redirect
          (flash_error
             "An error occurred during analysis: timeout of 15000ms exceeded")
          "/analyze").
Proof.
  apply (fetch_failure_is_fatal row_error ml_down unreachable_site 0
           "example.com"
           None 7 db0 "timeout of 15000ms exceeded");
    [ discriminate | reflexivity | reflexivity ].
Defined.

(** C8, as stated, fails on the analysis form route: with the ML service
    down and the fetch timing out, the user is shown the message of the
    timeout, which does not say that the URL could not be fetched. *)
Lemma analysis_route_fetch_message :
  let r := Analyze.post_analyze row_error ml_down unreachable_site 0
             (Some "example.com"%string) None 7 db0 in
  Analyze.text_of (snd r)
  = "An error occurred during analysis: timeout of 15000ms exceeded"%string
  /\ Analyze.told_could_not_fetch (Analyze.text_of (snd r)) = false
  /\ fst r = db0
  /\ Analyze.told_could_not_fetch "Could not fetch URL" = true.
Proof. cbv zeta. repeat split; reflexivity. Qed.

End ApiFacts.

(** ** Properties of the edit lifecycle *)

Module SeoFacts.

Import Schema Seo Samples.

Lemma prefix_app (s t : string) : String.prefix s (s ++ t) = true.
Proof.
  induction s as [ | c s IH ].
  - destruct t; reflexivity.
  - change (String c s ++ t)%string with (String c (s ++ t)).
    cbn [String.prefix].
    destruct (ascii_dec c c) as [ _ | Hne ]; [ exact IH | congruence ].
Qed.

(** A text includes each of the pieces it is put together from. *)
Lemma includes_middle (pre s post : string) :
  JS.includes (pre ++ s ++ post) s = true.
Proof.
  induction pre as [ | c pre IH ].
  - change (EmptyString ++ s ++ post)%string with (s ++ post)%string.
    destruct (s ++ post)%string eqn:E.
    + destruct s; [ reflexivity | discriminate E ].
    + cbn [JS.includes]. rewrite <- E, prefix_app. reflexivity.
  - change (String c pre ++ s ++ post)%string
      with (String c (pre ++ s ++ post)).
    cbn [JS.includes]. rewrite IH. apply orb_true_r.
Qed.

Lemma status_of_insert (db : Db) (t : gmap nat Edit) (n id : nat) (e : Edit) :
  status_of (with_seo_edits db (<[id := e]> t) n) id = Some (status e).
Proof. unfold status_of. cbn. rewrite lookup_insert_eq. reflexivity. Qed.

(** The demo-mode message names demo mode and the provider. *)
Lemma demo_message_names (prov : string) :
  let m := ("SEO change marked as applied (Demo mode - actual API integration required for "
            ++ prov ++ ")")%string in
  JS.includes m "Demo mode" = true /\ JS.includes m prov = true.
Proof.
  cbv zeta. split.
  - apply (includes_middle "SEO change marked as applied (" "Demo mode"
             (" - actual API integration required for " ++ prov ++ ")")).
  - apply (includes_middle
             "SEO change marked as applied (Demo mode - actual API integration required for "
             prov ")").
Qed.

Lemma cancel_pending (editId userId : nat) (db : Db) (e : Edit) :
  seo_edits db !! editId = Some e -> status e = pending -> user_id e = userId ->
  cancel_edit editId userId db
  = {| db_after :=
         with_seo_edits db
           (<[editId := with_status e cancelled (applied_at e)]> (seo_edits db))
           (next_edit_id db);
       response :=
         redirect (flash_success "Edit cancelled") (edit_page (website_id e));
       pushes := [] |}.
Proof.
  intros He Hp Hu. unfold cancel_edit.
  rewrite He, Hp, Hu, Nat.eqb_refl. reflexivity.
Qed.

Lemma cancel_not_pending (db : Db) (id uid : nat) :
  status_of db id <> Some pending ->
  cancel_edit id uid db
  = {| db_after := db;
       response :=
         redirect (flash_error "Edit not found or already processed")
           "/websites";
       pushes := [] |}.
Proof.
  intros Hs. unfold cancel_edit, status_of in *.
  destruct (seo_edits db !! id) as [ e | ]; [ | reflexivity ].
  destruct (status e) eqn:Hs'; try reflexivity.
  exfalso. apply Hs. cbn. rewrite Hs'. reflexivity.
Qed.

(** C7. Cancelling a pending edit of the user moves it to cancelled, with
    the message "Edit cancelled", and touches no other record; a second
    cancel of the same id leaves the database as it is, sends nothing and
    redirects to the websites with the error "Edit not found or already
    processed". So does every cancel of a record that is not pending,
    whoever asks. *)
Theorem cancel_only_from_pending (editId userId : nat) (db : Db) (e : Edit)
    (He : seo_edits db !! editId = Some e)
    (Hp : status e = pending)
    (Hu : user_id e = userId) :
  let o := cancel_edit editId userId db in
  seo_edits (db_after o) !! editId = Some (with_status e cancelled (applied_at e))
  /\ response o
     = redirect (flash_success "Edit cancelled") (edit_page (website_id e))
  /\ (forall id, id <> editId ->
        seo_edits (db_after o) !! id = seo_edits db !! id)
  /\ cancel_edit editId userId (db_after o)
     = {| db_after := db_after o;
          response :=
            redirect (flash_error "Edit not found or already processed")
              "/websites";
          pushes := [] |}
  /\ (forall (db' : Db) (id uid : nat),
        status_of db' id <> Some pending ->
        cancel_edit id uid db'
        = {| db_after := db';
             response :=
               redirect (flash_error "Edit not found or already processed")
                 "/websites";
             pushes := [] |}).
Proof.
  cbv zeta. rewrite (cancel_pending editId userId db e He Hp Hu).
  cbn [db_after response].
  repeat split.
  - cbn. apply lookup_insert_eq.
  - intros id Hid. cbn. apply lookup_insert_ne. congruence.
  - apply cancel_not_pending. rewrite status_of_insert. discriminate.
  - apply cancel_not_pending.
Qed.

(** Edit 1 of [db2] is pending and belongs to user 7. *)
Lemma cancel_twice_witness :
  let o := cancel_edit 1 7 db2 in
  seo_edits (db_after o) !! 1%nat = Some (with_status edit1 cancelled None)
  /\ response o = redirect (flash_success "Edit cancelled") "/seo/edit/1"
  /\ (forall id, id <> 1%nat ->
        seo_edits (db_after o) !! id = seo_edits db2 !! id)
  /\ cancel_edit 1 7 (db_after o)
     = {| db_after := db_after o;
          response :=
            redirect (flash_error "Edit not found or already processed")
              "/websites";
          pushes := [] |}
  /\ (forall (db' : Db) (id uid : nat),
        status_of db' id <> Some pending ->
        cancel_edit id uid db'
        = {| db_after := db';
             response :=
               redirect (flash_error "Edit not found or already processed")
                 "/websites";
             pushes := [] |}).
Proof.
  exact (cancel_only_from_pending 1 7 db2 edit1 eq_refl eq_refl eq_refl).
Defined.

(** *** One operation on one record *)

(** A cancel makes only the moves the lifecycle allows, on every record. *)
Lemma cancel_edit_allowed (editId userId id : nat) (db : Db) :
  allowed (status_of db id)
    (status_of (db_after (cancel_edit editId userId db)) id).
Proof.
  destruct (seo_edits db !! editId) as [ e | ] eqn:He.
  - destruct (status e) eqn:Hs;
      [ destruct (Nat.eqb (user_id e) userId) eqn:Hu | | ].
    + apply Nat.eqb_eq in Hu.
      rewrite (cancel_pending editId userId db e He Hs Hu). cbn [db_after].
      destruct (decide (id = editId)) as [ -> | Hne ].
      * rewrite status_of_insert. right. right.
        unfold status_of. rewrite He. cbn. rewrite Hs. auto.
      * left. unfold status_of. cbn.
        rewrite lookup_insert_ne by congruence. reflexivity.
    + left. unfold cancel_edit. rewrite He, Hs, Hu. reflexivity.
    + left. unfold cancel_edit. rewrite He, Hs. reflexivity.
    + left. unfold cancel_edit. rewrite He, Hs. reflexivity.
  - left. unfold cancel_edit. rewrite He. reflexivity.
Qed.

(** An apply with a connected account ends in applied from every status. *)
Lemma apply_edit_ignores_status (push : PushRequest -> PushOutcome) (now : Z)
    (editId userId : nat) (db : Db) (e : Edit) (w : Website) :
  seo_edits db !! editId = Some e -> user_id e = userId ->
  websites db !! website_id e = Some w ->
  no_account (connected_account_id w) = false ->
  status_of (db_after (apply_edit push now editId userId db)) editId
  = Some applied.
Proof.
  intros He Hu Hw Hacc. unfold apply_edit, joined_edit.
  rewrite He, Hu, Nat.eqb_refl, Hw, Hacc.
  match goal with |- context [push ?r] => destruct (push r) end;
    unfold status_of; cbn; rewrite lookup_alter_eq, He; reflexivity.
Qed.

(** C1. Saving an edit, cancelling it and then applying it takes the record
    through pending, cancelled and applied, whether the push fails or
    succeeds: [POST /apply/:editId] updates the row whatever its status, so
    a cancelled record leaves its terminal state, a step the lifecycle does
    not allow. *)
Theorem apply_reopens_cancelled_edit :
  List.map (fun db => status_of db 1)
    (history push_fails 10 cancel_then_apply db0)
  = [Some pending; Some cancelled; Some applied]
  /\ List.map (fun db => status_of db 1)
       (history push_succeeds 10 cancel_then_apply db0)
     = [Some pending; Some cancelled; Some applied]
  /\ ~ allowed (Some cancelled) (Some applied).
Proof.
  split; [ vm_compute; reflexivity | split; [ vm_compute; reflexivity | ] ].
  intros [ H | [ [H _] | [H _] ] ]; discriminate H.
Qed.

(** *** Applying an edit *)

Lemma apply_edit_no_account (push : PushRequest -> PushOutcome) (now : Z)
    (editId userId : nat) (db : Db) (e : Edit) (w : Website) :
  seo_edits db !! editId = Some e -> user_id e = userId ->
  websites db !! website_id e = Some w ->
  no_account (connected_account_id w) = true ->
  apply_edit push now editId userId db
  = {| db_after := db;
       response :=
         redirect
           (flash_error
              "No platform connected. Connect a platform first to push changes.")
           (edit_page (website_id e));
       pushes := [] |}.
Proof.
  intros He Hu Hw Hno. unfold apply_edit, joined_edit.
  rewrite He, Hu, Nat.eqb_refl, Hw, Hno. reflexivity.
Qed.

(** C2. When [POST /apply/:editId] is invoked for an edit whose website has
    no connected account, no push is attempted, the database is left as it
    was (the edit keeps its status), and the user is shown the error "No
    platform connected. Connect a platform first to push changes.". *)
Theorem apply_needs_connected_account (push : PushRequest -> PushOutcome)
    (now : Z) (editId userId : nat) (db : Db) (e : Edit) (w : Website)
    (He : seo_edits db !! editId = Some e)
    (Hu : user_id e = userId)
    (Hw : websites db !! website_id e = Some w)
    (Hno : no_account (connected_account_id w) = true) :
  let o := apply_edit push now editId userId db in
  db_after o = db
  /\ status_of (db_after o) editId = Some (status e)
  /\ pushes o = []
  /\ response o
     = redirect
         (flash_error
            "No platform connected. Connect a platform first to push changes.")
         (edit_page (website_id e)).
Proof.
  cbv zeta. rewrite (apply_edit_no_account push now editId userId db e w He Hu Hw Hno).
  cbn [db_after pushes response]. repeat split.
  unfold status_of. rewrite He. reflexivity.
Qed.

(** Edit 2 of [db2] belongs to the website without an account. *)
Lemma apply_without_account_witness :
  let o := apply_edit push_fails 12 2 7 db2 in
  db_after o = db2
  /\ status_of (db_after o) 2 = Some pending
  /\ pushes o = []
  /\ response o
     = redirect
         (flash_error
            "No platform connected. Connect a platform first to push changes.")
         "/seo/edit/2".
Proof.
  exact (apply_needs_connected_account push_fails 12 2 7 db2 edit2 shop
           eq_refl eq_refl eq_refl eq_refl).
Defined.

(** C2, as stated, fails on edit 2, whose website has no connected account:
    applying it sends no push, leaves the edit pending and answers with an
    error, so the record is not applied and nothing names demo mode. *)
Lemma apply_without_account_stays_pending :
  let o := apply_edit push_fails 12 2 7 db2 in
  status_of db2 2 = Some pending
  /\ status_of (db_after o) 2 = Some pending
  /\ pushes o = []
  /\ is_success (response o) = false
  /\ JS.includes (text_of (response o)) "Demo mode" = false
  /\ (forall prov, ~ simulated_apply o 2 prov).
Proof.
  cbv zeta. repeat split; try reflexivity.
  intros prov (Hs & _). vm_compute in Hs. discriminate Hs.
Qed.

(** *** A push that fails *)

(** The edit of a suggestion is stored as it is when the URL of the website,
    the type and the content fit. *)
Lemma suggested_edit_stored (db : Db) (now : Z) (websiteId userId : nat)
    (suggestion_type suggestion_content : string) (w : Website) :
  varchar_ok 500 (w_url w) = true ->
  varchar_ok 50 suggestion_type = true ->
  text_ok suggestion_content = true ->
  insert_edit db
    (suggested_edit now websiteId userId suggestion_type suggestion_content w)
  = Some (with_seo_edits db
            (<[next_edit_id db :=
                 suggested_edit now websiteId userId suggestion_type
                   suggestion_content w]> (seo_edits db))
            (S (next_edit_id db)),
          next_edit_id db).
Proof.
  intros Hurl Htype Htext.
  apply SchemaFacts.insert_edit_fits, SchemaFacts.stored_edit_fits;
    [ exact Hurl | exact Htype | reflexivity | exact Htext ].
Qed.

Section PushFails.

(** Every push request is answered by an error. *)
Variable push : PushRequest -> PushOutcome.
Hypothesis push_always_fails :
  forall request, exists m, push request = push_error m.

Variable explain : Edit -> string.
Variable now : Z.
Variable db : Db.

Lemma apply_edit_push_fails (editId userId aid : nat) (e : Edit)
    (w : Website) (a : Account) :
  seo_edits db !! editId = Some e -> user_id e = userId ->
  websites db !! website_id e = Some w ->
  connected_account_id w = Some (S aid) ->
  connected_accounts db !! S aid = Some a ->
  exists request,
    apply_edit push now editId userId db
    = {| db_after := mark_applied db editId now;
         response :=
           redirect (flash_success (demo_text (provider a)))
             (edit_page (website_id e));
         pushes := [request] |}.
Proof.
  intros He Hu Hw Hc Ha. unfold apply_edit, joined_edit, account_of.
  rewrite He, Hu, Nat.eqb_refl, Hw, Hc, Ha. cbn [no_account].
  match goal with
  | |- context [push ?r] =>
      destruct (push_always_fails r) as [m Hm]; rewrite Hm; exists r
  end.
  reflexivity.
Qed.

Lemma apply_ai_push_fails (websiteId userId : nat)
    (suggestion_type suggestion_content : string) (w : Website) (a : Account) :
  website_of db websiteId userId = Some w ->
  account_of db w = Some a ->
  JS.truthy (provider a) = true ->
  varchar_ok 500 (w_url w) = true ->
  varchar_ok 50 suggestion_type = true ->
  text_ok suggestion_content = true ->
  exists request,
    apply_ai explain push now websiteId userId suggestion_type
      suggestion_content db
    = {| db_after :=
           with_seo_edits db
             (<[next_edit_id db :=
                  suggested_edit now websiteId userId suggestion_type
                    suggestion_content w]> (seo_edits db))
             (S (next_edit_id db));
         response :=
           json true
             "AI suggestion saved. Connect a platform to push to your site.";
         pushes := [request] |}.
Proof.
  intros Hw Ha Hp Hurl Htype Htext. unfold apply_ai.
  rewrite Hw, Ha, (suggested_edit_stored db _ _ _ _ _ _ Hurl Htype Htext), Hp.
  match goal with
  | |- context [push ?r] =>
      destruct (push_always_fails r) as [m Hm]; rewrite Hm; exists r
  end.
  reflexivity.
Qed.

(** C3. Whenever the push fails. For [POST /apply/:editId] on an edit whose
    website has a connected account, the edit is marked applied with
    [applied_at] set to the current time, the success message names demo
    mode and the provider, and one push request is sent. For
    [POST /apply-ai/:websiteId], which pushes once the suggestion is stored
    as an edit (a website of the user with a connected account that names
    its provider, a URL of the website of at most 500 characters, a type of
    the suggestion of at most 50, and no code unit 0 in the URL, the type or
    the content), the edit just created stays pending with no
    [applied_at], the answer is the success "AI suggestion saved. Connect a
    platform to push to your site.", and one push request is sent. *)
Theorem failed_push_outcomes :
  (forall (editId userId aid : nat) (e : Edit) (w : Website) (a : Account),
      seo_edits db !! editId = Some e ->
      user_id e = userId ->
      websites db !! website_id e = Some w ->
      connected_account_id w = Some (S aid) ->
      connected_accounts db !! S aid = Some a ->
      let o := apply_edit push now editId userId db in
      seo_edits (db_after o) !! editId = Some (with_status e applied (Some now))
      /\ simulated_apply o editId (provider a)
      /\ response o
         = redirect
             (flash_success
                ("SEO change marked as applied (Demo mode - actual API integration required for "
                 ++ provider a ++ ")"))
             (edit_page (website_id e))
      /\ List.length (pushes o) = 1%nat)
  /\ (forall (websiteId userId : nat)
        (suggestion_type suggestion_content : string)
        (w : Website) (a : Account),
      website_of db websiteId userId = Some w ->
      account_of db w = Some a ->
      provider a <> EmptyString ->
      (String.length (w_url w) <= 500)%nat ->
      (String.length suggestion_type <= 50)%nat ->
      JS.includes (w_url w) nul = false ->
      JS.includes suggestion_type nul = false ->
      JS.includes suggestion_content nul = false ->
      let o := apply_ai explain push now websiteId userId suggestion_type
                 suggestion_content db in
      status_of (db_after o) (next_edit_id db) = Some pending
      /\ applied_at_of (db_after o) (next_edit_id db) = None
      /\ response o
         = json true
             "AI suggestion saved. Connect a platform to push to your site."
      /\ List.length (pushes o) = 1%nat).
Proof.
  split.
  - intros editId userId aid e w a He Hu Hw Hc Ha. cbv zeta.
    destruct (apply_edit_push_fails editId userId aid e w a He Hu Hw Hc Ha)
      as [request ->].
    cbn [db_after response pushes].
    assert (Hl : seo_edits (mark_applied db editId now) !! editId
                 = Some (with_status e applied (Some now))).
    { cbn. rewrite lookup_alter_eq, He. reflexivity. }
    split; [ exact Hl | split; [ | split; reflexivity ] ].
    unfold simulated_apply, status_of, applied_at_of.
    cbn [db_after response text_of is_success]. rewrite Hl. cbn.
    pose proof (demo_message_names (provider a)) as [Hd Hn].
    split; [ reflexivity | ].
    split; [ eexists; reflexivity | ].
    split; [ reflexivity | ].
    split; [ exact Hd | exact Hn ].
  - intros websiteId userId suggestion_type suggestion_content w a
      Hw Ha Hp Hlen Hlen' Hn Hn' Hn''. cbv zeta.
    assert (Hpr : JS.truthy (provider a) = true)
      by (destruct (provider a); [ contradiction | reflexivity ]).
    assert (Hurl : varchar_ok 500 (w_url w) = true)
      by (apply SchemaFacts.varchar_ok_length; split; assumption).
    assert (Htype : varchar_ok 50 suggestion_type = true)
      by (apply SchemaFacts.varchar_ok_length; split; assumption).
    assert (Htext : text_ok suggestion_content = true)
      by (apply SchemaFacts.text_ok_includes; assumption).
    destruct (apply_ai_push_fails websiteId userId suggestion_type
                suggestion_content w a Hw Ha Hpr Hurl Htype Htext)
      as [request ->].
    cbn [db_after response pushes].
    unfold status_of, applied_at_of. cbn. rewrite lookup_insert_eq.
    repeat split.
Qed.

End PushFails.

(** With the ML service refusing connections: the apply on edit 1 of [db2],
    and a suggestion for website 1 of [db0], which holds no edit yet. *)
Lemma failed_push_witness :
  (let o := apply_edit push_fails 12 1 7 db2 in
   seo_edits (db_after o) !! 1%nat = Some (with_status edit1 applied (Some 12))
   /\ simulated_apply o 1 "wordpress"
   /\ response o
      = redirect
          (flash_success
             "SEO change marked as applied (Demo mode - actual API integration required for wordpress)")
          "/seo/edit/1"
   /\ List.length (pushes o) = 1%nat)
  /\ (let o := apply_ai edit_error push_fails 12 1 7 "title" "Better title"
                 db0 in
      status_of (db_after o) 1 = Some pending
      /\ applied_at_of (db_after o) 1 = None
      /\ response o
         = json true
             "AI suggestion saved. Connect a platform to push to your site."
      /\ List.length (pushes o) = 1%nat).
Proof.
  split.
  - exact (proj1 (failed_push_outcomes push_fails
                    (fun request =>
                       ex_intro _ "connect ECONNREFUSED 127.0.0.1:5000"%string
                         eq_refl)
                    edit_error 12 db2)
             1%nat 7%nat 0%nat edit1 blog wordpress
             eq_refl eq_refl eq_refl eq_refl eq_refl).
  - exact (proj2 (failed_push_outcomes push_fails
                    (fun request =>
                       ex_intro _ "connect ECONNREFUSED 127.0.0.1:5000"%string
                         eq_refl)
                    edit_error 12 db0)
             1%nat 7%nat "title"%string "Better title"%string blog wordpress
             eq_refl eq_refl ltac:(discriminate) ltac:(vm_compute; lia)
             ltac:(vm_compute; lia) eq_refl eq_refl eq_refl).
Defined.

(** C3, as stated, fails on [POST /apply-ai/:websiteId]: website 1 is
    connected to a WordPress account, the push fails, and the edit just
    created (edit 3) stays pending without [applied_at]; the answer names
    neither demo mode nor the provider. One push request was sent. *)
Lemma apply_ai_failed_push_stays_pending :
  let o := apply_ai edit_error push_fails 12 1 7 "title" "Better title" db2 in
  status_of (db_after o) 3 = Some pending
  /\ applied_at_of (db_after o) 3 = None
  /\ response o
     = json true "AI suggestion saved. Connect a platform to push to your site."
  /\ JS.includes (text_of (response o)) "Demo mode" = false
  /\ JS.includes (text_of (response o)) "wordpress" = false
  /\ List.length (pushes o) = 1%nat
  /\ ~ simulated_apply o 3 "wordpress".
Proof.
  cbv zeta. repeat split; try reflexivity.
  intros (Hs & _). vm_compute in Hs. discriminate Hs.
Qed.

End SeoFacts.

(** ** Further properties of the local fallback analyzer *)

Module AnalyzeMore.

Import Schema Analyze Samples Measures Scenarios.

(** *** Counting words *)

Lemma runs_true_le (s : string) : (runs true s <= runs false s)%nat.
Proof.
  destruct s as [ | c s ]; cbn [runs]; [ lia | ].
  destruct (JS.is_space c); lia.
Qed.

Lemma runs_trimStart (s : string) : runs false (JS.trimStart s) = runs false s.
Proof.
  induction s as [ | c s IH ]; [ reflexivity | ].
  cbn [JS.trimStart runs].
  destruct (JS.is_space c) eqn:Hc; [ exact IH | ].
  cbn [runs]. rewrite Hc. reflexivity.
Qed.

Lemma runs_trimEnd (s : string) (b : bool) : runs b (JS.trimEnd s) = runs b s.
Proof.
  revert b. induction s as [ | c s IH ]; intros b; [ reflexivity | ].
  cbn [JS.trimEnd].
  destruct (JS.trimEnd s) as [ | c' t ] eqn:Ht.
  - assert (H0 : forall b', runs b' s = O) by (intros b'; rewrite <- IH; reflexivity).
    cbn [runs]. destruct (JS.is_space c) eqn:Hc.
    + rewrite H0. reflexivity.
    + cbn [runs]. rewrite Hc, H0. reflexivity.
  - cbn [runs]. destruct (JS.is_space c); rewrite <- !IH; reflexivity.
Qed.

Lemma runs_collapse (s : string) (in_run in_word : bool) :
  (in_run = true -> in_word = false) ->
  runs in_word (JS.collapse_spaces in_run s) = runs in_word s.
Proof.
  revert in_run in_word.
  induction s as [ | c s IH ]; intros in_run in_word H; [ reflexivity | ].
  cbn [JS.collapse_spaces runs].
  destruct (JS.is_space c) eqn:Hc.
  - destruct in_run.
    + rewrite (H eq_refl). apply IH. reflexivity.
    + cbn [runs]. change (JS.is_space " "%char) with true. cbv iota.
      apply IH. reflexivity.
  - cbn [runs]. rewrite Hc. f_equal. apply IH. discriminate.
Qed.

Lemma only_blanks_collapse (s : string) (in_run : bool) :
  only_blanks (JS.collapse_spaces in_run s) = true.
Proof.
  revert in_run. induction s as [ | c s IH ]; intros in_run; [ reflexivity | ].
  cbn [JS.collapse_spaces].
  destruct (JS.is_space c) eqn:Hc.
  - destruct in_run; [ apply IH | ].
    cbn [only_blanks]. rewrite IH. reflexivity.
  - cbn [only_blanks]. rewrite Hc, IH. reflexivity.
Qed.

Lemma only_blanks_trimStart (s : string) :
  only_blanks s = true -> only_blanks (JS.trimStart s) = true.
Proof.
  induction s as [ | c s IH ]; [ reflexivity | ].
  cbn [JS.trimStart]. destruct (JS.is_space c) eqn:Hc; [ | easy ].
  cbn [only_blanks]. intros H. apply andb_prop in H. apply IH, H.
Qed.

Lemma only_blanks_trimEnd (s : string) :
  only_blanks s = true -> only_blanks (JS.trimEnd s) = true.
Proof.
  induction s as [ | c s IH ]; [ reflexivity | ].
  cbn [JS.trimEnd only_blanks]. intros H. apply andb_prop in H as [Hc Hs].
  specialize (IH Hs).
  destruct (JS.trimEnd s) as [ | c' t ].
  - destruct (JS.is_space c) eqn:Hsp; [ reflexivity | ].
    cbn [only_blanks]. rewrite Hsp. reflexivity.
  - cbn [only_blanks] in *. rewrite Hc. exact IH.
Qed.

Lemma count_nonempty_cons (c : ascii) (w : string) (ws : list string) :
  count_nonempty (String c w :: ws) = S (count_nonempty ws).
Proof.
  unfold count_nonempty. cbn [List.filter].
  replace (0 <? JS.length (String c w)) with true; [ reflexivity | ].
  symmetry. apply Z.ltb_lt. unfold JS.length. cbn [String.length]. lia.
Qed.

(** Splitting at the spaces and dropping the empty pieces leaves one piece
    per run, when the space is the only white space of the string. *)
Lemma split_space_runs (t : string) :
  only_blanks t = true ->
  exists w ws,
    JS.split_space t = w :: ws
    /\ count_nonempty (w :: ws) = runs false t
    /\ count_nonempty ws = runs true t.
Proof.
  induction t as [ | c t IH ]; intros H.
  - exists EmptyString, []. repeat split.
  - cbn [only_blanks] in H. apply andb_prop in H as [Hc Ht].
    destruct (IH Ht) as (w & ws & Hsplit & Hall & Hrest).
    cbn [JS.split_space runs].
    destruct (JS.is_space c) eqn:Hsp.
    + rewrite Hc. exists EmptyString, (JS.split_space t).
      split; [ reflexivity | ].
      rewrite Hsplit, <- Hall. split; reflexivity.
    + assert (Hne : Ascii.eqb c " "%char = false).
      { destruct (Ascii.eqb c " "%char) eqn:E; [ | reflexivity ].
        apply Ascii.eqb_eq in E. subst c. discriminate Hsp. }
      rewrite Hne, Hsplit. exists (String c w), ws.
      split; [ reflexivity | ].
      rewrite count_nonempty_cons, Hrest. split; reflexivity.
Qed.

(** X1. The word count of the fallback analyzer is the number of maximal
    runs of code units that are not white space: leading, trailing and
    repeated white space of any kind never adds a word. *)
Theorem count_words_counts_runs (bodyText : string) :
  count_words bodyText = Z.of_nat (runs false bodyText).
Proof.
  unfold count_words.
  set (t := JS.trim (JS.collapse_spaces false bodyText)).
  assert (Hb : only_blanks t = true).
  { apply only_blanks_trimEnd, only_blanks_trimStart, only_blanks_collapse. }
  destruct (split_space_runs t Hb) as (w & ws & Hsplit & Hall & _).
  rewrite Hsplit. fold (count_nonempty (w :: ws)). rewrite Hall.
  f_equal. unfold t, JS.trim.
  rewrite runs_trimEnd, runs_trimStart. apply runs_collapse. discriminate.
Qed.

(** *** The rule chain of the issue engine *)

Lemma truthy_length (s : string) : JS.truthy s = (0 <? JS.length s).
Proof.
  destruct s as [ | c s ]; [ reflexivity | ].
  symmetry. apply Z.ltb_lt. unfold JS.length. cbn [String.length]. lia.
Qed.

Lemma truthy_empty (s : string) : JS.truthy s = false <-> s = EmptyString.
Proof. destruct s; split; intros H; try reflexivity; discriminate H. Qed.

Ltac split_tests :=
  repeat match goal with
         | |- context [negb (JS.truthy ?s)] => destruct (JS.truthy s) eqn:?
         | |- context [(?a <? ?b)%Z] => destruct (a <? b)%Z eqn:?
         | |- context [(?a =? ?b)%Z] => destruct (a =? b)%Z eqn:?
         | |- context [(?a <=? ?b)%Z] => destruct (a <=? b)%Z eqn:?
         | |- context [(3 <? ?l)%float] => destruct (3 <? l)%float eqn:?
         | |- context [negb ?b] => is_var b; destruct b
         end; cbn [negb app andb].

Ltac to_arith :=
  repeat match goal with
         | H : (_ <? _)%Z = true |- _ => apply Z.ltb_lt in H
         | H : (_ <? _)%Z = false |- _ => apply Z.ltb_ge in H
         | H : (_ <=? _)%Z = true |- _ => apply Z.leb_le in H
         | H : (_ <=? _)%Z = false |- _ => apply Z.leb_gt in H
         | H : (_ =? _)%Z = true |- _ => apply Z.eqb_eq in H
         | H : (_ =? _)%Z = false |- _ => apply Z.eqb_neq in H
         end.

(** X2. The issue engine reports nothing exactly when every rule passes:
    the title has 30 to 60 code units, the meta description is not empty,
    there is one H1, at least 300 words, a mobile viewport, and the load
    time is not above 3 seconds. The length of a non-empty meta description
    is not examined. *)
Theorem no_issue_iff_rules_pass (title metaDesc : string)
    (h1Tags : list string) (wordCount : Z) (mobileFriendly : bool)
    (loadTime : float) :
  generateBasicIssues title metaDesc h1Tags wordCount mobileFriendly loadTime
  = []
  <-> (30 <= JS.length title <= 60
       /\ metaDesc <> EmptyString
       /\ List.length h1Tags = 1%nat
       /\ 300 <= wordCount
       /\ mobileFriendly = true
       /\ (3 <? loadTime)%float = false).
Proof.
  unfold generateBasicIssues.
  pose proof (truthy_length title) as Ht.
  pose proof (truthy_empty metaDesc) as Hm.
  split.
  - split_tests; intros H; try discriminate H; to_arith;
      repeat split; try lia; try reflexivity.
    intros E. apply Hm in E. discriminate E.
  - intros (Hlen & Hmeta & Hh1 & Hw & -> & ->).
    assert (JS.truthy title = true) as -> by (rewrite Ht; apply Z.ltb_lt; lia).
    assert (JS.truthy metaDesc = true) as ->.
    { destruct metaDesc; [ contradiction | reflexivity ]. }
    rewrite Hh1. cbn [negb].
    replace (JS.length title <? 30) with false by (symmetry; apply Z.ltb_ge; lia).
    replace (60 <? JS.length title) with false by (symmetry; apply Z.ltb_ge; lia).
    replace (wordCount <? 300) with false by (symmetry; apply Z.ltb_ge; lia).
    reflexivity.
Qed.

Lemma generateBasicIssues_from (title metaDesc : string)
    (h1Tags : list string) (wordCount : Z) (mobileFriendly : bool)
    (loadTime : float) :
  generateBasicIssues title metaDesc h1Tags wordCount mobileFriendly loadTime
  = issues_from (negb (JS.truthy title)) (JS.length title <? 30)
      (60 <? JS.length title) (negb (JS.truthy metaDesc))
      (Z.of_nat (List.length h1Tags) =? 0)
      (1 <? Z.of_nat (List.length h1Tags)) (wordCount <? 300)
      (negb mobileFriendly) (3 <? loadTime)%float.
Proof. reflexivity. Qed.

(** X3. The issue engine emits at most six issues: at most one each for
    title, meta, technical and performance, at most two for content, none
    for social, and never one of severity info. *)
Theorem issues_are_bounded (title metaDesc : string) (h1Tags : list string)
    (wordCount : Z) (mobileFriendly : bool) (loadTime : float) :
  let l := generateBasicIssues title metaDesc h1Tags wordCount mobileFriendly
             loadTime in
  (List.length l <= 6)%nat
  /\ (count_category cat_title l <= 1)%nat
  /\ (count_category cat_meta l <= 1)%nat
  /\ (count_category cat_content l <= 2)%nat
  /\ (count_category cat_technical l <= 1)%nat
  /\ (count_category cat_performance l <= 1)%nat
  /\ count_category cat_social l = O
  /\ has_issue info cat_title l || has_issue info cat_meta l
     || has_issue info cat_content l || has_issue info cat_technical l
     || has_issue info cat_performance l || has_issue info cat_social l
     = false.
Proof.
  cbv zeta. rewrite generateBasicIssues_from.
  generalize (negb (JS.truthy title)), (JS.length title <? 30),
    (60 <? JS.length title), (negb (JS.truthy metaDesc)),
    (Z.of_nat (List.length h1Tags) =? 0),
    (1 <? Z.of_nat (List.length h1Tags)), (wordCount <? 300),
    (negb mobileFriendly), (3 <? loadTime)%float.
  intros [] [] [] [] [] [] [] [] []; cbv; repeat split; repeat constructor.
Qed.

Lemma h1_positive (h1Tags : list string) :
  (0 <? Z.of_nat (List.length h1Tags))
  = negb (Z.of_nat (List.length h1Tags) =? 0).
Proof.
  destruct (Z.of_nat (List.length h1Tags) =? 0) eqn:E; to_arith; cbn [negb].
  - apply Z.ltb_ge. lia.
  - apply Z.ltb_lt. lia.
Qed.

Lemma h1_tests (h1Tags : list string) :
  (Z.of_nat (List.length h1Tags) =? 1)
  = negb (Z.of_nat (List.length h1Tags) =? 0)
    && negb (1 <? Z.of_nat (List.length h1Tags)).
Proof.
  destruct (Z.of_nat (List.length h1Tags) =? 0) eqn:E0;
    destruct (1 <? Z.of_nat (List.length h1Tags)) eqn:E1;
    to_arith; cbn [negb andb];
    first [ apply Z.eqb_eq; lia | apply Z.eqb_neq; lia ].
Qed.

Lemma titleScore_full (title : string) :
  (titleScore title =? 100)
  = JS.truthy title && negb (JS.length title <? 30)
    && negb (60 <? JS.length title).
Proof.
  unfold titleScore. rewrite !Z.leb_antisym.
  destruct (JS.truthy title); destruct (JS.length title <? 30);
    destruct (60 <? JS.length title); reflexivity.
Qed.

Lemma metaScore_zero (metaDesc : string) :
  (metaScore metaDesc =? 0) = negb (JS.truthy metaDesc).
Proof.
  unfold metaScore.
  destruct (JS.truthy metaDesc); [ | reflexivity ].
  destruct ((120 <=? JS.length metaDesc) && (JS.length metaDesc <=? 160));
    reflexivity.
Qed.

Lemma contentScore_full (h1Tags : list string) (wordCount : Z) :
  (contentScore h1Tags wordCount =? 100)
  = negb (Z.of_nat (List.length h1Tags) =? 0)
    && negb (1 <? Z.of_nat (List.length h1Tags))
    && negb (wordCount <? 300).
Proof.
  unfold contentScore.
  rewrite (h1_tests h1Tags), (h1_positive h1Tags), Z.leb_antisym.
  destruct (Z.of_nat (List.length h1Tags) =? 0);
    destruct (1 <? Z.of_nat (List.length h1Tags));
    destruct (wordCount <? 300); reflexivity.
Qed.

Lemma technicalScore_low (mobileFriendly : bool) :
  (technicalScore mobileFriendly =? 40) = negb mobileFriendly.
Proof. destruct mobileFriendly; reflexivity. Qed.

(** X4. The issues agree with the scores: there is a title issue exactly
    when the title score is below 100, a meta issue exactly when the meta
    score is 0 (a description of the wrong length scores 60 without an
    issue), a content issue exactly when the content score is below 100, and
    a technical issue exactly when the technical score is 40. *)
Theorem issues_agree_with_scores (title metaDesc : string)
    (h1Tags : list string) (wordCount : Z) (mobileFriendly : bool)
    (loadTime : float) :
  let l := generateBasicIssues title metaDesc h1Tags wordCount mobileFriendly
             loadTime in
  has_category cat_title l = negb (titleScore title =? 100)
  /\ has_category cat_meta l = (metaScore metaDesc =? 0)
  /\ has_issue critical cat_meta l = (metaScore metaDesc =? 0)
  /\ has_category cat_content l = negb (contentScore h1Tags wordCount =? 100)
  /\ has_category cat_technical l = (technicalScore mobileFriendly =? 40).
Proof.
  cbv zeta.
  rewrite titleScore_full, metaScore_zero, contentScore_full,
    technicalScore_low, generateBasicIssues_from.
  destruct (JS.truthy title), (JS.truthy metaDesc), mobileFriendly;
    generalize (JS.length title <? 30), (60 <? JS.length title),
      (Z.of_nat (List.length h1Tags) =? 0),
      (1 <? Z.of_nat (List.length h1Tags)), (wordCount <? 300),
      (3 <? loadTime)%float;
    intros [] [] [] [] [] []; cbv; repeat split; reflexivity.
Qed.

(** *** The overall score *)

Lemma in_score_tuples (t m c te p : Z) :
  In t title_values -> In m meta_values -> In c content_values ->
  In te technical_values -> In p performance_values ->
  In (t, m, c, te, p) score_tuples.
Proof.
  intros Ht Hm Hc Hte Hp. unfold score_tuples.
  repeat (apply in_prod; [ | assumption ]). assumption.
Qed.

Lemma in_title_values (t : string) : In (titleScore t) title_values.
Proof.
  destruct (AnalyzeFacts.titleScore_values t) as [ H | [ H | H ] ];
    rewrite H; cbn; auto.
Qed.

Lemma in_meta_values (d : string) : In (metaScore d) meta_values.
Proof.
  destruct (AnalyzeFacts.metaScore_values d) as [ H | [ H | H ] ];
    rewrite H; cbn; auto.
Qed.

Lemma in_technical_values (b : bool) : In (technicalScore b) technical_values.
Proof. destruct b; cbn; auto. Qed.

Lemma in_performance_values (l : float) :
  In (performanceScore l) performance_values.
Proof.
  destruct (AnalyzeFacts.performanceScore_values l) as [ H | [ H | H ] ];
    rewrite H; cbn; auto.
Qed.

Lemma analysis_tuple (url : string) (page : Page) (loadTime : float) :
  let a := analyse_page url page loadTime in
  In (title (scores a), meta (scores a), content (scores a),
      technical (scores a), performance (scores a)) score_tuples
  /\ overall_score a
     = overall_of (title (scores a), meta (scores a), content (scores a),
                   technical (scores a), performance (scores a)).
Proof.
  unfold analyse_page.
  destruct (count_links (anchor_hrefs page)) as [internalLinks externalLinks].
  cbn zeta.
  cbn [scores overall_score title meta content technical performance social].
  split; [ | reflexivity ].
  apply in_score_tuples.
  - apply in_title_values.
  - apply in_meta_values.
  - apply AnalyzeFacts.contentScore_values.
  - apply in_technical_values.
  - apply in_performance_values.
Qed.

Lemma overall_range_on_table :
  forallb (fun x => (26 <=? overall_of x) && (overall_of x <=? 95))
    score_tuples = true.
Proof. vm_compute. reflexivity. Qed.

(** On the table, a tuple that is no smaller in any category has an overall
    score that is no smaller. *)
Lemma overall_monotone_checked :
  forallb
    (fun x =>
       forallb (fun y => implb (tuple_le (fst x) (fst y)) (snd x <=? snd y))
         scored_tuples)
    scored_tuples = true.
Proof. vm_compute. reflexivity. Qed.

Lemma in_scored (x : Z * Z * Z * Z * Z) :
  In x score_tuples -> In (x, overall_of x) scored_tuples.
Proof.
  intros H. unfold scored_tuples.
  apply (in_map (fun x => (x, overall_of x))). exact H.
Qed.

Lemma table_monotone (x y : Z * Z * Z * Z * Z) :
  In x score_tuples -> In y score_tuples -> tuple_le x y = true ->
  overall_of x <= overall_of y.
Proof.
  intros Hx Hy Hle.
  pose proof (proj1 (forallb_forall _ _) overall_monotone_checked
                _ (in_scored x Hx)) as H1.
  cbv beta in H1.
  pose proof (proj1 (forallb_forall _ _) H1 _ (in_scored y Hy)) as H2.
  cbv beta in H2. cbn [fst snd] in H2.
  rewrite Hle in H2. apply Z.leb_le. exact H2.
Qed.

(** X5. The overall score of the fallback analyzer always lies between 26
    and 95, and both ends are reached: a blank page that loads in five
    seconds scores 26 (grade D), a page that passes every rule scores 95
    (grade A), since the technical score never exceeds 80. *)
Theorem overall_between_26_and_95 (url : string) (page : Page)
    (loadTime : float) :
  26 <= overall_score (analyse_page url page loadTime) <= 95
  /\ overall_score (analyse_page url blank_page 5) = 26
  /\ grade (analyse_page url blank_page 5) = "D"%string
  /\ overall_score (analyse_page url tidy_page 1.2) = 95
  /\ grade (analyse_page url tidy_page 1.2) = "A"%string
  /\ issues (analyse_page url tidy_page 1.2) = [].
Proof.
  split; [ | repeat split; vm_compute; reflexivity ].
  destruct (analysis_tuple url page loadTime) as [Hin ->].
  pose proof overall_range_on_table as H.
  rewrite forallb_forall in H. specialize (H _ Hin).
  apply andb_prop in H as [H1 H2]. apply Z.leb_le in H1, H2. lia.
Qed.

(** X6. Between two analyses of the fallback analyzer, if no category score
    of the second is lower than in the first, its overall score is not
    lower either: rounding the binary64 sum never inverts the order. *)
Theorem overall_is_monotone (url url' : string) (page page' : Page)
    (loadTime loadTime' : float)
    (Ht : title (scores (analyse_page url page loadTime))
          <= title (scores (analyse_page url' page' loadTime')))
    (Hm : meta (scores (analyse_page url page loadTime))
          <= meta (scores (analyse_page url' page' loadTime')))
    (Hc : content (scores (analyse_page url page loadTime))
          <= content (scores (analyse_page url' page' loadTime')))
    (Hte : technical (scores (analyse_page url page loadTime))
           <= technical (scores (analyse_page url' page' loadTime')))
    (Hp : performance (scores (analyse_page url page loadTime))
          <= performance (scores (analyse_page url' page' loadTime'))) :
  overall_score (analyse_page url page loadTime)
  <= overall_score (analyse_page url' page' loadTime').
Proof.
  destruct (analysis_tuple url page loadTime) as [Hin Ho].
  destruct (analysis_tuple url' page' loadTime') as [Hin' Ho'].
  rewrite Ho, Ho'.
  apply table_monotone; [ exact Hin | exact Hin' | ].
  unfold tuple_le.
  apply Z.leb_le in Ht, Hm, Hc, Hte, Hp.
  rewrite Ht, Hm, Hc, Hte, Hp. reflexivity.
Qed.

(** The blank page against the page titled "Home". *)
Lemma overall_is_monotone_witness :
  overall_score (analyse_page "a" blank_page 5)
  <= overall_score (analyse_page "b" home_page 1.2).
Proof.
  apply (overall_is_monotone "a" "b" blank_page home_page 5 1.2);
    vm_compute; discriminate.
Defined.

(** *** The extracted features *)

Lemma filter_length_le {A : Type} (p : A -> bool) (l : list A) :
  (List.length (List.filter p l) <= List.length l)%nat.
Proof.
  induction l as [ | x l IH ]; cbn [List.filter List.length]; [ lia | ].
  destruct (p x); cbn [List.length]; lia.
Qed.

(** X7. The features of every analysis are consistent with the page: the
    images without alt text are counted among the images, at most five H2
    texts are kept, the H1 count is the number of H1 texts, the two lengths
    are those of the title and the description, the word count is not
    negative, and every anchor is either internal or external. *)
Theorem features_are_consistent (url : string) (page : Page)
    (loadTime : float) :
  let f := features (analyse_page url page loadTime) in
  0 <= images_without_alt f <= total_images f
  /\ total_images f = Z.of_nat (List.length (img_alts page))
  /\ (List.length (h2_tags f) <= 5)%nat
  /\ (List.length (h2_tags f) <= List.length (h2_texts page))%nat
  /\ h1_count f = Z.of_nat (List.length (h1_tags f))
  /\ List.length (h1_tags f) = List.length (h1_texts page)
  /\ title_length f = JS.length (f_title f)
  /\ meta_description_length f = JS.length (meta_description f)
  /\ 0 <= word_count f
  /\ internal_links f + external_links f
     = Z.of_nat (List.length (anchor_hrefs page)).
Proof.
  unfold analyse_page.
  destruct (count_links (anchor_hrefs page)) as [internalLinks externalLinks]
    eqn:Hlinks.
  cbn zeta.
  cbn [features images_without_alt total_images h2_tags h1_count h1_tags
       title_length f_title meta_description_length meta_description
       word_count internal_links external_links].
  repeat split.
  - lia.
  - pose proof (filter_length_le missing_alt (img_alts page)). lia.
  - rewrite length_take. lia.
  - rewrite length_take, length_map. lia.
  - apply length_map.
  - unfold count_words. lia.
  - unfold count_links in Hlinks.
    rewrite AnalyzeFacts.count_links_from in Hlinks.
    injection Hlinks as <- <-.
    pose proof (AnalyzeFacts.count_if_split http_prefixed (anchor_hrefs page)).
    lia.
Qed.

(** *** Storing and viewing an analysis *)

(** The handler, once the URL is known to be given. *)
Lemma post_analyze_given (explain : AnalysisRow -> string)
    (ml : string -> MlAnalyze) (get : string -> Fetch) (now : Z)
    (c : ascii) (u : string) (websiteId : option nat) (userId : nat)
    (db : Db) :
  post_analyze explain ml get now (Some (String c u)) websiteId userId db
  = match analysis_for ml get (normalize (String c u)) with
    | inl m =>
        (db, redirect (flash_error ("An error occurred during analysis: " ++ m))
               "/analyze")
    | inr (data, useML) =>
        let row := row_of websiteId userId (normalize (String c u)) data now in
        match insert_analysis db row with
        | (db1, Some stored) =>
            (match websiteId with
             | Some w => touch_website db1 w now
             | None => db1
             end,
             render_result
               {| v_analysis := stored; v_scores := scores data;
                  v_grade := JS.or_str (Some (grade data)) "N/A";
                  v_issues := issues data; v_useML := useML |})
        | (db1, None) =>
            (db1, redirect
                    (flash_error
                       ("An error occurred during analysis: " ++ explain row))
                    "/analyze")
        end
    end.
Proof. reflexivity. Qed.

(** X8. When [POST /analyze] renders a result, the row it shows is stored
    under the next id of the sequence, and viewing that id as the same user
    shows the same row, issues and five category scores; the social score
    is shown as 0 and the grade comes from the ladder of the view. Any other
    user is told "Analysis not found". *)
Theorem stored_analysis_round_trip (explain : AnalysisRow -> string)
    (ml : string -> MlAnalyze)
    (get : string -> Fetch) (now : Z) (url : option string)
    (websiteId : option nat) (userId : nat) (db db' : Db) (v : ResultView)
    (Hpost : post_analyze explain ml get now url websiteId userId db
             = (db', render_result v)) :
  let id := next_analysis_id db in
  seo_analyses db' !! id = Some (v_analysis v)
  /\ next_analysis_id db' = S id
  /\ r_user_id (v_analysis v) = userId
  /\ (exists v',
        get_analysis id userId db' = render_result v'
        /\ v_analysis v' = v_analysis v
        /\ v_issues v' = v_issues v
        /\ title (v_scores v') = title (v_scores v)
        /\ meta (v_scores v') = meta (v_scores v)
        /\ content (v_scores v') = content (v_scores v)
        /\ technical (v_scores v') = technical (v_scores v)
        /\ performance (v_scores v') = performance (v_scores v)
        /\ social (v_scores v') = 0
        /\ v_grade v' = view_grade (Schema.overall_score (v_analysis v)))
  /\ (forall other,
        other <> userId ->
        get_analysis id other db'
        = redirect (flash_error "Analysis not found") "/dashboard").
Proof.
  cbv zeta.
  destruct url as [ [ | c u ] | ]; try discriminate Hpost.
  rewrite post_analyze_given in Hpost.
  destruct (analysis_for ml get (normalize (String c u)))
    as [ m | [data useML] ]; [ discriminate Hpost | ].
  cbv zeta in Hpost.
  set (row := row_of websiteId userId (normalize (String c u)) data now) in *.
  destruct (SchemaFacts.insert_analysis_cases db row)
    as [ (stored & Hst & _ & Hins) | [_ [next Hins] ] ];
    rewrite Hins in Hpost; [ | discriminate Hpost ].
  apply SchemaFacts.stored_row_Some in Hst as (u' & _ & Hst).
  assert (Hrow : seo_analyses db' !! next_analysis_id db = Some (v_analysis v)
                 /\ next_analysis_id db' = S (next_analysis_id db)).
  { destruct websiteId as [ w | ]; injection Hpost as <- <-; cbn;
      rewrite lookup_insert_eq; split; reflexivity. }
  destruct Hrow as [Hrow Hnext].
  assert (Hv : v = {| v_analysis := stored;
                      v_scores := scores data;
                      v_grade := JS.or_str (Some (grade data)) "N/A";
                      v_issues := issues data;
                      v_useML := useML |}).
  { destruct websiteId; injection Hpost as _ <-; reflexivity. }
  split; [ exact Hrow | split; [ exact Hnext | ] ].
  assert (Hu : r_user_id (v_analysis v) = userId).
  { rewrite Hv, Hst. reflexivity. }
  split; [ exact Hu | ].
  unfold get_analysis. rewrite Hrow, Hu. split.
  - rewrite Nat.eqb_refl. eexists. split; [ reflexivity | ].
    cbn [v_analysis v_issues v_scores v_grade title meta content technical
         performance social].
    rewrite Hv, Hst. cbn. repeat split.
  - intros other Hne.
    destruct (Nat.eqb userId other) eqn:E; [ | reflexivity ].
    apply Nat.eqb_eq in E. congruence.
Qed.

(** The answer of the ML service, stored for user 7 and viewed by users 7
    and 8: the social score 50 of the answer is shown as 0. *)
Lemma stored_analysis_witness :
  let db' := fst (post_analyze row_error ml_up unreachable_site 5
                    (Some "example.com"%string) (Some 1%nat) 7 db0) in
  seo_analyses db' !! 1%nat = Some (v_analysis ml_view)
  /\ social (v_scores ml_view) = 50
  /\ (exists v',
        get_analysis 1 7 db' = render_result v'
        /\ v_analysis v' = v_analysis ml_view
        /\ social (v_scores v') = 0)
  /\ get_analysis 1 8 db'
     = redirect (flash_error "Analysis not found") "/dashboard".
Proof.
  cbv zeta.
  destruct (stored_analysis_round_trip row_error ml_up unreachable_site 5
              (Some "example.com"%string) (Some 1%nat) 7 db0
              (fst (post_analyze row_error ml_up unreachable_site 5
                      (Some "example.com"%string) (Some 1%nat) 7 db0))
              ml_view eq_refl)
    as (H1 & _ & _ & (v' & Hv' & Ha & _ & _ & _ & _ & _ & _ & Hs & _) & H3).
  split; [ exact H1 | split; [ reflexivity | split ] ].
  - exists v'. repeat split; assumption.
  - apply H3. discriminate.
Defined.

(** X9. [POST /analyze] writes only what belongs to the analysis: it never
    changes an edit or a connected account, it leaves every stored analysis
    but the one of the next id as it was, and of the websites it changes at
    most [last_analyzed] of the website named in the request, whoever owns
    that website. *)
Theorem analysis_writes_only_its_rows (explain : AnalysisRow -> string)
    (ml : string -> MlAnalyze)
    (get : string -> Fetch) (now : Z) (url : option string)
    (websiteId : option nat) (userId : nat) (db : Db) :
  let db' := fst (post_analyze explain ml get now url websiteId userId db) in
  seo_edits db' = seo_edits db
  /\ next_edit_id db' = next_edit_id db
  /\ connected_accounts db' = connected_accounts db
  /\ (forall id, id <> next_analysis_id db ->
        seo_analyses db' !! id = seo_analyses db !! id)
  /\ (forall id, Some id <> websiteId ->
        websites db' !! id = websites db !! id)
  /\ (forall id,
        (fun w => (w_user_id w, w_url w, connected_account_id w))
          <$> websites db' !! id
        = (fun w => (w_user_id w, w_url w, connected_account_id w))
            <$> websites db !! id).
Proof.
  cbv zeta.
  destruct url as [ [ | c u ] | ]; try (cbn; repeat split; reflexivity).
  rewrite post_analyze_given.
  destruct (analysis_for ml get (normalize (String c u)))
    as [ m | [data useML] ];
    [ cbn; repeat split; reflexivity | ].
  cbv zeta.
  set (row := row_of websiteId userId (normalize (String c u)) data now).
  destruct (SchemaFacts.insert_analysis_cases db row)
    as [ (stored & _ & _ & Hins) | [_ [next Hins] ] ];
    rewrite Hins; [ | cbn; repeat split; reflexivity ].
  destruct websiteId as [ w | ]; cbn; repeat split.
  - intros id Hid. apply lookup_insert_ne. congruence.
  - intros id Hid. apply lookup_alter_ne. congruence.
  - intros id. rewrite lookup_alter.
    destruct (decide (w = id)) as [ -> | ]; [ | reflexivity ].
    destruct (websites db !! id); reflexivity.
  - intros id Hid. apply lookup_insert_ne. congruence.
Qed.

(** X10. The fallback analyzer runs only when the ML service fails: when
    the service answers, the page is never consulted. If the row of the
    answer fits the table (a URL of at most 500 characters, scores and
    counts of 32 bits, no code unit 0 in a text) and the website named in
    the request is stored (or none is named), the row is stored and the
    result is marked as coming from the service, with the scores, the
    issues and the grade of the answer, an empty grade being shown as
    "N/A". If the URL has a character that is no space after its first
    500, or the website named in the request is not stored, no analysis is
    stored, no website is touched, and the user is sent back to the form
    with "An error occurred during analysis: " and the message of the
    database. The row has the URL, the user and the website
    of the request; its overall score is that of the answer or, when that
    is 0, [scores.overall]; its load time is that of the answer or, when
    that is 0 or no number, the one among the features. *)
Theorem ml_answer_is_used (explain : AnalysisRow -> string)
    (ml : string -> MlAnalyze)
    (get get' : string -> Fetch) (now : Z) (u : string)
    (websiteId : option nat) (userId : nat) (db : Db) (data : AnalysisData)
    (Hu : u <> EmptyString)
    (Hml : ml (normalize u) = ml_ok data) :
  let r := post_analyze explain ml get now (Some u) websiteId userId db in
  let row := row_of websiteId userId (normalize u) data now in
  let too_long :=
    exists i c,
      (500 <= i)%nat /\ String.get i (normalize u) = Some c
      /\ c <> " "%char in
  let in_range :=
    Forall (fun z => -2147483648 <= z <= 2147483647) (integers_of row) in
  let clean := Forall (fun s => JS.includes s nul = false) (texts_of row) in
  let missing := exists w, websiteId = Some w /\ websites db !! w = None in
  r = post_analyze explain ml get' now (Some u) websiteId userId db
  /\ ((String.length (normalize u) <= 500)%nat ->
      JS.includes (normalize u) nul = false ->
      in_range -> clean -> ~ missing ->
      snd r
      = render_result
          {| v_analysis := row;
             v_scores := scores data;
             v_grade := if JS.truthy (grade data) then grade data else "N/A";
             v_issues := issues data;
             v_useML := true |}
      /\ seo_analyses (fst r) !! next_analysis_id db = Some row)
  /\ (too_long \/ missing ->
      snd r
      = redirect
          (flash_error ("An error occurred during analysis: " ++ explain row))
          "/analyze"
      /\ seo_analyses (fst r) = seo_analyses db
      /\ websites (fst r) = websites db)
  /\ r_url row = normalize u
  /\ r_user_id row = userId
  /\ r_website_id row = websiteId
  /\ (overall_score data <> 0 ->
      Schema.overall_score row = overall_score data)
  /\ (overall_score data = 0 ->
      Schema.overall_score row
      = match scores_overall data with Some o => o | None => 0 end)
  /\ page_load_time row
     = (if JS.truthy_number (load_time data) then load_time data
        else if JS.truthy_number (f_load_time (features data))
             then f_load_time (features data)
             else 0%float).
Proof.
  cbv zeta.
  destruct u as [ | c u ]; [ congruence | ].
  rewrite !post_analyze_given. unfold analysis_for. rewrite Hml. cbv zeta.
  set (row := row_of websiteId userId (normalize (String c u)) data now).
  split; [ reflexivity | ].
  split; [ | split; [ | repeat split ] ];
    try (intros H; unfold row, row_of; cbn [Schema.overall_score];
         destruct (overall_score data =? 0) eqn:E;
         [ apply Z.eqb_eq in E | apply Z.eqb_neq in E ];
         first [ reflexivity | contradiction ]).
  - intros Hlen Hnul Hint Htext Hweb.
    assert (Hfit : stored_row row = Some row).
    { apply SchemaFacts.stored_row_fits.
      - apply SchemaFacts.varchar_ok_length. split; assumption.
      - apply SchemaFacts.values_ok_Forall. split; assumption. }
    assert (Hex : website_exists db websiteId = true).
    { destruct websiteId as [ w | ]; [ | reflexivity ]. cbn.
      destruct (websites db !! w) eqn:E; [ reflexivity | ].
      exfalso. apply Hweb. exists w. split; [ reflexivity | exact E ]. }
    unfold insert_analysis. rewrite Hfit.
    change (r_website_id row) with websiteId. rewrite Hex.
    cbn [fst snd]. split; [ reflexivity | ].
    destruct websiteId; cbn; apply lookup_insert_eq.
  - intros Hno.
    assert (Hrej : stored_row row = None \/ website_exists db websiteId = false).
    { destruct Hno as [ H | (w & -> & Hw) ].
      - left. apply SchemaFacts.stored_row_None. left.
        apply SchemaFacts.varchar_None. right. exact H.
      - right. cbn. rewrite Hw. reflexivity. }
    destruct (SchemaFacts.insert_analysis_cases db row)
      as [ (stored & Hst & Hweb & _) | [_ [next Hins] ] ].
    + change (r_website_id row) with websiteId in Hweb.
      destruct Hrej as [ Hrej | Hrej ]; congruence.
    + rewrite Hins. cbn. repeat split.
Qed.

(** The service answers for a site that cannot be fetched: the answer is
    stored for website 1, and refused for website 99, which is not
    stored. *)
Lemma ml_answer_is_used_witness :
  (let r := post_analyze row_error ml_up unreachable_site 5
              (Some "example.com"%string) (Some 1%nat) 7 db0 in
   r = post_analyze row_error ml_up slow_site 5 (Some "example.com"%string)
         (Some 1%nat) 7 db0
   /\ snd r = render_result ml_view
   /\ seo_analyses (fst r) !! 1%nat = Some (v_analysis ml_view))
  /\ (let r := post_analyze row_error ml_up unreachable_site 5
                 (Some "example.com"%string) (Some 99%nat) 7 db0 in
      text_of (snd r)
      = ("An error occurred during analysis: insert or update on table "
         ++ JS.quoted "seo_analyses" ++ " violates foreign key constraint "
         ++ JS.quoted "seo_analyses_website_id_fkey")%string
      /\ seo_analyses (fst r) = seo_analyses db0
      /\ websites (fst r) = websites db0).
Proof.
  split.
  - destruct (ml_answer_is_used row_error ml_up unreachable_site slow_site 5
                "example.com" (Some 1%nat) 7 db0 ml_answer
                ltac:(discriminate) eq_refl)
      as (H1 & H2 & _).
    destruct H2 as [Hv Hs].
    + vm_compute. lia.
    + reflexivity.
    + repeat constructor; vm_compute; discriminate.
    + repeat constructor.
    + intros (w & Hw & Hnone). injection Hw as <-. discriminate Hnone.
    + split; [ exact H1 | split; [ exact Hv | exact Hs ] ].
  - destruct (ml_answer_is_used row_error ml_up unreachable_site slow_site 5
                "example.com" (Some 99%nat) 7 db0 ml_answer
                ltac:(discriminate) eq_refl)
      as (_ & _ & H3 & _).
    destruct H3 as (Hr & Ha & Hw).
    + right. exists 99%nat. split; reflexivity.
    + split; [ rewrite Hr; reflexivity | split; [ exact Ha | exact Hw ] ].
Defined.

(** *** The URL that is analysed *)

(** X27. The URL normalisation of the analysis routes leaves a URL that
    starts with "http://" or "https://" as it is and puts "https://" before
    any other; its result always starts with one of the two, and
    normalising twice is normalising once. *)
Theorem normalize_adds_a_scheme (url : string) :
  (JS.startsWith (normalize url) "http://"
   || JS.startsWith (normalize url) "https://") = true
  /\ normalize (normalize url) = normalize url
  /\ (JS.startsWith url "http://" || JS.startsWith url "https://" = true ->
      normalize url = url)
  /\ (JS.startsWith url "http://" || JS.startsWith url "https://" = false ->
      normalize url = ("https://" ++ url)%string).
Proof.
  assert (Hpre : JS.startsWith ("https://" ++ url) "https://" = true)
    by apply SeoFacts.prefix_app.
  assert (Hnot : JS.startsWith ("https://" ++ url) "http://" = false)
    by reflexivity.
  unfold normalize.
  destruct (JS.startsWith url "http://") eqn:H1;
    destruct (JS.startsWith url "https://") eqn:H2; cbn [negb andb orb];
    rewrite ?H1, ?H2, ?Hpre, ?Hnot; cbn [negb andb orb];
    repeat split; try reflexivity; try discriminate.
Qed.

End AnalyzeMore.


(** ** Further properties of the quick-analyze API *)

Module ApiMore.

Import Schema Samples.

(** X11. The quick score and the fallback analyzer agree on what is good:
    the quick score is 50 plus 15 when the analyzer scores the title 100,
    plus 15 when it scores the description 100, plus 10 for exactly one H1,
    plus 10 when it scores the performance 100. It is 100 exactly when all
    four hold, so the cap at 100 never changes it. *)
Theorem quick_score_matches_analyzer (title metaDescription : string)
    (h1Count : Z) (loadTime : float) :
  let q := Api.quick_score title metaDescription h1Count loadTime in
  q = 50
      + (if Analyze.titleScore title =? 100 then 15 else 0)
      + (if Analyze.metaScore metaDescription =? 100 then 15 else 0)
      + (if h1Count =? 1 then 10 else 0)
      + (if Analyze.performanceScore loadTime =? 100 then 10 else 0)
  /\ (q = 100 <->
      Analyze.titleScore title = 100
      /\ Analyze.metaScore metaDescription = 100
      /\ h1Count = 1
      /\ Analyze.performanceScore loadTime = 100)
  /\ JS.Math_min q 100 = q.
Proof.
  cbv zeta.
  unfold Api.quick_score, Analyze.titleScore, Analyze.metaScore,
    Analyze.performanceScore, JS.Math_min.
  destruct (JS.truthy title);
    destruct (30 <=? JS.length title); destruct (JS.length title <=? 60);
    destruct (JS.truthy metaDescription);
    destruct (120 <=? JS.length metaDescription);
    destruct (JS.length metaDescription <=? 160);
    destruct (h1Count =? 1) eqn:Hh;
    destruct (loadTime <? 2)%float;
    destruct (loadTime <? 4)%float;
    cbn [andb]; cbn;
    (split; [ reflexivity | split; [ | reflexivity ] ]);
    (split; [ intros H; try discriminate H | intros (H1 & H2 & H3 & H4) ]);
    try discriminate; try reflexivity;
    repeat split; try reflexivity;
    try (apply Z.eqb_eq; exact Hh);
    try (apply Z.eqb_neq in Hh; contradiction).
Qed.

End ApiMore.

(** ** Further properties of the edit routes *)

Module SeoMore.

Import Schema Seo Samples Requests.

(** *** Who may do what *)

Lemma joined_edit_foreign (db : Db) (editId userId : nat) :
  (forall e, seo_edits db !! editId = Some e -> user_id e <> userId) ->
  joined_edit db editId userId = None.
Proof.
  intros H. unfold joined_edit.
  destruct (seo_edits db !! editId) as [ e | ]; [ | reflexivity ].
  destruct (Nat.eqb (user_id e) userId) eqn:E; [ | reflexivity ].
  apply Nat.eqb_eq in E. exfalso. exact (H e eq_refl E).
Qed.

(** X12. A user can write only to what they own. Saving an edit or applying
    a suggestion for a website that is missing or belongs to someone else,
    and applying or cancelling an edit that is missing or belongs to someone
    else, leave the database as it was, send no push, and answer with an
    error ("Website not found", "Edit not found", "Edit not found or already
    processed"). *)
Theorem foreign_requests_change_nothing (explain : Edit -> string)
    (push : PushRequest -> PushOutcome)
    (now : Z) (db : Db) (websiteId editId userId : nat)
    (field_type old_value new_value : string) (page_url : option string)
    (Hw : website_of db websiteId userId = None)
    (He : forall e, seo_edits db !! editId = Some e -> user_id e <> userId) :
  save_edit now websiteId userId field_type old_value new_value page_url db
  = {| db_after := db;
       response := redirect (flash_error "Website not found") "/websites";
       pushes := [] |}
  /\ apply_ai explain push now websiteId userId field_type new_value db
     = {| db_after := db; response := json false "Website not found";
          pushes := [] |}
  /\ apply_edit push now editId userId db
     = {| db_after := db;
          response := redirect (flash_error "Edit not found") "/websites";
          pushes := [] |}
  /\ cancel_edit editId userId db
     = {| db_after := db;
          response :=
            redirect (flash_error "Edit not found or already processed")
              "/websites";
          pushes := [] |}.
Proof.
  repeat split.
  - unfold save_edit. rewrite Hw. reflexivity.
  - unfold apply_ai. rewrite Hw. reflexivity.
  - unfold apply_edit. rewrite (joined_edit_foreign db editId userId He).
    reflexivity.
  - unfold cancel_edit, not_processed.
    destruct (seo_edits db !! editId) as [ e | ] eqn:E; [ | reflexivity ].
    destruct (status e); try reflexivity.
    destruct (Nat.eqb (user_id e) userId) eqn:Eu; [ | reflexivity ].
    apply Nat.eqb_eq in Eu. exfalso. exact (He e eq_refl Eu).
Qed.

(** User 8 against the website and the pending edit of user 7. *)
Lemma foreign_requests_witness :
  save_edit 20 1 8 "title" "Old" "Mine" None db2
  = {| db_after := db2;
       response := redirect (flash_error "Website not found") "/websites";
       pushes := [] |}
  /\ apply_ai edit_error push_succeeds 20 1 8 "title" "Mine" db2
     = {| db_after := db2; response := json false "Website not found";
          pushes := [] |}
  /\ apply_edit push_succeeds 20 1 8 db2
     = {| db_after := db2;
          response := redirect (flash_error "Edit not found") "/websites";
          pushes := [] |}
  /\ cancel_edit 1 8 db2
     = {| db_after := db2;
          response :=
            redirect (flash_error "Edit not found or already processed")
              "/websites";
          pushes := [] |}.
Proof.
  apply (foreign_requests_change_nothing Samples.edit_error push_succeeds 20
           db2 1 1 8 "title" "Old" "Mine" None eq_refl).
  intros e He. injection He as <-. discriminate.
Defined.

(** X13. No handler of the edit routes sends more than one push request,
    whatever the database and the answers of the push service; saving and
    cancelling send none. *)
Theorem at_most_one_push (explain : Edit -> string)
    (push : PushRequest -> PushOutcome) (now : Z)
    (db : Db) (a b : nat) (s t u : string) (p : option string) :
  pushes (save_edit now a b s t u p db) = []
  /\ pushes (cancel_edit a b db) = []
  /\ (List.length (pushes (apply_edit push now a b db)) <= 1)%nat
  /\ (List.length (pushes (apply_ai explain push now a b s t db)) <= 1)%nat.
Proof.
  repeat split.
  - unfold save_edit. destruct (website_of db a b); [ | reflexivity ].
    destruct (insert_edit db _) as [ [db1 id] | ]; reflexivity.
  - unfold cancel_edit, not_processed.
    destruct (seo_edits db !! a) as [ e | ]; [ | reflexivity ].
    destruct (status e); try reflexivity.
    destruct (Nat.eqb (user_id e) b); reflexivity.
  - unfold apply_edit.
    destruct (joined_edit db a b) as [ [ [e w] acct ] | ]; [ | cbn; lia ].
    destruct (no_account (connected_account_id w)); [ cbn; lia | ].
    match goal with |- context [push ?r] => destruct (push r) end; cbn; lia.
  - unfold apply_ai.
    destruct (website_of db a b) as [ w | ]; [ | cbn; lia ].
    destruct (insert_edit db _) as [ [db1 id] | ]; [ | cbn; lia ].
    destruct (account_of db w) as [ acct | ]; [ | cbn; lia ].
    destruct (JS.truthy (provider acct)); [ | cbn; lia ].
    match goal with |- context [push ?r] => destruct (push r) end; cbn; lia.
Qed.

(** *** Every request is made of a few writes *)











(** *** What the writes keep *)











(** *** Sequences of requests *)








(** *** A push that succeeds *)

(** The content of the push names the field, unless the field is called
    [__proto__]. *)
Lemma content_of_field (e : Edit) :
  content_of e
  = if String.eqb (field_type e) "__proto__" then []
    else [(field_type e, new_value e)].
Proof.
  unfold content_of.
  destruct (String.eqb (field_type e) "title") eqn:E1.
  { apply String.eqb_eq in E1. rewrite E1. reflexivity. }
  destruct (String.eqb (field_type e) "meta_description") eqn:E2.
  { apply String.eqb_eq in E2. rewrite E2. reflexivity. }
  reflexivity.
Qed.

Section PushAnswers.

(** Every push request is answered, with the same note. *)
Variable push : PushRequest -> PushOutcome.
Variable note : option string.
Hypothesis push_always_answers : forall request, push request = push_ok note.

Variable explain : Edit -> string.
Variable now : Z.
Variable db : Db.

(** X16. When the push succeeds, [POST /apply/:editId] on an edit whose
    website has a connected account marks the edit applied at the current
    time, names the provider and the note of the push service in the
    message, and has sent one request: the new value under the name of the
    field, with the token and URL of the account, for the page of the edit
    (the URL of the website when the edit has no page). For the field name
    [__proto__] the request is sent, and the edit applied, with an empty
    content. *)
Theorem verified_apply (editId userId aid : nat) (e : Edit) (w : Website)
    (a : Account)
    (He : seo_edits db !! editId = Some e)
    (Hu : user_id e = userId)
    (Hw : websites db !! website_id e = Some w)
    (Hc : connected_account_id w = Some (S aid))
    (Ha : connected_accounts db !! S aid = Some a) :
  let o := apply_edit push now editId userId db in
  seo_edits (db_after o) !! editId = Some (with_status e applied (Some now))
  /\ response o
     = redirect
         (flash_success
            ("SEO change applied to " ++ provider a ++ "! "
             ++ JS.or_str note JS.empty))
         (edit_page (website_id e))
  /\ pushes o
     = [ {| platform := Some (provider a);
            p_access_token := access_token a;
            site_url := account_url a;
            store_url := account_url a;
            repo := account_url a;
            p_content :=
              if String.eqb (field_type e) "__proto__" then []
              else [(field_type e, new_value e)];
            target_page_url :=
              if JS.truthy (page_url e) then page_url e else w_url w |} ].
Proof.
  cbv zeta. unfold apply_edit, joined_edit, account_of.
  rewrite He, Hu, Nat.eqb_refl, Hw, Hc, Ha. cbn [no_account].
  rewrite push_always_answers. cbn [db_after response pushes].
  rewrite content_of_field.
  split; [ | split; reflexivity ].
  cbn. rewrite lookup_alter_eq, He. reflexivity.
Qed.

(** X17. When the website of the user has a connected account, the table
    accepts the suggestion (a type of at most 50 characters, a website URL
    of at most 500, no code unit 0) and the push succeeds,
    [POST /apply-ai/:websiteId] stores one new edit, under the next id, with
    the suggestion as new value and an empty old value, applied at the
    current time, and the answer names the provider; the request carries the
    suggestion only for the types title and meta_description, and is sent
    with an empty content for any other type. *)
Theorem apply_ai_verified (websiteId userId : nat)
    (suggestion_type suggestion_content : string) (w : Website) (a : Account)
    (Hw : website_of db websiteId userId = Some w)
    (Ha : account_of db w = Some a)
    (Hp : JS.truthy (provider a) = true)
    (Hlen : (String.length (w_url w) <= 500)%nat
            /\ (String.length suggestion_type <= 50)%nat)
    (Hnul : JS.includes (w_url w) nul = false
            /\ JS.includes suggestion_type nul = false
            /\ JS.includes suggestion_content nul = false) :
  let o := apply_ai explain push now websiteId userId suggestion_type
             suggestion_content db in
  seo_edits (db_after o) !! next_edit_id db
  = Some {| website_id := websiteId; user_id := userId; page_url := w_url w;
            field_type := suggestion_type; old_value := JS.empty;
            new_value := suggestion_content; status := applied;
            applied_at := Some now; created_at := now |}
  /\ next_edit_id (db_after o) = S (next_edit_id db)
  /\ response o = json true ("AI suggestion applied to " ++ provider a ++ "!")
  /\ exists request,
       pushes o = [request]
       /\ platform request = Some (provider a)
       /\ p_access_token request = access_token a
       /\ target_page_url request = w_url w
       /\ (suggestion_type = "title"%string \/
           suggestion_type = "meta_description"%string ->
           p_content request = [(suggestion_type, suggestion_content)])
       /\ (suggestion_type <> "title"%string ->
           suggestion_type <> "meta_description"%string ->
           p_content request = []).
Proof.
  cbv zeta. unfold apply_ai. rewrite Hw, Ha.
  destruct Hlen as [Hl1 Hl2]. destruct Hnul as (Hn1 & Hn2 & Hn3).
  rewrite (SeoFacts.suggested_edit_stored db _ _ _ _ _ _
             (proj2 (SchemaFacts.varchar_ok_length _ _) (conj Hl1 Hn1))
             (proj2 (SchemaFacts.varchar_ok_length _ _) (conj Hl2 Hn2))
             (proj2 (SchemaFacts.text_ok_includes _) Hn3)).
  rewrite Hp, push_always_answers. cbn [db_after response pushes].
  split; [ cbn; rewrite lookup_alter_eq, lookup_insert_eq; reflexivity | ].
  split; [ reflexivity | split; [ reflexivity | ] ].
  eexists. split; [ reflexivity | ].
  cbn [platform p_access_token target_page_url p_content].
  repeat split.
  - intros [ -> | -> ]; reflexivity.
  - intros H1 H2.
    destruct (String.eqb suggestion_type "title") eqn:E1;
      [ apply String.eqb_eq in E1; contradiction | ].
    destruct (String.eqb suggestion_type "meta_description") eqn:E2;
      [ apply String.eqb_eq in E2; contradiction | reflexivity ].
Qed.

End PushAnswers.

(** Edit 1 of [db2], whose website is connected to WordPress. *)
Lemma verified_apply_witness :
  let o := apply_edit push_succeeds 12 1 7 db2 in
  seo_edits (db_after o) !! 1%nat = Some (with_status edit1 applied (Some 12))
  /\ response o
     = redirect
         (flash_success "SEO change applied to wordpress! Updated post 12")
         "/seo/edit/1"
  /\ pushes o
     = [ {| platform := Some "wordpress"%string;
            p_access_token := Some "demo-token"%string;
            site_url := Some "https://blog.example.com"%string;
            store_url := Some "https://blog.example.com"%string;
            repo := Some "https://blog.example.com"%string;
            p_content := [("title"%string, "New"%string)];
            target_page_url := "https://blog.example.com" |} ].
Proof.
  exact (verified_apply push_succeeds (Some "Updated post 12"%string)
           (fun _ => eq_refl) 12 db2 1 7 0 edit1 blog wordpress
           eq_refl eq_refl eq_refl eq_refl eq_refl).
Defined.

(** A suggestion for an H1 on website 1: applied, with an empty push. *)
Lemma apply_ai_verified_witness :
  let o := apply_ai Samples.edit_error push_succeeds 12 1 7 "h1"
             "Oak furniture" db2 in
  status_of (db_after o) 3 = Some applied
  /\ response o = json true "AI suggestion applied to wordpress!"
  /\ exists request, pushes o = [request] /\ p_content request = [].
Proof.
  cbv zeta.
  assert (Hlen : (String.length (w_url blog) <= 500)%nat
                 /\ (String.length "h1" <= 50)%nat)
    by (split; vm_compute; lia).
  destruct (apply_ai_verified push_succeeds (Some "Updated post 12"%string)
              (fun _ => eq_refl) Samples.edit_error 12 db2 1 7 "h1"
              "Oak furniture" blog wordpress
              eq_refl eq_refl eq_refl Hlen
              (conj eq_refl (conj eq_refl eq_refl)))
    as (H1 & _ & H3 & request & Hr & _ & _ & _ & _ & Hempty).
  split; [ exact (f_equal (fun x => status <$> x) H1) | ].
  split; [ exact H3 | ].
  exists request. split; [ exact Hr | ].
  apply Hempty; discriminate.
Defined.

(** X18. When the website of the user has no connected account, or one
    whose provider is empty, and the table accepts the suggestion,
    [POST /apply-ai/:websiteId] sends no push: it stores the suggestion as a
    pending edit under the next id and answers with the success "AI
    suggestion saved. Connect a platform to push to your site.". *)
Theorem apply_ai_without_platform (explain : Edit -> string)
    (push : PushRequest -> PushOutcome)
    (now : Z) (db : Db) (websiteId userId : nat)
    (suggestion_type suggestion_content : string) (w : Website)
    (Hw : website_of db websiteId userId = Some w)
    (Hnone : forall a, account_of db w = Some a -> provider a = EmptyString)
    (Hlen : (String.length (w_url w) <= 500)%nat
            /\ (String.length suggestion_type <= 50)%nat)
    (Hnul : JS.includes (w_url w) nul = false
            /\ JS.includes suggestion_type nul = false
            /\ JS.includes suggestion_content nul = false) :
  let o := apply_ai explain push now websiteId userId suggestion_type
             suggestion_content db in
  seo_edits (db_after o) !! next_edit_id db
  = Some {| website_id := websiteId; user_id := userId; page_url := w_url w;
            field_type := suggestion_type; old_value := JS.empty;
            new_value := suggestion_content; status := pending;
            applied_at := None; created_at := now |}
  /\ next_edit_id (db_after o) = S (next_edit_id db)
  /\ pushes o = []
  /\ response o
     = json true "AI suggestion saved. Connect a platform to push to your site.".
Proof.
  cbv zeta. unfold apply_ai. rewrite Hw.
  destruct Hlen as [Hl1 Hl2]. destruct Hnul as (Hn1 & Hn2 & Hn3).
  rewrite (SeoFacts.suggested_edit_stored db _ _ _ _ _ _
             (proj2 (SchemaFacts.varchar_ok_length _ _) (conj Hl1 Hn1))
             (proj2 (SchemaFacts.varchar_ok_length _ _) (conj Hl2 Hn2))
             (proj2 (SchemaFacts.text_ok_includes _) Hn3)).
  destruct (account_of db w) as [ a | ].
  - rewrite (Hnone a eq_refl). cbn. rewrite lookup_insert_eq. repeat split.
  - cbn. rewrite lookup_insert_eq. repeat split.
Qed.

(** Website 2 of [db2] has no connected account. *)
Lemma apply_ai_without_platform_witness :
  let o := apply_ai Samples.edit_error push_succeeds 12 2 7 "title"
             "Oak furniture" db2 in
  seo_edits (db_after o) !! 3%nat
  = Some {| website_id := 2; user_id := 7;
            page_url := "https://shop.example.com";
            field_type := "title"; old_value := JS.empty;
            new_value := "Oak furniture"; status := pending;
            applied_at := None; created_at := 12 |}
  /\ next_edit_id (db_after o) = 4%nat
  /\ pushes o = []
  /\ response o
     = json true "AI suggestion saved. Connect a platform to push to your site.".
Proof.
  apply (apply_ai_without_platform Samples.edit_error push_succeeds 12 db2 2 7
           "title" "Oak furniture" shop eq_refl);
    [ intros a H; discriminate H
    | split; vm_compute; lia
    | repeat split ].
Defined.

(** *** What the edit routes never write *)

(** X19. The four edit routes write to [seo_edits] only: saving, applying,
    applying a suggestion and cancelling leave the websites, the connected
    accounts, the stored analyses and the sequence of analysis ids as they
    were. *)
Theorem edit_routes_write_only_edits (explain : Edit -> string)
    (push : PushRequest -> PushOutcome)
    (now : Z) (db : Db) (a b : nat) (s t u : string) (p : option string) :
  let unchanged (db' : Db) :=
    websites db' = websites db
    /\ connected_accounts db' = connected_accounts db
    /\ seo_analyses db' = seo_analyses db
    /\ next_analysis_id db' = next_analysis_id db in
  unchanged (db_after (save_edit now a b s t u p db))
  /\ unchanged (db_after (apply_edit push now a b db))
  /\ unchanged (db_after (apply_ai explain push now a b s t db))
  /\ unchanged (db_after (cancel_edit a b db)).
Proof.
  cbv zeta. split; [ | split; [ | split ] ].
  - unfold save_edit, insert_edit.
    destruct (website_of db a b); [ | cbn; repeat split ].
    match goal with
    | |- context [stored_edit ?e] => destruct (stored_edit e)
    end; cbn; repeat split.
  - unfold apply_edit.
    destruct (joined_edit db a b) as [ [ [e w] acct ] | ];
      [ | cbn; repeat split ].
    destruct (no_account (connected_account_id w)); [ cbn; repeat split | ].
    match goal with |- context [push ?r] => destruct (push r) end;
      cbn; repeat split.
  - unfold apply_ai, insert_edit.
    destruct (website_of db a b) as [ w | ]; [ | cbn; repeat split ].
    match goal with
    | |- context [stored_edit ?e] => destruct (stored_edit e)
    end; [ | cbn; repeat split ].
    destruct (account_of db w) as [ acct | ]; [ | cbn; repeat split ].
    destruct (JS.truthy (provider acct)); [ | cbn; repeat split ].
    match goal with |- context [push ?r] => destruct (push r) end;
      cbn; repeat split.
  - unfold cancel_edit, not_processed.
    destruct (seo_edits db !! a) as [ e | ]; [ | cbn; repeat split ].
    destruct (status e); [ destruct (Nat.eqb (user_id e) b) | | ];
      cbn; repeat split.
Qed.

(** *** Saving an edit *)

(** X28. Saving an edit for a website of the user, when the page has at
    most 500 characters, the field type at most 50, and no value holds the
    code unit 0: the edit is stored under the next id as pending, without a
    time of application, for the page given in the request or, when none is
    given, the URL of the website; every other edit stays as it was, no
    push is sent, and the user is told that the change is saved. *)
Theorem save_edit_creates_pending (now : Z) (websiteId userId : nat)
    (field_type old_value new_value : string) (page_url : option string)
    (db : Db) (w : Website) (page : string)
    (Hw : website_of db websiteId userId = Some w)
    (Hdef : page = match page_url with
                   | Some (String c s) => String c s
                   | _ => w_url w
                   end)
    (Hlen : (String.length page <= 500)%nat
            /\ (String.length field_type <= 50)%nat)
    (Hnul : JS.includes page nul = false
            /\ JS.includes field_type nul = false
            /\ JS.includes old_value nul = false
            /\ JS.includes new_value nul = false) :
  let o := save_edit now websiteId userId field_type old_value new_value
             page_url db in
  seo_edits (db_after o) !! next_edit_id db
  = Some {| website_id := websiteId; user_id := userId;
            Schema.page_url := page;
            Schema.field_type := field_type;
            Schema.old_value := old_value;
            Schema.new_value := new_value; status := pending;
            applied_at := None; created_at := now |}
  /\ next_edit_id (db_after o) = S (next_edit_id db)
  /\ (forall id, id <> next_edit_id db ->
        seo_edits (db_after o) !! id = seo_edits db !! id)
  /\ pushes o = []
  /\ response o
     = redirect
         (flash_success
            ("SEO change saved! Click " ++ JS.quoted "Apply"
             ++ " to push to your site."))
         (edit_page websiteId).
Proof.
  cbv zeta. unfold save_edit. rewrite Hw.
  assert (Hor : JS.or_str page_url (w_url w) = page)
    by (rewrite Hdef; destruct page_url as [ [ | c s ] | ]; reflexivity).
  rewrite Hor.
  destruct Hlen as [Hl1 Hl2]. destruct Hnul as (Hn1 & Hn2 & Hn3 & Hn4).
  rewrite SchemaFacts.insert_edit_fits.
  - cbn [db_after pushes response].
    split; [ cbn; apply lookup_insert_eq | ].
    split; [ reflexivity | split; [ | split; reflexivity ] ].
    intros id Hid. cbn. apply lookup_insert_ne. congruence.
  - apply SchemaFacts.stored_edit_fits;
      cbn [Schema.page_url Schema.field_type Schema.old_value
           Schema.new_value].
    + apply SchemaFacts.varchar_ok_length. split; assumption.
    + apply SchemaFacts.varchar_ok_length. split; assumption.
    + apply SchemaFacts.text_ok_includes. assumption.
    + apply SchemaFacts.text_ok_includes. assumption.
Qed.

(** User 7 saves a description for website 2 of [db2], without a page. *)
Lemma save_edit_witness :
  let o := save_edit 30 2 7 "meta_description" EmptyString "Oak furniture"
             None db2 in
  seo_edits (db_after o) !! 3%nat
  = Some {| website_id := 2; user_id := 7;
            page_url := "https://shop.example.com";
            Schema.field_type := "meta_description";
            Schema.old_value := EmptyString;
            Schema.new_value := "Oak furniture"; status := pending;
            applied_at := None; created_at := 30 |}
  /\ next_edit_id (db_after o) = 4%nat
  /\ (forall id, id <> 3%nat ->
        seo_edits (db_after o) !! id = seo_edits db2 !! id)
  /\ pushes o = []
  /\ response o
     = redirect
         (flash_success
            ("SEO change saved! Click " ++ JS.quoted "Apply"
             ++ " to push to your site."))
         "/seo/edit/2".
Proof.
  apply (save_edit_creates_pending 30 2 7 "meta_description" EmptyString
           "Oak furniture" None db2 shop "https://shop.example.com"
           eq_refl eq_refl);
    [ split; vm_compute; lia | repeat split ].
Defined.

(** *** Rows the table rejects *)

(** X29. An edit that is too long is not stored. For a website of the
    user, when the page has a character that is no space after its first
    500, or the field type one after its first 50, saving the edit stores
    nothing, sends no push, and tells the user "Error saving SEO change";
    when the URL of the website or the type of a suggestion is too long in
    that way, applying the suggestion stores nothing, sends no push, and
    answers with a failure that carries the message of the database. *)
Theorem rejected_edits_store_nothing (explain : Edit -> string)
    (push : PushRequest -> PushOutcome) (now : Z) (db : Db)
    (websiteId userId : nat) (field_type old_value new_value : string)
    (page_url : option string) (w : Website) (page : string)
    (Hw : website_of db websiteId userId = Some w)
    (Hdef : page = match page_url with
                   | Some (String c s) => String c s
                   | _ => w_url w
                   end) :
  let too_long (n : nat) (s : string) :=
    exists i c, (n <= i)%nat /\ String.get i s = Some c /\ c <> " "%char in
  (too_long 500%nat page \/ too_long 50%nat field_type ->
   save_edit now websiteId userId field_type old_value new_value page_url db
   = {| db_after := db;
        response :=
          redirect (flash_error "Error saving SEO change")
            (edit_page websiteId);
        pushes := [] |})
  /\ (too_long 500%nat (w_url w) \/ too_long 50%nat field_type ->
      apply_ai explain push now websiteId userId field_type new_value db
      = {| db_after := db;
           response :=
             json false
               (explain {| website_id := websiteId; user_id := userId;
                           Schema.page_url := w_url w;
                           Schema.field_type := field_type;
                           Schema.old_value := EmptyString;
                           Schema.new_value := new_value; status := pending;
                           applied_at := None; created_at := now |});
           pushes := [] |}).
Proof.
  cbv zeta. split.
  - intros Hlong. unfold save_edit. rewrite Hw.
    assert (Hor : JS.or_str page_url (w_url w) = page)
      by (rewrite Hdef; destruct page_url as [ [ | c s ] | ]; reflexivity).
    rewrite Hor.
    rewrite SchemaFacts.insert_edit_rejected; [ reflexivity | ].
    apply SchemaFacts.stored_edit_None.
    cbn [Schema.page_url Schema.field_type].
    destruct Hlong as [ H | H ];
      [ left | right; left ]; apply SchemaFacts.varchar_None; right; exact H.
  - intros Hlong. unfold apply_ai. rewrite Hw.
    rewrite SchemaFacts.insert_edit_rejected; [ reflexivity | ].
    apply SchemaFacts.stored_edit_None.
    cbn [suggested_edit Schema.page_url Schema.field_type].
    destruct Hlong as [ H | H ];
      [ left | right; left ]; apply SchemaFacts.varchar_None; right; exact H.
Qed.

(** User 7 on website 1 of [db2], with a field type of 55 characters. *)
Lemma rejected_edits_witness :
  save_edit 30 1 7 (Scenarios.words 11) "Old" "New" None db2
  = {| db_after := db2;
       response :=
         redirect (flash_error "Error saving SEO change") "/seo/edit/1";
       pushes := [] |}
  /\ apply_ai Samples.edit_error push_succeeds 30 1 7 (Scenarios.words 11)
       "New" db2
     = {| db_after := db2;
          response :=
            json false "value too long for type character varying(50)";
          pushes := [] |}.
Proof.
  destruct (rejected_edits_store_nothing Samples.edit_error push_succeeds 30
              db2 1 7 (Scenarios.words 11) "Old" "New" None blog
              "https://blog.example.com" eq_refl eq_refl)
    as (Hsave & Hai).
  split.
  - apply Hsave. right.
    exists 50%nat, "w"%char. repeat split; [ lia | discriminate ].
  - apply Hai. right.
    exists 50%nat, "w"%char. repeat split; [ lia | discriminate ].
Defined.

(** X30. Where the edits table draws the line. A [VARCHAR(n)] column keeps
    the first [n] characters of a value whose other characters are all
    spaces, and no text column takes the code unit 0. So, for a website of
    the user: saving an edit ends in "Error saving SEO change", with
    nothing stored, exactly when the page or the field type holds the code
    unit 0 or a character that is no space after the first 500 and 50, or
    the old or new value holds the code unit 0; in every other case the
    edit is stored under the next id with its page and field type cut to
    500 and 50 characters, and the user is told that the change is saved.
    Applying a suggestion ends in the failure that carries the message of
    the database, with nothing stored and no push, exactly when the URL of
    the website, the type or the content is refused in that way. *)
Theorem edits_table_boundary (explain : Edit -> string)
    (push : PushRequest -> PushOutcome) (now : Z) (db : Db)
    (websiteId userId : nat) (field_type old_value new_value : string)
    (page_url : option string) (w : Website) (page : string)
    (Hw : website_of db websiteId userId = Some w)
    (Hdef : page = match page_url with
                   | Some (String c s) => String c s
                   | _ => w_url w
                   end) :
  let refused (n : nat) (s : string) :=
    JS.includes s nul = true
    \/ exists i c,
         (n <= i)%nat /\ String.get i s = Some c /\ c <> " "%char in
  let failed :=
    {| db_after := db;
       response :=
         redirect (flash_error "Error saving SEO change")
           (edit_page websiteId);
       pushes := [] |} in
  let saved := save_edit now websiteId userId field_type old_value new_value
                 page_url db in
  (saved = failed
   <-> refused 500%nat page \/ refused 50%nat field_type
       \/ JS.includes old_value nul = true
       \/ JS.includes new_value nul = true)
  /\ (saved <> failed ->
      seo_edits (db_after saved) !! next_edit_id db
      = Some {| website_id := websiteId; user_id := userId;
                Schema.page_url := substring 0 500 page;
                Schema.field_type := substring 0 50 field_type;
                Schema.old_value := old_value;
                Schema.new_value := new_value; status := pending;
                applied_at := None; created_at := now |}
      /\ response saved
         = redirect
             (flash_success
                ("SEO change saved! Click " ++ JS.quoted "Apply"
                 ++ " to push to your site."))
             (edit_page websiteId))
  /\ (apply_ai explain push now websiteId userId field_type new_value db
      = {| db_after := db;
           response :=
             json false
               (explain {| website_id := websiteId; user_id := userId;
                           Schema.page_url := w_url w;
                           Schema.field_type := field_type;
                           Schema.old_value := EmptyString;
                           Schema.new_value := new_value; status := pending;
                           applied_at := None; created_at := now |});
           pushes := [] |}
      <-> refused 500%nat (w_url w) \/ refused 50%nat field_type
          \/ JS.includes new_value nul = true).
Proof.
  cbv zeta.
  assert (Hor : JS.or_str page_url (w_url w) = page)
    by (rewrite Hdef; destruct page_url as [ [ | c s ] | ]; reflexivity).
  split; [ | split ].
  - unfold save_edit. rewrite Hw, Hor.
    rewrite <- !SchemaFacts.varchar_None.
    match goal with
    | |- context [insert_edit db ?e] =>
        pose proof (SchemaFacts.stored_edit_None e) as Hnone;
        cbn [Schema.page_url Schema.field_type Schema.old_value
             Schema.new_value] in Hnone;
        rewrite <- Hnone; unfold insert_edit;
        destruct (stored_edit e) as [ e' | ]
    end.
    + split; [ intros H; discriminate H | intros H; discriminate H ].
    + split; reflexivity.
  - unfold save_edit. rewrite Hw, Hor. unfold insert_edit, stored_edit.
    cbn [Schema.page_url Schema.field_type Schema.old_value Schema.new_value
         website_id user_id status applied_at created_at].
    destruct (varchar 500 page) as [ p' | ] eqn:Ep;
      [ | intros H; contradiction H; reflexivity ].
    destruct (varchar 50 field_type) as [ f' | ] eqn:Ef;
      [ | intros H; contradiction H; reflexivity ].
    destruct (text_ok old_value && text_ok new_value);
      [ | intros H; contradiction H; reflexivity ].
    intros _. cbn [db_after response].
    apply SchemaFacts.varchar_Some in Ep as [-> _].
    apply SchemaFacts.varchar_Some in Ef as [-> _].
    split; [ cbn; apply lookup_insert_eq | reflexivity ].
  - unfold apply_ai. rewrite Hw.
    rewrite <- !SchemaFacts.varchar_None.
    pose proof (SchemaFacts.stored_edit_None
                  (suggested_edit now websiteId userId field_type new_value w))
      as Hnone.
    cbn [suggested_edit Schema.page_url Schema.field_type Schema.old_value
         Schema.new_value] in Hnone.
    assert (Hiff : stored_edit
                     (suggested_edit now websiteId userId field_type
                        new_value w) = None
                   <-> varchar 500 (w_url w) = None
                       \/ varchar 50 field_type = None
                       \/ JS.includes new_value nul = true).
    { rewrite Hnone. change (JS.includes JS.empty nul) with false.
      intuition discriminate. }
    rewrite <- Hiff. unfold insert_edit.
    destruct (stored_edit
                (suggested_edit now websiteId userId field_type new_value w))
      as [ e' | ]; [ | split; reflexivity ].
    split; [ | intros H; discriminate H ].
    intros H. exfalso.
    destruct (account_of db w) as [ a | ];
      [ destruct (JS.truthy (provider a));
        [ match type of H with
          | context [push ?r] => destruct (push r)
          end | ] | ];
      apply (f_equal (fun o => next_edit_id (db_after o))) in H;
      cbn in H; lia.
Qed.

(** User 7 on website 2 of [db2]: a field type followed by 48 spaces is
    stored cut to 50 characters, and a new value with the code unit 0 is not
    stored. *)
Lemma edits_table_witness :
  (let o := save_edit 30 2 7 Scenarios.padded_title "Old" "New" None db2 in
   String.length Scenarios.padded_title = 53%nat
   /\ Schema.field_type <$> seo_edits (db_after o) !! 3%nat
      = Some (substring 0 50 Scenarios.padded_title)
   /\ String.length (substring 0 50 Scenarios.padded_title) = 50%nat)
  /\ save_edit 30 2 7 "title" "Old" nul None db2
     = {| db_after := db2;
          response :=
            redirect (flash_error "Error saving SEO change") "/seo/edit/2";
          pushes := [] |}.
Proof.
  split.
  - destruct (edits_table_boundary Samples.edit_error push_succeeds 30 db2 2 7
                Scenarios.padded_title "Old" "New" None shop
                "https://shop.example.com" eq_refl eq_refl)
      as (_ & Hstored & _).
    destruct Hstored as [H1 _]; [ intros H; discriminate H | ].
    split; [ reflexivity | split; [ | reflexivity ] ].
    exact (f_equal (fun x => Schema.field_type <$> x) H1).
  - destruct (edits_table_boundary Samples.edit_error push_succeeds 30 db2 2 7
                "title" "Old" nul None shop
                "https://shop.example.com" eq_refl eq_refl)
      as (Hfail & _).
    apply Hfail. right. right. right. reflexivity.
Defined.

End SeoMore.


(** ** Properties of the website routes *)

Module WebsitesFacts.

Import Schema Samples Requests.

(** X20. Deleting a website of the user removes the website and, with it,
    every edit and every analysis that refers to it; every other website,
    edit and analysis, and every connected account, stays as it was. *)
Theorem delete_website_cascades (id userId : nat) (db : Db) (w : Website)
    (Hw : website_of db id userId = Some w) :
  let db' := fst (Websites.delete_website id userId db) in
  websites db' !! id = None
  /\ (forall i, i <> id -> websites db' !! i = websites db !! i)
  /\ (forall i e,
        seo_edits db' !! i = Some e
        <-> seo_edits db !! i = Some e /\ website_id e <> id)
  /\ (forall i r,
        seo_analyses db' !! i = Some r
        <-> seo_analyses db !! i = Some r /\ r_website_id r <> Some id)
  /\ connected_accounts db' = connected_accounts db
  /\ snd (Websites.delete_website id userId db)
     = Websites.redirect (flash_success "Website deleted successfully")
         "/websites".
Proof.
  cbv zeta. unfold Websites.delete_website, Websites.delete_row.
  rewrite Hw. cbn [fst snd websites seo_edits seo_analyses connected_accounts].
  split; [ apply lookup_delete_eq | ].
  split; [ intros i Hi; apply lookup_delete_ne; congruence | ].
  split; [ intros i e; apply map_lookup_filter_Some | ].
  split; [ intros i r; apply map_lookup_filter_Some | ].
  split; reflexivity.
Qed.

(** User 7 deletes website 2 of [db2]: edit 2 goes, edit 1 stays. *)
Lemma delete_website_witness :
  let db' := fst (Websites.delete_website 2 7 db2) in
  websites db' !! 2%nat = None
  /\ seo_edits db' !! 2%nat = None
  /\ seo_edits db' !! 1%nat = Some edit1
  /\ websites db' !! 1%nat = Some blog.
Proof.
  cbv zeta.
  destruct (delete_website_cascades 2 7 db2 shop eq_refl)
    as (H1 & H2 & H3 & _).
  split; [ exact H1 | ].
  split; [ vm_compute; reflexivity | ].
  split; [ apply H3; split; [ reflexivity | discriminate ] | ].
  rewrite H2 by discriminate. reflexivity.
Defined.

(** X21. Deleting a website that is missing or belongs to someone else
    changes nothing, and is still answered with "Website deleted
    successfully". *)
Theorem foreign_delete_is_silent (id userId : nat) (db : Db)
    (Hw : website_of db id userId = None) :
  Websites.delete_website id userId db
  = (db,
     Websites.redirect (flash_success "Website deleted successfully")
       "/websites").
Proof.
  unfold Websites.delete_website, Websites.delete_row. rewrite Hw.
  reflexivity.
Qed.

(** User 8 against website 1 of user 7. *)
Lemma foreign_delete_witness :
  Websites.delete_website 1 8 db2
  = (db2,
     Websites.redirect (flash_success "Website deleted successfully")
       "/websites").
Proof. exact (foreign_delete_is_silent 1 8 db2 eq_refl). Defined.

End WebsitesFacts.

(** ** Properties of login and registration *)

Module AuthFacts.

Import Schema Auth.

Lemma find_by_email_Some (users : Users) (e : string) (id : nat) (u : User) :
  find_by_email users e = Some (id, u) ->
  rows users !! id = Some u /\ email u = e.
Proof.
  unfold find_by_email. intros H. apply find_some in H as [Hin He].
  apply list_elem_of_In, elem_of_map_to_list in Hin.
  apply String.eqb_eq in He. split; assumption.
Qed.

Lemma find_by_email_None (users : Users) (e : string) (id : nat) (u : User) :
  find_by_email users e = None -> rows users !! id = Some u -> email u <> e.
Proof.
  unfold find_by_email. intros H Hu.
  assert (Hin : In (id, u) (map_to_list (rows users)))
    by (apply list_elem_of_In, elem_of_map_to_list; exact Hu).
  pose proof (find_none _ _ H (id, u) Hin) as Hf. cbn in Hf.
  apply String.eqb_neq in Hf. exact Hf.
Qed.


Lemma missing_false (x : option string) :
  missing x = false -> exists s, x = Some s /\ s <> EmptyString.
Proof.
  destruct x as [ [ | c s ] | ]; try discriminate.
  intros _. eexists. split; [ reflexivity | discriminate ].
Qed.

(** X22. Registration creates no account unless the password has at least
    six code units and is repeated exactly: otherwise the user table and
    the session stay as they were, and the visitor is sent back to the
    form. *)
Theorem weak_registrations_are_refused (b : Bcrypt) (salt : string)
    (session : option SessionUser) (n e confirm : option string)
    (p : string) (users : Users)
    (Hbad : JS.length p < 6 \/ confirm <> Some p) :
  exists m,
    register b salt session n e (Some p) confirm users
    = (users, session, m)
    /\ m <> redirect
              (Some (flash_success
                       "Account created successfully! Welcome to SEO Bot."))
              "/dashboard".
Proof.
  unfold register.
  destruct session as [ su | ]; cbn [isGuest];
    [ eexists; split; [ reflexivity | discriminate ] | ].
  destruct n as [ n | ]; [ | eexists; split; [ reflexivity | discriminate ] ].
  destruct e as [ e | ]; [ | eexists; split; [ reflexivity | discriminate ] ].
  destruct (missing (Some n) || missing (Some e) || missing (Some p));
    [ eexists; split; [ reflexivity | discriminate ] | ].
  destruct confirm as [ c | ]; cbn [negb];
    [ | eexists; split; [ reflexivity | discriminate ] ].
  destruct (String.eqb p c) eqn:Ec; cbn [negb];
    [ | eexists; split; [ reflexivity | discriminate ] ].
  apply String.eqb_eq in Ec. subst c.
  destruct Hbad as [ Hshort | Hne ]; [ | congruence ].
  apply Z.ltb_lt in Hshort. rewrite Hshort.
  eexists. split; [ reflexivity | discriminate ].
Qed.

(** A password of five code units, and a repetition with a typing error. *)
Lemma weak_registrations_witness :
  (exists m,
     register toy_bcrypt "salt2" None (Some "Bob"%string)
       (Some "bob@example.com"%string) (Some "12345"%string)
       (Some "12345"%string) with_ada
     = (with_ada, None, m)
     /\ m <> redirect
               (Some (flash_success
                        "Account created successfully! Welcome to SEO Bot."))
               "/dashboard")
  /\ (exists m,
        register toy_bcrypt "salt2" None (Some "Bob"%string)
          (Some "bob@example.com"%string) (Some "123456"%string)
          (Some "123457"%string) with_ada
        = (with_ada, None, m)
        /\ m <> redirect
                  (Some (flash_success
                           "Account created successfully! Welcome to SEO Bot."))
                  "/dashboard").
Proof.
  split.
  - apply (weak_registrations_are_refused toy_bcrypt "salt2" None
             (Some "Bob"%string) (Some "bob@example.com"%string)
             (Some "12345"%string) "12345" with_ada).
    left. vm_compute. reflexivity.
  - apply (weak_registrations_are_refused toy_bcrypt "salt2" None
             (Some "Bob"%string) (Some "bob@example.com"%string)
             (Some "123457"%string) "123456" with_ada).
    right. discriminate.
Defined.


(** X23. Registration keeps the user table sound: whatever is submitted, no
    two users share an email afterwards, no id is reused, and every user
    that was stored stays stored unchanged. *)
Theorem registration_keeps_emails_unique (b : Bcrypt) (salt : string)
    (session : option SessionUser) (n e p c : option string) (users : Users)
    (Hu : unique_emails users) (Hf : fresh_users users) :
  let users' := fst (fst (register b salt session n e p c users)) in
  unique_emails users'
  /\ fresh_users users'
  /\ (forall id u, rows users !! id = Some u -> rows users' !! id = Some u).
Proof.
  cbv zeta.
  destruct (register b salt session n e p c users) as [ [users' s'] r ] eqn:E.
  cbn [fst].
  assert (Hcases :
            users' = users
            \/ exists e' u,
                 find_by_email users e' = None /\ email u = e'
                 /\ users' = {| rows := <[next_user_id users := u]> (rows users);
                                next_user_id := S (next_user_id users) |}).
  { unfold register in E.
    destruct (isGuest session); [ injection E as <- _ _; left; reflexivity | ].
    destruct n as [ n' | ]; [ | injection E as <- _ _; left; reflexivity ].
    destruct e as [ e' | ]; [ | injection E as <- _ _; left; reflexivity ].
    destruct p as [ p' | ]; [ | injection E as <- _ _; left; reflexivity ].
    destruct (missing (Some n') || missing (Some e') || missing (Some p'));
      [ injection E as <- _ _; left; reflexivity | ].
    destruct (negb match c with
                   | Some c0 => String.eqb p' c0
                   | None => false
                   end); [ injection E as <- _ _; left; reflexivity | ].
    destruct (JS.length p' <? 6);
      [ injection E as <- _ _; left; reflexivity | ].
    destruct (find_by_email users e') as [ [j v] | ] eqn:Ef;
      [ injection E as <- _ _; left; reflexivity | ].
    injection E as <- _ _. right.
    exists e', {| name := n'; email := e'; password := hash b salt p';
                  avatar_url := None |}.
    split; [ exact Ef | split; reflexivity ]. }
  destruct Hcases as [ -> | (e' & u & Hnone & Heu & ->) ].
  - repeat split; trivial.
  - cbn [rows next_user_id]. repeat split.
    + intros i j x y Hx Hy Hxy. cbn [rows] in Hx, Hy.
      apply lookup_insert_Some in Hx as [ [<- <-] | [Hi Hx] ];
        apply lookup_insert_Some in Hy as [ [<- <-] | [Hj Hy] ];
        try reflexivity.
      * exfalso. apply (find_by_email_None users e' j y Hnone Hy). congruence.
      * exfalso. apply (find_by_email_None users e' i x Hnone Hx). congruence.
      * exact (Hu i j x y Hx Hy Hxy).
    + intros id Hid. cbn [rows next_user_id] in *.
      rewrite lookup_insert_ne by lia. apply Hf. lia.
    + intros id x Hx. cbn [rows].
      rewrite lookup_insert_ne; [ exact Hx | ].
      intros <-. rewrite (Hf (next_user_id users)) in Hx by lia.
      discriminate Hx.
Qed.

Lemma unique_nobody : unique_emails nobody.
Proof. intros i j u v H. discriminate H. Qed.

Lemma fresh_nobody : fresh_users nobody.
Proof. intros id _. reflexivity. Qed.

(** Ada registers with the empty table. *)
Lemma registration_witness :
  unique_emails with_ada
  /\ fresh_users with_ada
  /\ (forall id u, rows nobody !! id = Some u -> rows with_ada !! id = Some u).
Proof.
  exact (registration_keeps_emails_unique toy_bcrypt "salt1" None
           (Some "Ada"%string) (Some "ada@example.com"%string)
           (Some "lovelace"%string) (Some "lovelace"%string) nobody
           unique_nobody fresh_nobody).
Defined.





(** X26. A session is opened only for a stored user whose hash bcrypt
    accepts: when a login leaves a visitor logged in, the email and the
    password were given, a user with that email is stored under the id of
    the session, bcrypt accepted the password for the hash of that user,
    and the session carries the email and the name of that user. *)
Theorem login_is_sound (b : Bcrypt) (email password : option string)
    (users : Users) (su : SessionUser)
    (Hlogin : fst (login b None email password users) = Some su) :
  exists e p u,
    email = Some e /\ password = Some p
    /\ rows users !! s_id su = Some u
    /\ Auth.email u = e
    /\ compare b p (Auth.password u) = true
    /\ s_email su = e /\ s_name su = name u.
Proof.
  unfold login in Hlogin. cbn [isGuest] in Hlogin.
  destruct email as [ e | ]; [ | discriminate Hlogin ].
  destruct password as [ p | ]; [ | discriminate Hlogin ].
  destruct (missing (Some e) || missing (Some p)); [ discriminate Hlogin | ].
  destruct (find_by_email users e) as [ [id u] | ] eqn:Ef;
    [ | discriminate Hlogin ].
  destruct (compare b p (Auth.password u)) eqn:Ec; [ | discriminate Hlogin ].
  cbn [fst] in Hlogin. injection Hlogin as <-.
  apply find_by_email_Some in Ef as [Hu He].
  exists e, p, u. cbn [s_id s_email s_name]. repeat split; assumption.
Qed.

(** Ada, logged in. *)
Lemma login_is_sound_witness :
  exists e p u,
    Some "ada@example.com"%string = Some e
    /\ Some "lovelace"%string = Some p
    /\ rows with_ada !! 1%nat = Some u
    /\ Auth.email u = e
    /\ compare toy_bcrypt p (Auth.password u) = true
    /\ "ada@example.com"%string = e /\ "Ada"%string = name u.
Proof.
  exact (login_is_sound toy_bcrypt (Some "ada@example.com"%string)
           (Some "lovelace"%string) with_ada
           {| s_id := 1; s_email := "ada@example.com"; s_name := "Ada";
              s_avatar_url := None |}
           eq_refl).
Defined.

End AuthFacts.
